(** * Dell Redfish sensor discovery ([src/main.py]): path extraction, sensor
    classification and normalisation

    The functions of [main.py] are embedded as Rocq functions of the same
    names: [parse_json] and [extract_data] of class [Dell], the
    classification chain and the member loop of [main], and the normalisers
    [format_psu], [format_temp] and [format_sysboard].

    - A Python value that comes from JSON is a [json]; a [dict] is an
      association list in insertion order, a number an integer or a binary64
      float.
    - A Python exception is the [Raise] of the error monad [res];
      [try]/[except Exception] is [try_except].
    - The HTTP collaborator [Dell.execute_request] and [json.loads] are
      parameters of the sections that use them; [HttpClient.get] is embedded
      over the transport [requests.Session.get] and over the building of the
      Basic token (formatting, encoding and base64), which are parameters
      too.
    - Strings are Stdlib strings.  The string methods are exact on ASCII
      text; lower-casing, whitespace and digits outside ASCII, and the limit
      that recent Python versions put on the number of digits [int] accepts,
      are not modelled.
    - Logging is left out: it has no effect on the values computed. *)

From Stdlib Require Import List String Ascii ZArith Bool Lia Floats DecimalString DecimalPos.
Import ListNotations.
Open Scope string_scope.
Open Scope list_scope.

Set Implicit Arguments.
Set Warnings "-register-all".

(** ** Python exceptions as an error monad *)

Inductive exn : Type :=
| AttributeError
| TypeError
| ValueError
| IndexError
| KeyError
| RuntimeError (msg : string).

Inductive res (A : Type) : Type :=
| Ok (a : A)
| Raise (e : exn).

Arguments Ok {A} a.
Arguments Raise {A} e.

Definition bind {A B : Type} (m : res A) (k : A -> res B) : res B :=
  match m with
  | Ok a => k a
  | Raise e => Raise e
  end.

Notation "x <- m ;; k" := (bind m (fun x => k))
  (at level 61, m at next level, right associativity).
Notation "' p <- m ;; k" := (bind m (fun x => let p := x in k))
  (at level 61, p pattern, m at next level, right associativity).

(** [try: body except Exception: handler] *)
Definition try_except {A : Type} (body : res A) (handler : exn -> res A) : res A :=
  match body with
  | Ok a => Ok a
  | Raise e => handler e
  end.

Definition raises {A : Type} (m : res A) : Prop := exists e, m = Raise e.

(** ** Python [str] methods used by the program *)

Module PyStr.

(** [s.startswith(pre)] *)
Definition startswith (pre s : string) : bool := String.prefix pre s.

(** [s.endswith(suf)] *)
Fixpoint endswith (suf s : string) : bool :=
(s =? suf) ||
match s with
| EmptyString => false
| String _ s' => endswith suf s'
end.

(** [sub in s] *)
Fixpoint contains (sub s : string) : bool :=
String.prefix sub s ||
match s with
| EmptyString => false
| String _ s' => contains sub s'
end.

(** [s[:-1]] *)
Fixpoint drop_last (s : string) : string :=
match s with
| EmptyString => EmptyString
| String _ EmptyString => EmptyString
| String c s' => String c (drop_last s')
end.

(** [s.split(sep)] for a one-character separator: every occurrence of the
  separator cuts, so adjacent separators give empty pieces and the result
  is never the empty list. *)
Fixpoint split (sep : ascii) (s : string) : list string :=
match s with
| EmptyString => [EmptyString]
| String c s' =>
    if Ascii.eqb c sep then EmptyString :: split sep s'
    else match split sep s' with
         | [] => [String c EmptyString]
         | w :: ws => String c w :: ws
         end
end.

(** [s.split(sep, 1)]: cut at the first separator only. *)
Fixpoint split1 (sep : ascii) (s : string) : list string :=
match s with
| EmptyString => [EmptyString]
| String c s' =>
    if Ascii.eqb c sep then [EmptyString; s']
    else match split1 sep s' with
         | [] => [String c EmptyString]
         | w :: ws => String c w :: ws
         end
end.

(** [sep.join(parts)] *)
Definition join (sep : string) (parts : list string) : string :=
String.concat sep parts.

Definition lower_ascii (c : ascii) : ascii :=
let n := nat_of_ascii c in
if (65 <=? n)%nat && (n <=? 90)%nat then ascii_of_nat (n + 32) else c.

(** [s.lower()] *)
Fixpoint lower (s : string) : string :=
match s with
| EmptyString => EmptyString
| String c s' => String (lower_ascii c) (lower s')
end.

(** The white space that [str.strip] drops. *)
Definition is_space (c : ascii) : bool :=
let n := nat_of_ascii c in
((9 <=? n)%nat && (n <=? 13)%nat) || ((28 <=? n)%nat && (n <=? 32)%nat).

(** The white space that [int] drops around the digits of ASCII text: the
  separators 28 to 31 are not part of it. *)
Definition is_int_space (c : ascii) : bool :=
let n := nat_of_ascii c in
((9 <=? n)%nat && (n <=? 13)%nat) || (n =? 32)%nat.

Fixpoint lstrip_by (space : ascii -> bool) (s : string) : string :=
match s with
| EmptyString => EmptyString
| String c s' => if space c then lstrip_by space s' else s
end.

Definition rev (s : string) : string :=
string_of_list_ascii (List.rev (list_ascii_of_string s)).

Definition strip_by (space : ascii -> bool) (s : string) : string :=
rev (lstrip_by space (rev (lstrip_by space s))).

(** [s.strip()] *)
Definition strip (s : string) : string := strip_by is_space s.

Definition digit_val (c : ascii) : option Z :=
let n := nat_of_ascii c in
if (48 <=? n)%nat && (n <=? 57)%nat then Some (Z.of_nat (n - 48)) else None.

(** Decimal digits, single underscores allowed between two digits. *)
Fixpoint digits (acc : Z) (after_digit : bool) (s : string) : option Z :=
match s with
| EmptyString => if after_digit then Some acc else None
| String c s' =>
    match digit_val c with
    | Some d => digits (10 * acc + d) true s'
    | None =>
        if Ascii.eqb c "_" && after_digit then digits acc false s' else None
    end
end.

(** The digits with their sign, if any. *)
Definition signed (t : string) : option Z :=
match t with
| String "+" r => digits 0 false r
| String "-" r => option_map Z.opp (digits 0 false r)
| _ => digits 0 false t
end.

(** [int(s)] in base ten: surrounding whitespace is dropped, one sign is
  accepted; anything else raises [ValueError]. *)
Definition to_int (s : string) : res Z :=
match signed (strip_by is_int_space s) with
| Some z => Ok z
| None => Raise ValueError
end.

End PyStr.

(** ** JSON values *)

Inductive json : Type :=
| JNull
| JBool (b : bool)
| JInt (z : Z)
| JFloat (f : float)
| JStr (s : string)
| JList (l : list json)
| JDict (d : list (string * json)).

(** A [dict] keeps its keys in insertion order. *)
Definition dict := list (string * json).

Fixpoint dict_get (k : string) (d : dict) : option json :=
  match d with
  | [] => None
  | (k', v) :: d' => if k' =? k then Some v else dict_get k d'
  end.

(** [d.get(k, default)] *)
Definition dict_get_or (k : string) (default : json) (d : dict) : json :=
  match dict_get k d with
  | Some v => v
  | None => default
  end.

(** [d[k] = v]: an existing key keeps its position. *)
Fixpoint dict_set (k : string) (v : json) (d : dict) : dict :=
  match d with
  | [] => [(k, v)]
  | (k', v') :: d' =>
      if k' =? k then (k, v) :: d' else (k', v') :: dict_set k v d'
  end.

(** [k in d] *)
Definition dict_mem (k : string) (d : dict) : bool :=
  match dict_get k d with
  | Some _ => true
  | None => false
  end.

(** [d.update(e)] *)
Definition dict_update (d e : dict) : dict :=
  fold_left (fun acc kv => dict_set (fst kv) (snd kv) acc) e d.

(** [x is None] *)
Definition is_none (x : json) : bool :=
  match x with
  | JNull => true
  | _ => false
  end.

(** [isinstance(x, str)] *)
Definition is_str (x : json) : bool :=
  match x with
  | JStr _ => true
  | _ => false
  end.

(** [x == s] for a string literal [s] *)
Definition eq_str (x : json) (s : string) : bool :=
  match x with
  | JStr t => t =? s
  | _ => false
  end.

(** Truth value of a Python object, as [or] and [if] test it. *)
Definition truthy (x : json) : bool :=
  match x with
  | JNull => false
  | JBool b => b
  | JInt z => negb (z =? 0)%Z
  | JFloat f => negb (PrimFloat.eqb f 0%float)
  | JStr s => negb (s =? "")
  | JList l => match l with [] => false | _ => true end
  | JDict d => match d with [] => false | _ => true end
  end.

(** [a or b] *)
Definition py_or (a b : json) : json := if truthy a then a else b.

(** [x.get(k)]: only a [dict] has the method. *)
Definition py_get (x : json) (k : string) : res json :=
  match x with
  | JDict d => Ok (dict_get_or k JNull d)
  | _ => Raise AttributeError
  end.

(** Position of index [i] in a sequence of [n] items, counting from the end
    when [i] is negative. *)
Definition norm_index (n : nat) (i : Z) : option nat :=
  if (0 <=? i)%Z then
    (if (i <? Z.of_nat n)%Z then Some (Z.to_nat i) else None)
  else
    (if (- Z.of_nat n <=? i)%Z then Some (Z.to_nat (Z.of_nat n + i)) else None).

(** [x[i]] for an integer [i]. *)
Definition py_getitem (x : json) (i : Z) : res json :=
  match x with
  | JList l =>
      match norm_index (List.length l) i with
      | Some n => match nth_error l n with
                  | Some v => Ok v
                  | None => Raise IndexError
                  end
      | None => Raise IndexError
      end
  | JStr s =>
      match norm_index (String.length s) i with
      | Some n => match String.get n s with
                  | Some c => Ok (JStr (String c EmptyString))
                  | None => Raise IndexError
                  end
      | None => Raise IndexError
      end
  | JDict _ => Raise KeyError
  | _ => Raise TypeError
  end.

(** [a, b = parts] *)
Definition unpack2 (parts : list string) : res (string * string) :=
  match parts with
  | [a; b] => Ok (a, b)
  | _ => Raise ValueError
  end.

(** ** Dell.parse_json *)

(** What one turn of the loop does: go on with a new [current], or leave the
    function with a value. *)
Inductive flow : Type :=
| Next (current : json)
| Return (v : json).

(** The body of the outer [try] for one path element. *)
Definition segment_body (current : json) (p : string) : res flow :=
  if PyStr.endswith "]" p && PyStr.contains "[" p then
    '(key_part, idx_part) <- unpack2 (PyStr.split1 "[" (PyStr.drop_last p)) ;;
    c1 <- py_get current key_part ;;
    idx <- PyStr.to_int idx_part ;;
    c2 <- py_getitem c1 idx ;;
    Ok (Next c2)
  else
    match current with
    | JDict d => Ok (Next (dict_get_or p JNull d))
    | JList _ =>
        try_except
          (idx <- PyStr.to_int p ;;
           c <- py_getitem current idx ;;
           Ok (Next c))
          (fun _ => Ok (Return JNull))
    | _ => Ok (Return JNull)
    end.

Definition segment (current : json) (p : string) : res flow :=
  try_except (segment_body current p) (fun _ => Ok (Return JNull)).

Fixpoint parse_json (data : json) (json_path : list string) : res json :=
  match json_path with
  | [] => Ok data
  | p :: rest =>
      if is_none data then Ok JNull
      else
        fl <- segment data p ;;
        match fl with
        | Next current => parse_json current rest
        | Return v => Ok v
        end
  end.

(** Monadic iteration over a list, stopping at the first exception. *)
Fixpoint map_res {A B : Type} (f : A -> res B) (l : list A) : res (list B) :=
  match l with
  | [] => Ok []
  | x :: xs => y <- f x ;; ys <- map_res f xs ;; Ok (y :: ys)
  end.

Fixpoint fold_res {A S : Type} (f : S -> A -> res S) (l : list A) (s : S) : res S :=
  match l with
  | [] => Ok s
  | x :: xs => s' <- f s x ;; fold_res f xs s'
  end.

(** ** Dell.extract_data *)

Record named_key : Type := NamedKey { key_name : string; key_path : string }.

(** The three shapes of the [keys] argument. *)
Inductive keyspec : Type :=
| KeyList (keys : list named_key)
| KeyRecord (key : named_key)
| KeyPath (path : string).

Section Extraction.

(** [json.loads] *)
Variable loads : string -> res json.

Definition load_document (data : json) (skip_parse : bool) : res json :=
  match data with
  | JStr text =>
      if negb skip_parse then
        try_except (loads text)
          (fun _ => Raise (RuntimeError
             "Could not parse received JSON object. See logs for more information."))
      else Ok data
  | _ => Ok data
  end.

Definition extract_key (data : json) (return_buffer : dict) (key : named_key)
  : res dict :=
  let name := key_name key in
  let path := key_path key in
  if path =? "@odata.id" then
    v <- py_get data path ;;
    Ok (dict_set name v return_buffer)
  else
    v <- parse_json data (PyStr.split "." path) ;;
    Ok (dict_set name v return_buffer).

Definition extract_data (data : json) (keys : keyspec) (skip_parse : bool)
  : res json :=
  data <- load_document data skip_parse ;;
  match keys with
  | KeyList keys =>
      return_buffer <- fold_res (extract_key data) keys [] ;;
      Ok (JDict return_buffer)
  | KeyRecord key =>
      v <- parse_json data (PyStr.split "." (key_path key)) ;;
      Ok (JDict [(key_name key, v)])
  | KeyPath path =>
      parse_json data (PyStr.split "." path)
  end.

End Extraction.

(** ** Sensor classification (the [if]/[elif] chain of [main]) *)

(** [x.get(k, default)] on any object. *)
Definition py_get_default (x : json) (k : string) (default : json) : res json :=
  match x with
  | JDict d => Ok (dict_get_or k default d)
  | _ => Raise AttributeError
  end.

(** [x.startswith(pre)] *)
Definition py_startswith (x : json) (pre : string) : res bool :=
  match x with
  | JStr s => Ok (PyStr.startswith pre s)
  | _ => Raise AttributeError
  end.

(** [sub in x] for a string literal [sub] *)
Definition py_in (sub : string) (x : json) : res bool :=
  match x with
  | JStr s => Ok (PyStr.contains sub s)
  | JList l => Ok (existsb (fun v => eq_str v sub) l)
  | JDict d => Ok (dict_mem sub d)
  | _ => Raise TypeError
  end.

(** [a and b], [b] evaluated only when [a] holds. *)
Definition py_and (a b : res bool) : res bool :=
  x <- a ;; if x then b else Ok false.

(** The branch of the chain that handles a record. *)
Inductive rule : Type :=
| RulePsuName
| RuleTemperature
| RuleFan
| RuleSysBoard
| FallbackPsu
| FallbackSysBoard
| Ignore.

Inductive bucket : Type := Fan | Psu | Temperature | SysBoard.

Definition bucket_of (r : rule) : option bucket :=
  match r with
  | RulePsuName | FallbackPsu => Some Psu
  | RuleTemperature => Some Temperature
  | RuleFan => Some Fan
  | RuleSysBoard | FallbackSysBoard => Some SysBoard
  | Ignore => None
  end.

Definition classify (parsed : json) : res rule :=
  reading_type <- py_get parsed "type" ;;
  name <- py_get_default parsed "name" (JStr "") ;;
  c1 <- py_and (Ok (is_str name))
          (py_and (py_startswith name "PS")
                  (ctx <- py_get parsed "context" ;; Ok (eq_str ctx "PowerSupply"))) ;;
  if c1 then Ok RulePsuName
  else if eq_str reading_type "Temperature" then Ok RuleTemperature
  else
    c3 <- py_and (Ok (is_str name))
            (py_and (py_in "Fan" name) (Ok (eq_str reading_type "Rotational"))) ;;
    if c3 then Ok RuleFan
    else
      c4 <- py_and (Ok (is_str name))
              (py_and (py_in "System Board" name) (Ok (eq_str reading_type "Percent"))) ;;
      if c4 then Ok RuleSysBoard
      else
        ctx <- py_get_default parsed "context" (JStr "") ;;
        if eq_str ctx "PowerSupply" then Ok FallbackPsu
        else if eq_str ctx "Chassis" then Ok FallbackSysBoard
        else Ok Ignore.

(** The dictionary [out] of [main], one list per category. *)
Record buckets : Type := Buckets {
  fan : list json;
  psu : list json;
  temperature : list json;
  sysBoard : list json
}.

Definition empty_out : buckets := Buckets [] [] [] [].

Definition append_to (b : bucket) (parsed : json) (out : buckets) : buckets :=
  match b with
  | Fan => Buckets (fan out ++ [parsed]) (psu out) (temperature out) (sysBoard out)
  | Psu => Buckets (fan out) (psu out ++ [parsed]) (temperature out) (sysBoard out)
  | Temperature => Buckets (fan out) (psu out) (temperature out ++ [parsed]) (sysBoard out)
  | SysBoard => Buckets (fan out) (psu out) (temperature out) (sysBoard out ++ [parsed])
  end.

Definition classify_into (out : buckets) (parsed : json) : res buckets :=
  r <- classify parsed ;;
  match bucket_of r with
  | Some b => Ok (append_to b parsed out)
  | None => Ok out
  end.

(** ** Category normalisers *)

(** [x.split(sep)] *)
Definition py_split (x : json) (sep : ascii) : res (list string) :=
  match x with
  | JStr s => Ok (PyStr.split sep s)
  | _ => Raise AttributeError
  end.

(** [x.lower()] *)
Definition py_lower (x : json) : res string :=
  match x with
  | JStr s => Ok (PyStr.lower s)
  | _ => Raise AttributeError
  end.

(** [parts[0]] *)
Definition first_part (parts : list string) : res string :=
  match parts with
  | [] => Raise IndexError
  | w :: _ => Ok w
  end.

(** [d[k]] for a string key *)
Definition dict_getitem (k : string) (d : dict) : res json :=
  match dict_get k d with
  | Some v => Ok v
  | None => Raise KeyError
  end.

(** [x[k] = v] for a string key *)
Definition py_setitem (x : json) (k : string) (v : json) : res json :=
  match x with
  | JDict d => Ok (JDict (dict_set k v d))
  | _ => Raise TypeError
  end.

(** [obj.get("name", "").split(" ")[0]] *)
Definition psu_name_of (obj : json) : res string :=
  nm <- py_get_default obj "name" (JStr "") ;;
  parts <- py_split nm " " ;;
  first_part parts.

(** [obj.get("type", "").lower()] *)
Definition psu_key_of (obj : json) : res string :=
  ty <- py_get_default obj "type" (JStr "") ;;
  py_lower ty.

(** [{"reading": obj.get("reading"), "health": obj.get("health")}] *)
Definition psu_entry_of (obj : json) : res json :=
  reading <- py_get obj "reading" ;;
  health <- py_get obj "health" ;;
  Ok (JDict [("reading", reading); ("health", health)]).

(** The inner [for b in buffer] loop with its [break]. *)
Fixpoint update_buffer (psu_name : string) (obj : json) (buffer : list dict)
  : res (list dict) :=
  match buffer with
  | [] => Ok []
  | b :: bs =>
      nm <- dict_getitem "name" b ;;
      if eq_str nm psu_name then
        k <- psu_key_of obj ;;
        e <- psu_entry_of obj ;;
        Ok (dict_set k e b :: bs)
      else
        bs' <- update_buffer psu_name obj bs ;;
        Ok (b :: bs')
  end.

Definition psu_step (st : list string * list dict) (obj : json)
  : res (list string * list dict) :=
  let '(found_power_supplies, buffer) := st in
  psu_name <- psu_name_of obj ;;
  if negb (existsb (String.eqb psu_name) found_power_supplies) then
    k <- psu_key_of obj ;;
    e <- psu_entry_of obj ;;
    Ok (found_power_supplies ++ [psu_name],
        buffer ++ [dict_set k e [("name", JStr psu_name)]])
  else
    buffer' <- update_buffer psu_name obj buffer ;;
    Ok (found_power_supplies, buffer').

Definition format_psu (psu_obj : list json) : res (list json) :=
  st <- fold_res psu_step psu_obj ([], []) ;;
  Ok (map JDict (snd st)).

Definition format_temp_obj (obj : json) : res json :=
  name <- py_get_default obj "name" (JStr "") ;;
  parts <- py_split name " " ;;
  if (1 <? List.length parts)%nat then
    py_setitem obj "name" (JStr (PyStr.join " " (removelast parts)))
  else Ok obj.

Definition format_temp (temp_obj : list json) : res (list json) :=
  map_res format_temp_obj temp_obj.

(** The list [remove] of [format_sysboard]. *)
Definition remove : list string := ["System"; "Board"; "Usage"].

Definition format_sysboard_obj (obj : json) : res json :=
  name <- py_get_default obj "name" (JStr "") ;;
  words <- py_split name " " ;;
  let buffer := filter (fun w => negb (existsb (String.eqb w) remove)) words in
  match buffer with
  | [] => Ok obj
  | _ => py_setitem obj "name" (JStr (PyStr.join " " buffer))
  end.

Definition format_sysboard (sys_obj : list json) : res (list json) :=
  map_res format_sysboard_obj sys_obj.

(** ** The orchestration in [main] *)

(** [isinstance(x, list)] *)
Definition is_list (x : json) : bool :=
  match x with
  | JList _ => true
  | _ => false
  end.

(** [d.update(x)] *)
Definition py_update (d : dict) (x : json) : res dict :=
  match x with
  | JDict e => Ok (dict_update d e)
  | _ => Raise TypeError
  end.

Definition system_keys : keyspec :=
  KeyList [NamedKey "model" "Model";
           NamedKey "serialnumber" "Oem.Dell.DellSystem.ChassisServiceTag";
           NamedKey "status" "Status.Health"].

Definition manager_keys : keyspec :=
  KeyRecord (NamedKey "firmware" "FirmwareVersion").

Definition requests_list : list (string * keyspec) :=
  [("/redfish/v1/Systems/System.Embedded.1", system_keys);
   ("/redfish/v1/Managers/iDRAC.Embedded.1", manager_keys)].

Definition sensors_path : string :=
  "/redfish/v1/Chassis/System.Embedded.1/Sensors?$expand=.($levels=1)".

Definition sensor_keys : keyspec :=
  KeyList [NamedKey "id" "Id";
           NamedKey "name" "Name";
           NamedKey "context" "PhysicalContext";
           NamedKey "reading" "Reading";
           NamedKey "type" "ReadingType";
           NamedKey "health" "Status.Health"].

Definition out_dict (out : buckets) : dict :=
  [("fan", JList (fan out));
   ("psu", JList (psu out));
   ("temperature", JList (temperature out));
   ("sysBoard", JList (sysBoard out))].

Section Pipeline.

(** The HTTP collaborator, [Dell.execute_request], and [json.loads]. *)
Variable execute_request : string -> res string.
Variable loads : string -> res json.

(** [base + api_path] needs a string. *)
Definition request (api_path : json) : res string :=
  match api_path with
  | JStr path => execute_request path
  | _ => Raise TypeError
  end.

Definition fetch (api_path : json) : res json :=
  sensor_text <- request api_path ;;
  loads sensor_text.

(** First phase: the scalar fields. *)
Definition system_step (buffer : dict) (req : string * keyspec) : dict :=
  let attempt :=
    resp_text <- execute_request (fst req) ;;
    extracted <- extract_data loads (JStr resp_text) (snd req) false ;;
    py_update buffer extracted in
  match attempt with
  | Ok buffer' => buffer'
  | Raise _ => buffer
  end.

Definition system_phase : dict := fold_left system_step requests_list [].

(** The member list of the sensor collection. *)
Definition select_sensors (sensors_raw : string) : res (list json) :=
  let sensors_parsed := try_except (loads sensors_raw) (fun _ => Ok JNull) in
  sensors_parsed <- sensors_parsed ;;
  let sensors :=
    match sensors_parsed with
    | JDict d =>
        py_or (py_or (dict_get_or "Members" JNull d) (dict_get_or "members" JNull d))
              sensors_parsed
    | _ => JNull
    end in
  sensors <- (if is_none sensors
              then try_except (loads sensors_raw) (fun _ => Ok JNull)
              else Ok sensors) ;;
  match sensors with
  | JList l => Ok l
  | _ => Raise (RuntimeError "Unexpected type for sensors.")
  end.

(** The object to extract from for one member; [None] is [continue]. *)
Definition resolve_member (sensor : json) : option json :=
  match sensor with
  | JDict d =>
      if dict_mem "@odata.id" d
         || (dict_mem "Members" d && is_list (dict_get_or "Members" JNull d))
      then
        if dict_mem "@odata.id" d then
          match fetch (dict_get_or "@odata.id" JNull d) with
          | Ok sensor_obj => Some sensor_obj
          | Raise _ => None
          end
        else Some sensor
      else Some sensor
  | JStr _ =>
      match fetch sensor with
      | Ok sensor_obj => Some sensor_obj
      | Raise _ => None
      end
  | _ => None
  end.

(** One turn of [for sensor in sensors]. *)
Definition member_step (out : buckets) (sensor : json) : res buckets :=
  match resolve_member sensor with
  | None => Ok out
  | Some sensor_obj =>
      match extract_data loads sensor_obj sensor_keys true with
      | Raise _ => Ok out
      | Ok parsed => classify_into out parsed
      end
  end.

Definition classify_members (sensors : list json) : res buckets :=
  fold_res member_step sensors empty_out.

Definition normalise (out : buckets) : res buckets :=
  psu' <- format_psu (psu out) ;;
  temperature' <- format_temp (temperature out) ;;
  sysBoard' <- format_sysboard (sysBoard out) ;;
  Ok (Buckets (fan out) psu' temperature' sysBoard').

(** The body of the second [try] of [main]. *)
Definition sensors_phase : res buckets :=
  sensors_raw <- execute_request sensors_path ;;
  sensors <- select_sensors sensors_raw ;;
  out <- classify_members sensors ;;
  normalise out.

(** The document printed at the end. *)
Definition main_output : dict :=
  let buffer := system_phase in
  match sensors_phase with
  | Ok out => dict_update buffer (out_dict out)
  | Raise _ => buffer
  end.

End Pipeline.

(** ** validate_zabbix_params *)

(** The function returns nothing, or raises [ParamError] with a message. *)
Inductive validation : Type :=
| ParamsOk
| ParamError (msg : string).

(** [v in ("", None)] *)
Definition unset_value (v : json) : bool := eq_str v "" || is_none v.

(** The test of the loop body for one required field. *)
Definition param_missing (field : string) (all_params : json) : bool :=
  match all_params with
  | JDict d =>
      match dict_get field d with
      | None => true
      | Some v => unset_value v
      end
  | _ => true
  end.

Fixpoint validate_zabbix_params (required_params : list string) (all_params : json)
  : validation :=
  match required_params with
  | [] => ParamsOk
  | field :: rest =>
      if param_missing field all_params
      then ParamError ("Required param is not set: " ++ field ++ ".")
      else validate_zabbix_params rest all_params
  end.

(** ** HttpClient.get and Dell.execute_request *)

(** What the program reads of a [requests] response. *)
Record response : Type := Response { status_code : Z; text : string }.

(** [resp.ok]: [raise_for_status] complains about 400 to 599. *)
Definition resp_ok (resp : response) : bool :=
  negb ((400 <=? status_code resp)%Z && (status_code resp <? 600)%Z).

(** [int(f)] for a float: towards zero; not a number and the infinities
    raise. *)
Definition float_to_int (f : float) : option Z :=
  match Prim2SF f with
  | S754_zero _ => Some 0%Z
  | S754_finite s m e =>
      let magnitude :=
        if (0 <=? e)%Z then Z.shiftl (Zpos m) e else Z.shiftr (Zpos m) (- e) in
      Some (if s then (- magnitude)%Z else magnitude)
  | S754_infinity _ => None
  | S754_nan => None
  end.

(** [status_expected]: [int(expected_status)] when there is a value and the
    conversion does not raise, [None] otherwise. *)
Definition status_expected (expected_status : json) : option Z :=
  match expected_status with
  | JNull => None
  | JBool b => Some (if b then 1 else 0)%Z
  | JInt z => Some z
  | JFloat f => float_to_int f
  | JStr s =>
      match PyStr.to_int s with
      | Ok z => Some z
      | Raise _ => None
      end
  | JList _ => None
  | JDict _ => None
  end.

(** [str(n)] for an integer. *)
Definition str_of_int (n : Z) : string := NilZero.string_of_int (Z.to_int n).

(** [s.rstrip(c)] for a one-character argument. *)
Fixpoint str_rstrip (c : ascii) (s : string) : string :=
  match s with
  | EmptyString => EmptyString
  | String a s' =>
      match str_rstrip c s' with
      | EmptyString => if Ascii.eqb a c then EmptyString else String a EmptyString
      | r => String a r
      end
  end.

(** [x.rstrip(c)] *)
Definition py_rstrip (x : json) (c : ascii) : res string :=
  match x with
  | JStr s => Ok (str_rstrip c s)
  | _ => Raise AttributeError
  end.

(** What the program sets on its [requests.Session]. *)
Record session : Type := Session {
  auth : option (json * json);
  proxies : option dict
}.

(** [HttpClient._prepare_auth] *)
Definition _prepare_auth (params : dict) : option (json * json) :=
  let user := dict_get_or "user" JNull params in
  let password := dict_get_or "password" JNull params in
  if negb (is_none user) && negb (is_none password)
  then Some (user, password)
  else None.

(** [HttpClient._prepare_proxy] *)
Definition _prepare_proxy (params : dict) : option dict :=
  let proxy := dict_get_or "http_proxy" JNull params in
  if truthy proxy then Some [("http", proxy); ("https", proxy)] else None.

(** [HttpClient.__init__]: the session of a new client. *)
Definition HttpClient (params : dict) : session :=
  Session (_prepare_auth params) (_prepare_proxy params).

Section Http.

(** [self.session.get(url, headers=headers, timeout=10, verify=verify)]: the
    reply, or the exception of the transport. *)
Variable session_get :
  session -> string -> list (string * string) -> json -> res response.

(** [base64.b64encode(f"{user}:{password}".encode()).decode()], which raises
    when the text cannot be encoded. *)
Variable basic_token : json -> json -> res string.

Variable params : dict.

Definition get (url : string) (expected_status : json) : res string :=
  headers <-
    (if truthy (dict_get_or "force_basic_header" JNull params) then
       let user := dict_get_or "user" (JStr "") params in
       let password := dict_get_or "password" (JStr "") params in
       token <- basic_token user password ;;
       Ok [("Authorization", ("Basic " ++ token)%string)]
     else Ok []) ;;
  resp <- session_get (HttpClient params) url headers
            (dict_get_or "verify_ssl" (JBool true) params) ;;
  match status_expected expected_status with
  | Some expected =>
      if (status_code resp =? expected)%Z then Ok (text resp)
      else Raise (RuntimeError
                    ("Unexpected HTTP response code: " ++ str_of_int (status_code resp)))
  | None =>
      if resp_ok resp then Ok (text resp)
      else Raise (RuntimeError ("HTTP error " ++ str_of_int (status_code resp)))
  end.

Definition execute_request (api_path : string) : res string :=
  base <- py_rstrip (dict_get_or "url" (JStr "") params) "/" ;;
  let url := (base ++ api_path)%string in
  let expected_code := dict_get_or "http_status_code" JNull params in
  get url expected_code.

End Http.



(** ** The start of [main]: input, parameters, exit *)


Definition required_params : list string :=
  ["url"; "user"; "password"; "http_status_code"].



(** * The prober ([src/prober-kubernetes.py]): one probe and its metrics

    The HTTP library, the clock and the Prometheus registry are replaced by
    a script of replies, a script of clock readings and a log of events: the
    [n]-th call of [requests.request] gets the [n]-th reply, the [n]-th call
    of [time.time] the [n]-th reading, and every request, observation and
    increment is appended to the log. *)

Module Prober.

(** What [requests.request] does: a response with a status code, or an
    exception. *)
Inductive reply : Type :=
| Status (code : Z)
| Failed.

Inductive probe_exn : Type :=
| TransportError
| HTTPError (code : Z).

(** What [do_probe] does: return the response, or raise. *)
Inductive probed : Type :=
| Returned (code : Z)
| Raised (e : probe_exn).

Inductive event : Type :=
| Requested (method url : string) (body : option json)
| Observed (namespace scenario endpoint : string) (duration : float)
| Counted (namespace scenario endpoint code : string).

Record state : Type := State {
  requests_made : nat;
  clock_reads : nat;
  events : list event
}.

(** [r.raise_for_status()] raises. *)
Definition is_error (code : Z) : bool := (400 <=? code)%Z && (code <? 600)%Z.

Section Probes.

Variable replies : nat -> reply.
Variable clock : nat -> float.
Variables BASE_URL NAMESPACE : string.

(** [time.time()] *)
Definition read_clock (st : state) : float * state :=
  (clock (clock_reads st),
   State (requests_made st) (S (clock_reads st)) (events st)).

(** [requests.request(method, url, timeout=10, **kwargs)] *)
Definition request (method url : string) (body : option json) (st : state)
  : reply * state :=
  (replies (requests_made st),
   State (S (requests_made st)) (clock_reads st)
         (events st ++ [Requested method url body])).

(** The two metric updates that follow a request. *)
Definition record_metrics (start : float) (scenario endpoint code : string)
    (st : state) : state :=
  let '(now, st) := read_clock st in
  let duration := PrimFloat.sub now start in
  State (requests_made st) (clock_reads st)
        (events st ++ [Observed NAMESPACE scenario endpoint duration;
                       Counted NAMESPACE scenario endpoint code]).

Definition do_probe (method url scenario endpoint : string) (body : option json)
    (st : state) : probed * state :=
  let '(start, st) := read_clock st in
  let '(r, st) := request method url body st in
  match r with
  | Status status =>
      let code := str_of_int status in
      let st := record_metrics start scenario endpoint code st in
      if is_error status then
        (Raised (HTTPError status),
         record_metrics start scenario endpoint code st)
      else (Returned status, st)
  | Failed =>
      (Raised TransportError,
       record_metrics start scenario endpoint "exception" st)
  end.

(** A probe function returns nothing, or raises. *)
Definition probe_health (st : state) : option probe_exn * state :=
  match do_probe "GET" (BASE_URL ++ "/healthcheck") "healthcheck" "/healthcheck" None st with
  | (Returned _, st') => (None, st')
  | (Raised e, st') => (Some e, st')
  end.

Definition probe_teams (st : state) : option probe_exn * state :=
  match do_probe "GET" (BASE_URL ++ "/api/v0/teams") "get_teams" "/api/v0/teams" None st with
  | (Returned _, st') => (None, st')
  | (Raised e, st') => (Some e, st')
  end.

Definition roster_endpoint : string := "/api/v0/teams/Test Team/rosters/test-roster".

Definition rosters_endpoint : string := "/api/v0/teams/Test Team/rosters".

Definition probe_roster (st : state) : option probe_exn * state :=
  let cleanup_url := (BASE_URL ++ roster_endpoint)%string in
  let create_url := (BASE_URL ++ rosters_endpoint)%string in
  let '(_, st) := do_probe "DELETE" cleanup_url "roster_cycle" roster_endpoint None st in
  match do_probe "POST" create_url "roster_cycle" rosters_endpoint
                 (Some (JDict [("name", JStr "test-roster")])) st with
  | (Raised e, st) => (Some e, st)
  | (Returned _, st) =>
      let '(_, st) :=
        do_probe "DELETE" cleanup_url "roster_cycle" roster_endpoint None st in
      (None, st)
  end.

End Probes.

(** The value of the counter [prober_http_requests_total] for one set of
    labels: the increments logged for it. *)
Definition is_counted (namespace scenario endpoint code : string) (e : event) : bool :=
  match e with
  | Counted n s p c => (n =? namespace) && (s =? scenario) && (p =? endpoint) && (c =? code)
  | _ => false
  end.

Definition total (namespace scenario endpoint code : string) (st : state) : nat :=
  List.length (filter (is_counted namespace scenario endpoint code) (events st)).

(** The number of observations of the histogram for one set of labels. *)
Definition is_observed (namespace scenario endpoint : string) (e : event) : bool :=
  match e with
  | Observed n s p _ => (n =? namespace) && (s =? scenario) && (p =? endpoint)
  | _ => false
  end.

Definition samples (namespace scenario endpoint : string) (st : state) : nat :=
  List.length (filter (is_observed namespace scenario endpoint) (events st)).

(** The requests logged, oldest first. *)
Definition requested (st : state) : list (string * string) :=
  flat_map (fun e => match e with
                     | Requested method url _ => [(method, url)]
                     | _ => []
                     end) (events st).

(** The code label of a reply, and how often the reply is counted. *)
Definition code_label (r : reply) : string :=
  match r with
  | Status status => str_of_int status
  | Failed => "exception"
  end.

Definition times_counted (r : reply) : nat :=
  match r with
  | Status status => if is_error status then 2 else 1
  | Failed => 1
  end.

(** [do_probe] returns on this reply. *)
Definition succeeds (r : reply) : bool :=
  match r with
  | Status status => negb (is_error status)
  | Failed => false
  end.

End Prober.


(** ** Vocabulary of the properties *)

(** *** Value navigator *)

(** A path element written [K[i]]. *)
Definition bracketed (key_part idx_part : string) : string :=
  key_part ++ "[" ++ idx_part ++ "]".

(** One step of the traversal fails at [current]: the value is absent, the
    step raises (the value cannot be indexed that way, or is too short), or
    the step ends in [None]. *)
Definition step_fails (current : json) (p : string) : Prop :=
  current = JNull \/
  raises (segment_body current p) \/
  segment_body current p = Ok (Return JNull) \/
  segment_body current p = Ok (Next JNull).

(** *** The design document's wording of the classifier rules and of the
    normalisers *)

Module Spec.

(** *** Classifier *)

Definition field_is (k s : string) (d : dict) : Prop :=
  dict_get k d = Some (JStr s).

Definition name_starts_with (pre : string) (d : dict) : Prop :=
  exists rest, dict_get "name" d = Some (JStr (pre ++ rest)).

Definition name_contains (sub : string) (d : dict) : Prop :=
  exists before after, dict_get "name" d = Some (JStr (before ++ sub ++ after)).

Definition rule1 (d : dict) : Prop :=
  name_starts_with "PS" d /\ field_is "context" "PowerSupply" d.
Definition rule2 (d : dict) : Prop :=
  field_is "type" "Temperature" d.
Definition rule3 (d : dict) : Prop :=
  name_contains "Fan" d /\ field_is "type" "Rotational" d.
Definition rule4 (d : dict) : Prop :=
  name_contains "System Board" d /\ field_is "type" "Percent" d.
Definition fallback_psu (d : dict) : Prop :=
  field_is "context" "PowerSupply" d.
Definition fallback_sysboard (d : dict) : Prop :=
  field_is "context" "Chassis" d.

(** First match wins. *)
Inductive selects (d : dict) : rule -> Prop :=
| by_rule1 :
    rule1 d -> selects d RulePsuName
| by_rule2 :
    ~ rule1 d -> rule2 d -> selects d RuleTemperature
| by_rule3 :
    ~ rule1 d -> ~ rule2 d -> rule3 d -> selects d RuleFan
| by_rule4 :
    ~ rule1 d -> ~ rule2 d -> ~ rule3 d -> rule4 d -> selects d RuleSysBoard
| by_fallback_psu :
    ~ rule1 d -> ~ rule2 d -> ~ rule3 d -> ~ rule4 d ->
    fallback_psu d -> selects d FallbackPsu
| by_fallback_sysboard :
    ~ rule1 d -> ~ rule2 d -> ~ rule3 d -> ~ rule4 d ->
    ~ fallback_psu d -> fallback_sysboard d -> selects d FallbackSysBoard
| by_nothing :
    ~ rule1 d -> ~ rule2 d -> ~ rule3 d -> ~ rule4 d ->
    ~ fallback_psu d -> ~ fallback_sysboard d -> selects d Ignore.

(** The bucket each rule leads to. *)
Definition bucket_for (r : rule) : option bucket :=
  match r with
  | RulePsuName => Some Psu
  | RuleTemperature => Some Temperature
  | RuleFan => Some Fan
  | RuleSysBoard => Some SysBoard
  | FallbackPsu => Some Psu
  | FallbackSysBoard => Some SysBoard
  | Ignore => None
  end.

(** [out'] is [out] with the record added at the end of the list of bucket
    [b], when there is one; every other list is as it was. *)
Definition placed (b : option bucket) (parsed : json) (out out' : buckets) : Prop :=
  fan out' = fan out ++ match b with Some Fan => [parsed] | _ => [] end /\
  psu out' = psu out ++ match b with Some Psu => [parsed] | _ => [] end /\
  temperature out' =
    temperature out ++ match b with Some Temperature => [parsed] | _ => [] end /\
  sysBoard out' = sysBoard out ++ match b with Some SysBoard => [parsed] | _ => [] end.

(** *** Normalisers *)

(** A token list after the temperature trim: the final token goes when
    there is more than one. *)
Definition drop_final (tokens : list string) : list string :=
  if (1 <? List.length tokens)%nat then removelast tokens else tokens.

(** The tokens of a text: its maximal runs of characters that are not white
    space. *)
Fixpoint tokens_from (current s : string) : list string :=
  match s with
  | EmptyString =>
      match current with
      | EmptyString => []
      | _ => [current]
      end
  | String c s' =>
      if PyStr.is_space c then
        match current with
        | EmptyString => tokens_from "" s'
        | _ => current :: tokens_from "" s'
        end
      else tokens_from (current ++ String c "") s'
  end.

Definition tokens (s : string) : list string := tokens_from "" s.

(** The first whitespace-delimited token of a name. *)
Definition first_token (name : string) : string := hd "" (tokens name).

(** The temperature trim: with more than one token the final one goes and
    the others are joined again; a name of one token is left as it is. *)
Definition temp_trim (name : string) : string :=
  if (1 <? List.length (tokens name))%nat
  then PyStr.join " " (removelast (tokens name))
  else name.

End Spec.

(** *** Power supply merge: groups, keys and entries as the code forms them *)

(** The group of a power-supply record: the piece of its name before the
    first space (the whole name when it has no space). *)
Definition first_piece (obj : json) : string :=
  match obj with
  | JDict d =>
      match dict_get_or "name" (JStr "") d with
      | JStr s => hd "" (PyStr.split " " s)
      | _ => ""
      end
  | _ => ""
  end.

(** The lowercased reading type of a record. *)
Definition reading_key (obj : json) : string :=
  match obj with
  | JDict d =>
      match dict_get_or "type" (JStr "") d with
      | JStr s => PyStr.lower s
      | _ => ""
      end
  | _ => ""
  end.

(** The pair of reading and health of a record. *)
Definition reading_entry (obj : json) : json :=
  match obj with
  | JDict d =>
      JDict [("reading", dict_get_or "reading" JNull d);
             ("health", dict_get_or "health" JNull d)]
  | _ => JNull
  end.

Definition see (acc : list string) (x : string) : list string :=
  if existsb (String.eqb x) acc then acc else acc ++ [x].

(** The distinct items of a list, in the order of their first occurrence. *)
Definition first_seen (l : list string) : list string := fold_left see l [].

(** The last record of the scan that belongs to group [t] and has key [k]. *)
Definition last_reading (t k : string) (objs : list json) : option json :=
  find (fun o => (first_piece o =? t) && (reading_key o =? k)) (rev objs).

(** The record emitted for group [t]: its name is the piece and every other
    key is a lowercased reading type of the group, with the entry of the
    last record of that type. *)
Definition merged (objs : list json) (t : string) (b : dict) : Prop :=
  dict_get "name" b = Some (JStr t) /\
  forall k, k <> "name" ->
            dict_get k b = option_map reading_entry (last_reading t k objs).


(** *** Classifier: the chain as a function, and bucket bookkeeping *)

(** The tests of the chain on a record, as booleans. *)
Definition name_of (d : dict) : json := dict_get_or "name" (JStr "") d.

Definition name_test (test : string -> bool) (d : dict) : bool :=
  match name_of d with
  | JStr s => test s
  | _ => false
  end.

Definition test1 (d : dict) : bool :=
  name_test (PyStr.startswith "PS") d && eq_str (dict_get_or "context" JNull d) "PowerSupply".
Definition test2 (d : dict) : bool :=
  eq_str (dict_get_or "type" JNull d) "Temperature".
Definition test3 (d : dict) : bool :=
  name_test (PyStr.contains "Fan") d && eq_str (dict_get_or "type" JNull d) "Rotational".
Definition test4 (d : dict) : bool :=
  name_test (PyStr.contains "System Board") d && eq_str (dict_get_or "type" JNull d) "Percent".
Definition test5 (d : dict) : bool :=
  eq_str (dict_get_or "context" (JStr "") d) "PowerSupply".
Definition test6 (d : dict) : bool :=
  eq_str (dict_get_or "context" (JStr "") d) "Chassis".

Definition chain (d : dict) : rule :=
  if test1 d then RulePsuName
  else if test2 d then RuleTemperature
  else if test3 d then RuleFan
  else if test4 d then RuleSysBoard
  else if test5 d then FallbackPsu
  else if test6 d then FallbackSysBoard
  else Ignore.

Definition bucket_eqb (a b : bucket) : bool :=
  match a, b with
  | Fan, Fan | Psu, Psu | Temperature, Temperature | SysBoard, SysBoard => true
  | _, _ => false
  end.

Definition bucket_list (b : bucket) (out : buckets) : list json :=
  match b with
  | Fan => fan out
  | Psu => psu out
  | Temperature => temperature out
  | SysBoard => sysBoard out
  end.

(** The records a step adds to bucket [b] when the chain picked [r]. *)
Definition added (r : rule) (b : bucket) (parsed : json) : list json :=
  match bucket_of r with
  | Some b' => if bucket_eqb b' b then [parsed] else []
  | None => []
  end.

(** *** Normalisers: records they accept, names they give *)

(** A record with a string for name and for type, whose reading type does
    not lowercase to the key [name] of the emitted record. *)
Definition wf_psu (obj : json) : Prop :=
  exists d, obj = JDict d /\
            is_str (dict_get_or "name" (JStr "") d) = true /\
            is_str (dict_get_or "type" (JStr "") d) = true /\
            reading_key obj <> "name".

Definition space_free (w : string) : Prop := PyStr.contains " " w = false.

Definition has_string_name (obj : json) : Prop :=
  exists d s, obj = JDict d /\ dict_get "name" d = Some (JStr s).

(** [obj] with its name replaced by [f] of the name. *)
Definition rename (f : string -> string) (obj : json) : json :=
  match obj with
  | JDict d =>
      match dict_get "name" d with
      | Some (JStr s) => JDict (dict_set "name" (JStr (f s)) d)
      | _ => obj
      end
  | _ => obj
  end.

(** The name [format_temp] gives to a record named [name]. *)
Definition temp_name (name : string) : string :=
  let parts := PyStr.split " " name in
  if (1 <? List.length parts)%nat then PyStr.join " " (removelast parts) else name.

(** The name [format_sysboard] gives to a record named [name]. *)
Definition keep_word (w : string) : bool := negb (existsb (String.eqb w) remove).

Definition sysboard_name (name : string) : string :=
  match filter keep_word (PyStr.split " " name) with
  | [] => name
  | buffer => PyStr.join " " buffer
  end.

(** *** Extraction of one sensor *)

(** A record as the extraction of one sensor builds it. *)
Definition sensor_record (id name context reading type health : json) : dict :=
  [("id", id); ("name", name); ("context", context);
   ("reading", reading); ("type", type); ("health", health)].

(** [Status.Health] of an object. *)
Definition status_health (sensor_obj : json) : json :=
  match parse_json sensor_obj ["Status"; "Health"] with
  | Ok v => v
  | Raise _ => JNull
  end.

(** A top-level field of an object; [None] when the object is no mapping. *)
Definition top_field (k : string) (sensor_obj : json) : json :=
  match sensor_obj with
  | JDict d => dict_get_or k JNull d
  | _ => JNull
  end.

(** *** Parameters and transport *)

(** The parameter [field] is set: the parameters are a mapping that holds a
    value for it, neither the empty string nor [None]. *)
Definition param_set (all_params : json) (field : string) : Prop :=
  exists d v, all_params = JDict d /\ dict_get field d = Some v /\
              v <> JStr "" /\ v <> JNull.

(** [c] repeated [k] times. *)
Fixpoint repeat_char (c : ascii) (k : nat) : string :=
  match k with
  | O => EmptyString
  | S k' => String c (repeat_char c k')
  end.

(** The characters [int] drops around a number: tab, line feed, vertical
    tab, form feed, carriage return and the space.  The characters a number
    text is made of: those, the digits, the two signs and the underscore. *)
Definition int_blank (c : ascii) : Prop :=
  In (nat_of_ascii c) [9; 10; 11; 12; 13; 32]%nat.

Definition int_char (c : ascii) : Prop :=
  int_blank c \/ (48 <= nat_of_ascii c <= 57)%nat \/
  c = "+"%char \/ c = "-"%char \/ c = "_"%char.

Definition blanks (s : string) : Prop := Forall int_blank (list_ascii_of_string s).

(** The status a caller of [get] asks for: a whole number, a truth value
    counted as 1 or 0, or the decimal text of a whole number with blanks
    around it.  Nothing is asked for by [None], by a list or a mapping, by a
    blank text, and by a text with a character that no number text has. *)
Inductive expects : json -> option Z -> Prop :=
| expects_nothing : expects JNull None
| expects_number (n : Z) : expects (JInt n) (Some n)
| expects_truth (b : bool) : expects (JBool b) (Some (if b then 1 else 0)%Z)
| expects_text (pre post : string) (n : Z) :
    blanks pre -> blanks post ->
    expects (JStr (pre ++ str_of_int n ++ post)) (Some n)
| expects_blank_text (s : string) : blanks s -> expects (JStr s) None
| expects_other_text (s : string) (c : ascii) :
    In c (list_ascii_of_string s) -> ~ int_char c -> expects (JStr s) None
| expects_list (l : list json) : expects (JList l) None
| expects_mapping (d : dict) : expects (JDict d) None.

(** What becomes of a reply: with an expected status the body when the
    status is that one, without one the body when the status is outside 400
    to 599; a [RuntimeError] that names the status otherwise. *)
Definition verdict (expected : option Z) (resp : response) : res string :=
  match expected with
  | Some n =>
      if (status_code resp =? n)%Z then Ok (text resp)
      else Raise (RuntimeError
                    ("Unexpected HTTP response code: " ++ str_of_int (status_code resp)))
  | None =>
      if ((400 <=? status_code resp) && (status_code resp <? 600))%Z
      then Raise (RuntimeError ("HTTP error " ++ str_of_int (status_code resp)))
      else Ok (text resp)
  end.

(** A request sent with [headers], and the verdict on its reply; an
    exception of the transport is the result. *)
Definition reply_to
    (session_get : session -> string -> list (string * string) -> json -> res response)
    (params : dict) (url : string) (headers : list (string * string))
    (expected : option Z) : res string :=
  match session_get (HttpClient params) url headers
          (dict_get_or "verify_ssl" (JBool true) params) with
  | Ok resp => verdict expected resp
  | Raise e => Raise e
  end.

(** *** The input of [main] *)




(** *** Extraction and the two phases *)

(** The value the navigator finds under a dotted path. *)
Definition resolve (data : json) (path : string) : json :=
  match parse_json data (PyStr.split "." path) with
  | Ok v => v
  | Raise _ => JNull
  end.

(** The value a record of a key list stands for. *)
Definition resolve_key (data : json) (key : named_key) : json :=
  if key_path key =? "@odata.id" then top_field "@odata.id" data
  else resolve data (key_path key).

(** A key list the extraction cannot fail on: the document is a mapping, or
    no record asks for [@odata.id]. *)
Definition extractable (data : json) (keys : list named_key) : Prop :=
  (exists d, data = JDict d) \/
  Forall (fun key => (key_path key =? "@odata.id") = false) keys.




Definition bucket_keys : list string := ["fan"; "psu"; "temperature"; "sysBoard"].

Definition scalar_keys : list string := ["model"; "serialnumber"; "status"; "firmware"].


(** *** Member loop *)

(** The record the loop extracts for a member: none when the member is
    skipped. *)
Definition member_record (execute_request : string -> res string)
    (loads : string -> res json) (sensor : json) : list dict :=
  match resolve_member execute_request loads sensor with
  | None => []
  | Some sensor_obj =>
      [sensor_record (top_field "Id" sensor_obj) (top_field "Name" sensor_obj)
                     (top_field "PhysicalContext" sensor_obj)
                     (top_field "Reading" sensor_obj)
                     (top_field "ReadingType" sensor_obj)
                     (status_health sensor_obj)]
  end.

(** The chain sends the record to bucket [b]. *)
Definition in_bucket (b : bucket) (d : dict) : bool :=
  match bucket_of (chain d) with
  | Some b' => bucket_eqb b' b
  | None => false
  end.

(** A value that is neither a mapping nor a sequence. *)
Definition is_scalar (x : json) : bool :=
  match x with
  | JList _ => false
  | JDict _ => false
  | _ => true
  end.


(** *** Normalisers: what they need and what they keep *)

(** The name the normalisers read from a record is a string (a record with
    no name reads as the empty string). *)
Definition name_is_str (d : dict) : bool := is_str (dict_get_or "name" (JStr "") d).

(** A piece of a name that the system board trim keeps: none of the three
    words. *)
Definition not_stopword (w : string) : bool :=
  negb ((w =? "System") || (w =? "Board") || (w =? "Usage")).

Definition kept_pieces (name : string) : list string :=
  filter not_stopword (PyStr.split " " name).

(** [obj'] is [obj] up to the value of its name. *)
Definition same_but_name (obj obj' : json) : Prop :=
  exists d d', obj = JDict d /\ obj' = JDict d' /\
               forall k, k <> "name" -> dict_get k d' = dict_get k d.


(** *** Prober *)

(** What [do_probe] does on a reply. *)
Definition probe_outcome (r : Prober.reply) : Prober.probed :=
  match r with
  | Prober.Status status =>
      if Prober.is_error status then Prober.Raised (Prober.HTTPError status)
      else Prober.Returned status
  | Prober.Failed => Prober.Raised Prober.TransportError
  end.

(** The metric updates of one probe that read the clock first at reading
    [t0]: one pair of updates, or two for an error status. *)
Definition probe_metrics (clock : nat -> float) (NAMESPACE : string) (t0 : nat)
    (scenario endpoint : string) (r : Prober.reply) : list Prober.event :=
  let pair i :=
    [Prober.Observed NAMESPACE scenario endpoint
       (PrimFloat.sub (clock (i + t0)) (clock t0));
     Prober.Counted NAMESPACE scenario endpoint (Prober.code_label r)] in
  match Prober.times_counted r with
  | 1 => pair 1
  | _ => pair 1 ++ pair 2
  end.

(** All increments of the counter, whatever the labels. *)
Definition counted_all (st : Prober.state) : nat :=
  List.length (filter (fun e => match e with
                                | Prober.Counted _ _ _ _ => true
                                | _ => false
                                end) (Prober.events st)).


(** *** What a bucket holds, and where the member list comes from *)

(** What the chain guarantees of a record it sends to a bucket, or
    ignores. *)
Definition bucket_guarantee (d : dict) (b : option bucket) : Prop :=
  match b with
  | Some Psu => Spec.fallback_psu d
  | Some Temperature => Spec.rule2 d
  | Some Fan => Spec.rule3 d
  | Some SysBoard => Spec.rule4 d \/ Spec.fallback_sysboard d
  | None => ~ Spec.rule2 d /\ ~ Spec.fallback_psu d /\ ~ Spec.fallback_sysboard d
  end.

(** The member list an object yields: its [Members] when that is a list
    with an item; else, when [Members] counts as false, its [members] when
    that is a list with an item. *)
Definition object_members (d : dict) (l : list json) : Prop :=
  l <> [] /\
  (dict_get_or "Members" JNull d = JList l \/
   (truthy (dict_get_or "Members" JNull d) = false /\
    dict_get_or "members" JNull d = JList l)).

Definition dict_with_string_name (obj : json) : Prop :=
  exists d, obj = JDict d /\ name_is_str d = true.


(** ** Inputs of the worked examples *)

Definition three_items : json :=
  JDict [("K", JList [JInt 10; JInt 20; JInt 30])].

Definition odata_doc : json :=
  JDict [("@odata.id", JStr "/redfish/v1/Chassis/System.Embedded.1/Sensors/Fan1");
         ("@odata", JDict [("id", JStr "nested")])].

Definition odata_key : named_key := NamedKey "ref" "@odata.id".

Definition ps1_voltage : dict :=
  sensor_record (JStr "s1") (JStr "PS1 Voltage") (JStr "PowerSupply")
                (JInt 12) (JStr "Voltage") (JStr "OK").


Definition psu_example : list json :=
  [JDict (sensor_record (JStr "a") (JStr "PS1 Voltage") (JStr "PowerSupply")
                        (JInt 12) (JStr "Voltage") (JStr "OK"));
   JDict (sensor_record (JStr "b") (JStr "PS1 Current") (JStr "PowerSupply")
                        (JFloat 1.5) (JStr "Current") (JStr "OK"));
   JDict (sensor_record (JStr "c") (JStr "PS2 Voltage") (JStr "PowerSupply")
                        (JInt 11) (JStr "Voltage") (JStr "Warning"));
   JDict (sensor_record (JStr "d") (JStr "PS1 Voltage") (JStr "PowerSupply")
                        (JInt 13) (JStr "Voltage") (JStr "Critical"))].

(** A collaborator that answers from a table: the paths it serves, and the
    documents its answers parse to; everything else fails. *)
Definition table_request (responses : list (string * string)) (path : string)
  : res string :=
  match find (fun r => fst r =? path) responses with
  | Some r => Ok (snd r)
  | None => Raise (RuntimeError "HTTP error 404")
  end.

Definition table_loads (documents : list (string * json)) (text : string)
  : res json :=
  match find (fun r => fst r =? text) documents with
  | Some r => Ok (snd r)
  | None => Raise ValueError
  end.

Definition system_doc : json :=
  JDict [("Model", JStr "PowerEdge R740");
         ("Status", JDict [("Health", JStr "OK")])].

Definition fan_member : json :=
  JDict [("Id", JStr "f1"); ("Name", JStr "System Board Fan1");
         ("PhysicalContext", JStr "Fan"); ("Reading", JInt 4800);
         ("ReadingType", JStr "Rotational");
         ("Status", JDict [("Health", JStr "OK")])].

(** A temperature sensor that reports no [Name]. *)
Definition nameless_member : json :=
  JDict [("Id", JStr "t1"); ("Reading", JInt 21);
         ("ReadingType", JStr "Temperature")].

Definition gone_member : json :=
  JStr "/redfish/v1/Chassis/System.Embedded.1/Sensors/Gone".

(** Two readings of one power supply, as the collection lists them. *)
Definition ps1_members : json :=
  JList [JDict [("Name", JStr "PS1 Voltage"); ("PhysicalContext", JStr "PowerSupply");
                ("ReadingType", JStr "Voltage"); ("Reading", JInt 12);
                ("Status", JDict [("Health", JStr "OK")])];
         JDict [("Name", JStr "PS1 Current"); ("PhysicalContext", JStr "PowerSupply");
                ("ReadingType", JStr "Current"); ("Reading", JFloat 1.5);
                ("Status", JDict [("Health", JStr "OK")])]].

Definition responses : list (string * string) :=
  [("/redfish/v1/Systems/System.Embedded.1", "system");
   (sensors_path, "sensors")].

Definition documents_with (members : json) : list (string * json) :=
  [("system", system_doc); ("sensors", members)].

(** The run on a given sensor collection. *)
Definition run (collection : json) : dict :=
  main_output (table_request responses) (table_loads (documents_with collection)).

Definition fan_record : json :=
  JDict (sensor_record (JStr "f1") (JStr "System Board Fan1") (JStr "Fan")
                       (JInt 4800) (JStr "Rotational") (JStr "OK")).

Definition nameless_record : json :=
  JDict (sensor_record (JStr "t1") JNull JNull (JInt 21) (JStr "Temperature") JNull).

Definition system_fields : dict :=
  [("model", JStr "PowerEdge R740"); ("serialnumber", JNull); ("status", JStr "OK")].

Definition http_examples_params : dict :=
  [("url", JStr "https://idrac.example//"); ("user", JStr "root");
   ("password", JStr "calvin"); ("http_status_code", JStr "200")].

(** A transport that answers every request with one reply, and a token
    for the credentials above. *)
Definition always_reply (resp : response) (s : session) (url : string)
    (headers : list (string * string)) (verify : json) : res response := Ok resp.

Definition fixed_token (user password : json) : res string := Ok "cm9vdDpjYWx2aW4=".


(** A reading of the first power supply, and a power-supply sensor that
    reports no [ReadingType]; the records the extraction gives for them. *)
Definition ps1_member : json :=
  JDict [("Id", JStr "p1"); ("Name", JStr "PS1 Voltage");
         ("PhysicalContext", JStr "PowerSupply"); ("Reading", JInt 12);
         ("ReadingType", JStr "Voltage");
         ("Status", JDict [("Health", JStr "OK")])].

Definition untyped_member : json :=
  JDict [("Id", JStr "p2"); ("Name", JStr "PS1 Status");
         ("PhysicalContext", JStr "PowerSupply"); ("Reading", JInt 1);
         ("Status", JDict [("Health", JStr "OK")])].

Definition ps1_record : json :=
  JDict (sensor_record (JStr "p1") (JStr "PS1 Voltage") (JStr "PowerSupply")
                       (JInt 12) (JStr "Voltage") (JStr "OK")).

Definition untyped_record : json :=
  JDict (sensor_record (JStr "p2") (JStr "PS1 Status") (JStr "PowerSupply")
                       (JInt 1) JNull (JStr "OK")).

Definition voltage_entry : json :=
  JDict [("reading", JInt 12); ("health", JStr "OK")].

(** ** Tactics *)

(** Case analysis on every test of a conditional in the goal. *)
Ltac split_tests :=
  repeat match goal with
         | |- context [if ?b then _ else _] => destruct b; cbn [bind andb]
         end.

(* ================================================================== *)
(** * Properties *)

Unset Implicit Arguments.

(** ** Facts about the string primitives *)

Section StringFacts.

Local Open Scope string_scope.

Lemma append_empty_r (s : string) : s ++ "" = s.
Proof. induction s as [|c s IH]; simpl; congruence. Qed.

Lemma append_assoc (a b c : string) : (a ++ b) ++ c = a ++ b ++ c.
Proof. induction a as [|x a IH]; simpl; congruence. Qed.

Lemma prefix_append (pre post : string) : String.prefix pre (pre ++ post) = true.
Proof.
  induction pre as [|c pre IH]; simpl.
  - destruct post; reflexivity.
  - destruct (ascii_dec c c); [exact IH | congruence].
Qed.

Lemma prefix_split (pre s : string) :
  String.prefix pre s = true -> exists post, s = pre ++ post.
Proof.
  revert s; induction pre as [|c pre IH]; intros s H.
  - exists s; reflexivity.
  - destruct s as [|b s]; simpl in H; [discriminate|].
    destruct (ascii_dec c b) as [->|]; [|discriminate].
    destruct (IH _ H) as [post ->]. exists post; reflexivity.
Qed.

(** [startswith] is the prefix relation. *)
Lemma startswith_iff (pre s : string) :
  PyStr.startswith pre s = true <-> exists post, s = pre ++ post.
Proof.
  split.
  - apply prefix_split.
  - intros [post ->]. apply prefix_append.
Qed.

(** [contains] is the substring relation. *)
Lemma contains_iff (sub s : string) :
  PyStr.contains sub s = true <-> exists pre post, s = pre ++ sub ++ post.
Proof.
  split.
  - induction s as [|c s IH]; cbn [PyStr.contains]; intros H.
    + rewrite orb_false_r in H. apply prefix_split in H.
      destruct H as [post ->]. exists "", post; reflexivity.
    + apply orb_true_iff in H. destruct H as [H|H].
      * apply prefix_split in H. destruct H as [post H].
        exists "", post; exact H.
      * destruct (IH H) as (pre & post & ->).
        exists (String c pre), post; reflexivity.
  - intros (pre & post & ->).
    induction pre as [|c pre IH].
    + cbn [append]. destruct (sub ++ post) eqn:E; cbn [PyStr.contains];
        rewrite <- E, prefix_append; reflexivity.
    + cbn [append PyStr.contains]. rewrite IH. apply orb_true_r.
Qed.

Lemma endswith_append (suf x : string) : PyStr.endswith suf (x ++ suf) = true.
Proof.
  induction x as [|c x IH]; cbn [append PyStr.endswith].
  - destruct suf; cbn [PyStr.endswith]; rewrite String.eqb_refl; reflexivity.
  - rewrite IH. apply orb_true_r.
Qed.

Lemma drop_last_append (x : string) (c : ascii) :
  PyStr.drop_last (x ++ String c "") = x.
Proof.
  induction x as [|b x IH]; simpl; [reflexivity|].
  rewrite IH. destruct x; reflexivity.
Qed.

Lemma contains_char_cons (sep c : ascii) (s : string) :
  PyStr.contains (String sep "") (String c s) = false ->
  Ascii.eqb c sep = false /\ PyStr.contains (String sep "") s = false.
Proof.
  simpl. intros H. apply orb_false_iff in H. destruct H as [H1 H2].
  split; [|exact H2].
  destruct (ascii_dec sep c) as [->|ne].
  - destruct s; discriminate.
  - apply Ascii.eqb_neq. congruence.
Qed.

(** Cutting at the first separator gives back the two sides. *)
Lemma split1_append (sep : ascii) (k i : string) :
  PyStr.contains (String sep "") k = false ->
  PyStr.split1 sep (k ++ String sep i) = [k; i].
Proof.
  induction k as [|c k IH]; intros H.
  - simpl. rewrite Ascii.eqb_refl. reflexivity.
  - apply contains_char_cons in H. destruct H as [Hc Hk].
    cbn [append PyStr.split1]. rewrite Hc, (IH Hk). reflexivity.
Qed.

End StringFacts.

(** ** The value navigator, [parse_json] *)

Lemma segment_never_raises (current : json) (p : string) :
  exists fl, segment current p = Ok fl.
Proof.
  unfold segment, try_except.
  destruct (segment_body current p) as [fl|e]; eauto.
Qed.

Lemma segment_body_return (current : json) (p : string) (v : json) :
  segment_body current p = Ok (Return v) -> v = JNull.
Proof.
  unfold segment_body.
  destruct (PyStr.endswith "]" p && PyStr.contains "[" p).
  - destruct (unpack2 _) as [[k i]|]; cbn [bind]; [|discriminate].
    destruct (py_get current k); cbn [bind]; [|discriminate].
    destruct (PyStr.to_int i); cbn [bind]; [|discriminate].
    destruct (py_getitem _ _); cbn [bind]; discriminate.
  - destruct current; try (intros [= <-]; reflexivity); try discriminate.
    destruct (PyStr.to_int p); cbn [bind try_except].
    + destruct (py_getitem _ _); cbn [bind]; [discriminate|].
      intros [= <-]; reflexivity.
    + intros [= <-]; reflexivity.
Qed.

Lemma segment_return (current : json) (p : string) (v : json) :
  segment current p = Ok (Return v) -> v = JNull.
Proof.
  unfold segment, try_except.
  destruct (segment_body current p) as [fl|e] eqn:E.
  - intros [= ->]. eapply segment_body_return; eassumption.
  - intros [= <-]; reflexivity.
Qed.

Lemma parse_json_none (json_path : list string) :
  parse_json JNull json_path = Ok JNull.
Proof. destruct json_path; reflexivity. Qed.

Lemma parse_json_never_raises (data : json) (json_path : list string) :
  exists v, parse_json data json_path = Ok v.
Proof.
  revert data; induction json_path as [|p rest IH]; intros data.
  - exists data; reflexivity.
  - cbn [parse_json]. destruct (is_none data); [eauto|].
    destruct (segment_never_raises data p) as [fl ->]. cbn [bind].
    destruct fl; eauto.
Qed.

(** Following [pre ++ post] is following [pre], then [post]. *)
Lemma parse_json_app (data : json) (pre post : list string) :
  parse_json data (pre ++ post) =
  (current <- parse_json data pre ;; parse_json current post).
Proof.
  revert data; induction pre as [|p pre IH]; intros data.
  - reflexivity.
  - cbn [app parse_json]. destruct (is_none data).
    + cbn [bind]. rewrite parse_json_none. reflexivity.
    + destruct (segment_never_raises data p) as [fl E]. rewrite E. cbn [bind].
      destruct fl as [c|v]; [apply IH|].
      apply segment_return in E; subst v.
      cbn [bind]. rewrite parse_json_none. reflexivity.
Qed.

Lemma parse_json_step_fails (current : json) (p : string) (post : list string) :
  step_fails current p -> parse_json current (p :: post) = Ok JNull.
Proof.
  intros H. cbn [parse_json].
  destruct (is_none current) eqn:N; [reflexivity|].
  unfold segment, try_except.
  destruct H as [->|[[e ->]|[->| ->]]]; cbn [bind]; try reflexivity.
  - discriminate.
  - apply parse_json_none.
Qed.

(** C4: [parse_json] never raises, whatever the value and the path, and a
    failure at any step of the traversal (the value reached is absent, it
    cannot be indexed by the element, or the sequence is too short) makes the
    result of the whole path [None]. *)
Theorem parse_json_total :
  (forall data json_path, exists v, parse_json data json_path = Ok v) /\
  (forall data pre p post current,
      parse_json data pre = Ok current ->
      step_fails current p ->
      parse_json data (pre ++ p :: post) = Ok JNull).
Proof.
  split.
  - apply parse_json_never_raises.
  - intros data pre p post current Hpre Hfail.
    rewrite parse_json_app, Hpre. cbn [bind].
    apply parse_json_step_fails, Hfail.
Qed.

(** The failures named in the contract are failures of a step. *)
Lemma missing_key_fails (d : dict) (p : string) :
  PyStr.endswith "]" p && PyStr.contains "[" p = false ->
  dict_get p d = None ->
  step_fails (JDict d) p.
Proof.
  intros Hp Hd. right; right; right.
  unfold segment_body, dict_get_or. rewrite Hp, Hd. reflexivity.
Qed.

Lemma scalar_fails (current : json) (p : string) :
  PyStr.endswith "]" p && PyStr.contains "[" p = false ->
  match current with JDict _ | JList _ => False | _ => True end ->
  step_fails current p.
Proof.
  intros Hp Hc. right; right; left.
  unfold segment_body. rewrite Hp. destruct current; try reflexivity; contradiction.
Qed.

(** What the body does on an element written [K[i]]. *)
Lemma segment_body_bracketed (current : json) (key_part idx_part : string) :
  PyStr.contains "[" key_part = false ->
  segment_body current (bracketed key_part idx_part) =
  (c1 <- py_get current key_part ;;
   idx <- PyStr.to_int idx_part ;;
   c2 <- py_getitem c1 idx ;;
   Ok (Next c2)).
Proof.
  intros Hk. unfold segment_body, bracketed.
  replace (key_part ++ "[" ++ idx_part ++ "]")%string
    with ((key_part ++ "[" ++ idx_part) ++ "]")%string
    by (rewrite !append_assoc; reflexivity).
  rewrite endswith_append, drop_last_append.
  assert (C : PyStr.contains "[" ((key_part ++ "[" ++ idx_part) ++ "]")%string = true).
  { apply contains_iff. exists key_part, (idx_part ++ "]")%string.
    rewrite !append_assoc. reflexivity. }
  rewrite C. cbn [andb].
  change ("[" ++ idx_part)%string with (String "[" idx_part).
  rewrite split1_append by exact Hk. reflexivity.
Qed.

Lemma not_a_mapping_fails (current : json) (key_part idx_part : string) :
  match current with JDict _ => False | _ => True end ->
  PyStr.contains "[" key_part = false ->
  step_fails current (bracketed key_part idx_part).
Proof.
  intros Hc Hk. right; left.
  rewrite segment_body_bracketed by exact Hk.
  destruct current; try contradiction; cbn [py_get bind]; eexists; reflexivity.
Qed.

Lemma py_getitem_short (l : list json) (n : Z) :
  (Z.of_nat (List.length l) <= n)%Z -> py_getitem (JList l) n = Raise IndexError.
Proof.
  intros H. unfold py_getitem, norm_index.
  replace (0 <=? n)%Z with true by lia.
  replace (n <? Z.of_nat (List.length l))%Z with false by lia.
  reflexivity.
Qed.

(** A list too short for the index of [K[i]], or for a bare index. *)
Lemma short_list_fails (d : dict) (key_part idx_part : string) (l : list json) (n : Z) :
  PyStr.contains "[" key_part = false ->
  dict_get key_part d = Some (JList l) ->
  PyStr.to_int idx_part = Ok n ->
  (Z.of_nat (List.length l) <= n)%Z ->
  step_fails (JDict d) (bracketed key_part idx_part).
Proof.
  intros Hk Hd Hi Hn. right; left.
  rewrite segment_body_bracketed by exact Hk.
  cbn [py_get bind]. unfold dict_get_or. rewrite Hd, Hi. cbn [bind].
  rewrite py_getitem_short by exact Hn. eexists; reflexivity.
Qed.

Lemma short_list_bare_index_fails (l : list json) (p : string) (n : Z) :
  PyStr.endswith "]" p && PyStr.contains "[" p = false ->
  PyStr.to_int p = Ok n ->
  (Z.of_nat (List.length l) <= n)%Z ->
  step_fails (JList l) p.
Proof.
  intros Hp Hi Hn. right; right; left.
  unfold segment_body. rewrite Hp, Hi. cbn [bind].
  rewrite py_getitem_short by exact Hn. reflexivity.
Qed.

Lemma nth_error_nth_json (l : list json) (k : nat) :
  (k < List.length l)%nat -> nth_error l k = Some (nth k l JNull).
Proof.
  revert k; induction l as [|x l IH]; intros [|k] H; simpl in *; try lia.
  - reflexivity.
  - apply IH. lia.
Qed.

(** Indexing a list: positions from the front, or from the end when the
    index is negative; anything else raises. *)
Lemma py_getitem_list (l : list json) (n : Z) :
  py_getitem (JList l) n =
  if ((0 <=? n) && (n <? Z.of_nat (List.length l)))%Z
  then Ok (nth (Z.to_nat n) l JNull)
  else if ((- Z.of_nat (List.length l) <=? n) && (n <? 0))%Z
  then Ok (nth (Z.to_nat (Z.of_nat (List.length l) + n)) l JNull)
  else Raise IndexError.
Proof.
  unfold py_getitem, norm_index.
  destruct (0 <=? n)%Z eqn:E0; cbn [andb].
  - destruct (n <? Z.of_nat (List.length l))%Z eqn:E1.
    + rewrite nth_error_nth_json; [reflexivity|]. lia.
    + replace (n <? 0)%Z with false by lia. rewrite andb_false_r. reflexivity.
  - replace (n <? 0)%Z with true by lia. rewrite andb_true_r.
    destruct (- Z.of_nat (List.length l) <=? n)%Z eqn:E1; [|reflexivity].
    rewrite nth_error_nth_json; [reflexivity|]. lia.
Qed.

Lemma bracketed_unparsable (data : json) (key_part idx_part : string)
    (rest : list string) (e : exn) :
  PyStr.contains "[" key_part = false ->
  PyStr.to_int idx_part = Raise e ->
  parse_json data (bracketed key_part idx_part :: rest) = Ok JNull.
Proof.
  intros Hk Hi. cbn [parse_json]. destruct (is_none data); [reflexivity|].
  unfold segment. rewrite segment_body_bracketed by exact Hk.
  destruct (py_get data key_part) as [c1|e1]; cbn [bind try_except]; [|reflexivity].
  rewrite Hi. reflexivity.
Qed.

(** C5 (amended): an element [K[i]] gives absent whenever [int(i)] raises,
    whatever the value it is applied to; when [K] holds a list, it gives
    absent for an index at or beyond the length of the list or below minus
    the length; an index from 0 up to the length selects from the front, and
    a negative index down to minus the length selects from the end, as
    Python indexing does. *)
Theorem bracketed_index (key_part idx_part : string) (rest : list string) :
  PyStr.contains "[" key_part = false ->
  (forall data e,
      PyStr.to_int idx_part = Raise e ->
      parse_json data (bracketed key_part idx_part :: rest) = Ok JNull) /\
  (forall d l,
      dict_get key_part d = Some (JList l) ->
      parse_json (JDict d) (bracketed key_part idx_part :: rest) =
      match PyStr.to_int idx_part with
      | Raise _ => Ok JNull
      | Ok n =>
          if ((0 <=? n) && (n <? Z.of_nat (List.length l)))%Z
          then parse_json (nth (Z.to_nat n) l JNull) rest
          else if ((- Z.of_nat (List.length l) <=? n) && (n <? 0))%Z
          then parse_json (nth (Z.to_nat (Z.of_nat (List.length l) + n)) l JNull) rest
          else Ok JNull
      end).
Proof.
  intros Hk. split.
  - intros data e Hi. exact (bracketed_unparsable data _ _ rest e Hk Hi).
  - intros d l Hd. cbn [parse_json is_none]. unfold segment.
    rewrite segment_body_bracketed by exact Hk.
    cbn [py_get bind]. unfold dict_get_or. rewrite Hd.
    destruct (PyStr.to_int idx_part) as [n|e]; cbn [bind try_except]; [|reflexivity].
    rewrite py_getitem_list.
    destruct ((0 <=? n) && (n <? Z.of_nat (List.length l)))%Z; [reflexivity|].
    destruct ((- Z.of_nat (List.length l) <=? n) && (n <? 0))%Z; reflexivity.
Qed.

Lemma bracketed_index_witness :
  parse_json three_items [bracketed "K" "3"] = Ok JNull /\
  parse_json three_items [bracketed "K" "x"] = Ok JNull /\
  parse_json three_items [bracketed "K" "1"] = Ok (JInt 20) /\
  parse_json three_items [bracketed "K" "-3"] = Ok (JInt 10) /\
  parse_json three_items [bracketed "K" "-4"] = Ok JNull /\
  parse_json (JStr "text") [bracketed "K" (String (ascii_of_nat 28) "1")] = Ok JNull /\
  parse_json three_items [bracketed "K" (String (ascii_of_nat 28) "1")] = Ok JNull.
Proof.
  unfold three_items.
  split; [|split; [|split; [|split; [|split; [|split]]]]].
  1-5: rewrite (proj2 (bracketed_index "K" _ [] eq_refl)
                  [("K", JList [JInt 10; JInt 20; JInt 30])]
                  [JInt 10; JInt 20; JInt 30] eq_refl);
       reflexivity.
  - exact (proj1 (bracketed_index "K" (String (ascii_of_nat 28) "1") [] eq_refl)
             (JStr "text") ValueError eq_refl).
  - exact (proj1 (bracketed_index "K" (String (ascii_of_nat 28) "1") [] eq_refl)
             _ ValueError eq_refl).
Defined.

(** C5 as stated fails: [K[-1]] is the last item of the list, not absent. *)
Lemma negative_index_selects_last :
  parse_json three_items ["K[-1]"] = Ok (JInt 30) /\
  parse_json three_items ["K[-1]"] <> Ok JNull.
Proof. split; [reflexivity | discriminate]. Qed.

Lemma parse_json_total_witness :
  parse_json three_items (["K[0]"] ++ "Status" :: ["Health"]) = Ok JNull.
Proof.
  apply (proj2 parse_json_total three_items ["K[0]"] "Status" ["Health"] (JInt 10)).
  - reflexivity.
  - right; right; left. reflexivity.
Defined.

(** A first element that is not a key of the document gives [None]. *)
Lemma parse_json_missing_first (d : dict) (p : string) (rest : list string) :
  PyStr.endswith "]" p && PyStr.contains "[" p = false ->
  dict_get p d = None ->
  parse_json (JDict d) (p :: rest) = Ok JNull.
Proof.
  intros Hp Hd. apply parse_json_step_fails, missing_key_fails; assumption.
Qed.

Lemma parse_json_missing_bracketed (d : dict) (key_part idx_part : string)
    (rest : list string) :
  PyStr.contains "[" key_part = false ->
  dict_get key_part d = None ->
  parse_json (JDict d) (bracketed key_part idx_part :: rest) = Ok JNull.
Proof.
  intros Hk Hd. apply parse_json_step_fails. right; left.
  rewrite segment_body_bracketed by exact Hk.
  cbn [py_get bind]. unfold dict_get_or. rewrite Hd.
  destruct (PyStr.to_int idx_part); cbn [bind py_getitem]; eexists; reflexivity.
Qed.

(** ** The key spec resolver, [extract_data] *)

Section ExtractionFacts.

Variable loads : string -> res json.

(** In a list of keys, the path [@odata.id] is one direct lookup. *)
Lemma extract_key_odata (d return_buffer : dict) (name : string) :
  extract_key (JDict d) return_buffer (NamedKey name "@odata.id") =
  Ok (dict_set name (dict_get_or "@odata.id" JNull d) return_buffer).
Proof. reflexivity. Qed.

(** A single record and a bare path go through the dotted traversal. *)
Lemma extract_record_odata (d : dict) (name : string) (skip_parse : bool) :
  extract_data loads (JDict d) (KeyRecord (NamedKey name "@odata.id")) skip_parse =
  (v <- parse_json (JDict d) ["@odata"; "id"] ;; Ok (JDict [(name, v)])).
Proof. reflexivity. Qed.

Lemma extract_path_odata (d : dict) (skip_parse : bool) :
  extract_data loads (JDict d) (KeyPath "@odata.id") skip_parse =
  parse_json (JDict d) ["@odata"; "id"].
Proof. reflexivity. Qed.

(** C6: the code at a document that has both a field [@odata.id] and a
    field [@odata] holding [id].  The list form reads the field
    [@odata.id]; the single record and the bare path walk through [@odata]
    to [id] instead, and find nothing when [@odata] is missing. *)
Theorem odata_id_direct_only_in_list_form (skip_parse : bool) :
  extract_data loads odata_doc (KeyList [odata_key]) skip_parse =
    Ok (JDict [("ref", JStr "/redfish/v1/Chassis/System.Embedded.1/Sensors/Fan1")]) /\
  extract_data loads odata_doc (KeyRecord odata_key) skip_parse =
    Ok (JDict [("ref", JStr "nested")]) /\
  extract_data loads odata_doc (KeyPath "@odata.id") skip_parse =
    Ok (JStr "nested") /\
  extract_data loads (JDict [("@odata.id", JStr "/redfish/v1/Systems/1")])
    (KeyRecord odata_key) skip_parse = Ok (JDict [("ref", JNull)]).
Proof. repeat split. Qed.

End ExtractionFacts.


(** ** The sensor classifier *)

(** The chain never raises: it computes [chain]. *)
Lemma classify_chain (d : dict) : classify (JDict d) = Ok (chain d).
Proof.
  unfold classify, chain, test1, test2, test3, test4, test5, test6, name_test, name_of.
  cbn [py_get py_get_default bind].
  destruct (dict_get_or "name" (JStr "") d) as [|b|z|f|s|l|d'];
    cbn [is_str py_and py_startswith py_in bind andb];
    split_tests; reflexivity.
Qed.

Lemma eq_str_iff (x : json) (s : string) : eq_str x s = true <-> x = JStr s.
Proof.
  destruct x; cbn [eq_str]; split; try discriminate.
  - intros H. apply String.eqb_eq in H. congruence.
  - intros [= ->]. apply String.eqb_refl.
Qed.

Lemma eq_str_field (k s : string) (default : json) (d : dict) :
  default <> JStr s ->
  eq_str (dict_get_or k default d) s = true <-> Spec.field_is k s d.
Proof.
  intros Hdef. rewrite eq_str_iff. unfold dict_get_or, Spec.field_is.
  destruct (dict_get k d); split; congruence.
Qed.

Lemma name_test_iff (test : string -> bool) (d : dict) :
  test "" = false ->
  name_test test d = true <->
  exists s, dict_get "name" d = Some (JStr s) /\ test s = true.
Proof.
  intros Hempty. unfold name_test, name_of, dict_get_or.
  destruct (dict_get "name" d) as [v|].
  - split.
    + destruct v; try discriminate. eauto.
    + intros (s & [= ->] & H). exact H.
  - rewrite Hempty. split; [discriminate | intros (s & H & _); discriminate].
Qed.

Lemma starts_iff (pre : string) (d : dict) :
  PyStr.startswith pre "" = false ->
  name_test (PyStr.startswith pre) d = true <-> Spec.name_starts_with pre d.
Proof.
  intros H. rewrite (name_test_iff _ _ H). unfold Spec.name_starts_with. split.
  - intros (s & Hs & Ht). apply startswith_iff in Ht. destruct Ht as [post ->]. eauto.
  - intros (post & Hs). eexists; split; [eassumption|]. apply startswith_iff; eauto.
Qed.

Lemma contains_name_iff (sub : string) (d : dict) :
  PyStr.contains sub "" = false ->
  name_test (PyStr.contains sub) d = true <-> Spec.name_contains sub d.
Proof.
  intros H. rewrite (name_test_iff _ _ H). unfold Spec.name_contains. split.
  - intros (s & Hs & Ht). apply contains_iff in Ht.
    destruct Ht as (pre & post & ->). eauto.
  - intros (pre & post & Hs). eexists; split; [eassumption|].
    apply contains_iff; eauto.
Qed.

Lemma test1_iff (d : dict) : test1 d = true <-> Spec.rule1 d.
Proof.
  unfold test1, Spec.rule1. rewrite andb_true_iff, starts_iff, eq_str_field;
    [tauto | discriminate | reflexivity].
Qed.

Lemma test2_iff (d : dict) : test2 d = true <-> Spec.rule2 d.
Proof. unfold test2, Spec.rule2. apply eq_str_field. discriminate. Qed.

Lemma test3_iff (d : dict) : test3 d = true <-> Spec.rule3 d.
Proof.
  unfold test3, Spec.rule3. rewrite andb_true_iff, contains_name_iff, eq_str_field;
    [tauto | discriminate | reflexivity].
Qed.

Lemma test4_iff (d : dict) : test4 d = true <-> Spec.rule4 d.
Proof.
  unfold test4, Spec.rule4. rewrite andb_true_iff, contains_name_iff, eq_str_field;
    [tauto | discriminate | reflexivity].
Qed.

Lemma test5_iff (d : dict) : test5 d = true <-> Spec.fallback_psu d.
Proof. unfold test5, Spec.fallback_psu. apply eq_str_field. discriminate. Qed.

Lemma test6_iff (d : dict) : test6 d = true <-> Spec.fallback_sysboard d.
Proof. unfold test6, Spec.fallback_sysboard. apply eq_str_field. discriminate. Qed.

Lemma not_true_iff (b : bool) (P : Prop) : (b = true <-> P) -> b = false -> ~ P.
Proof. intros H Hb HP. apply H in HP. congruence. Qed.

Lemma chain_selects (d : dict) : Spec.selects d (chain d).
Proof.
  unfold chain.
  destruct (test1 d) eqn:E1; [constructor; apply test1_iff, E1|].
  apply (not_true_iff _ _ (test1_iff d)) in E1.
  destruct (test2 d) eqn:E2; [constructor; [|apply test2_iff]; assumption|].
  apply (not_true_iff _ _ (test2_iff d)) in E2.
  destruct (test3 d) eqn:E3; [constructor; [| |apply test3_iff]; assumption|].
  apply (not_true_iff _ _ (test3_iff d)) in E3.
  destruct (test4 d) eqn:E4; [constructor; [| | |apply test4_iff]; assumption|].
  apply (not_true_iff _ _ (test4_iff d)) in E4.
  destruct (test5 d) eqn:E5; [constructor; [| | | |apply test5_iff]; assumption|].
  apply (not_true_iff _ _ (test5_iff d)) in E5.
  destruct (test6 d) eqn:E6; [constructor; [| | | | |apply test6_iff]; assumption|].
  apply (not_true_iff _ _ (test6_iff d)) in E6.
  constructor; assumption.
Qed.

Lemma selects_functional (d : dict) (r r' : rule) :
  Spec.selects d r -> Spec.selects d r' -> r = r'.
Proof.
  intros H H'. destruct H; destruct H'; solve [reflexivity | contradiction].
Qed.

Lemma classify_into_places (out : buckets) (d : dict) :
  exists out',
    classify_into out (JDict d) = Ok out' /\
    forall b, bucket_list b out' = bucket_list b out ++ added (chain d) b (JDict d).
Proof.
  unfold classify_into, added. rewrite classify_chain. cbn [bind].
  destruct (bucket_of (chain d)) as [b'|]; eexists; (split; [reflexivity|]).
  - intros b; destruct b', b; cbn; rewrite ?app_nil_r; reflexivity.
  - intros b. rewrite app_nil_r. reflexivity.
Qed.

Lemma added_one_bucket (r : rule) (b1 b2 : bucket) (parsed : json) :
  added r b1 parsed <> [] -> added r b2 parsed <> [] -> b1 = b2.
Proof.
  unfold added. destruct (bucket_of r) as [b'|]; [|congruence].
  destruct b', b1, b2; cbn; congruence.
Qed.

Lemma chain_same_fields (d d' : dict) :
  (forall k, In k ["name"; "type"; "context"] -> dict_get k d' = dict_get k d) ->
  chain d' = chain d.
Proof.
  intros H.
  unfold chain, test1, test2, test3, test4, test5, test6, name_test, name_of, dict_get_or.
  rewrite (H "name"), (H "type"), (H "context") by (cbn; tauto).
  reflexivity.
Qed.

Lemma bucket_of_spec (r : rule) : bucket_of r = Spec.bucket_for r.
Proof. destruct r; reflexivity. Qed.

Lemma classify_into_placed (out : buckets) (d : dict) :
  exists out',
    classify_into out (JDict d) = Ok out' /\
    Spec.placed (Spec.bucket_for (chain d)) (JDict d) out out'.
Proof.
  unfold classify_into. rewrite classify_chain. cbn [bind].
  rewrite bucket_of_spec.
  destruct (Spec.bucket_for (chain d)) as [[]|]; eexists; (split; [reflexivity|]);
    unfold Spec.placed; cbn [append_to fan psu temperature sysBoard];
    rewrite ?app_nil_r; repeat split.
Qed.

Lemma placed_one_bucket (b : option bucket) (parsed : json) (out out' : buckets)
    (b1 b2 : bucket) :
  Spec.placed b parsed out out' ->
  bucket_list b1 out' <> bucket_list b1 out ->
  bucket_list b2 out' <> bucket_list b2 out ->
  b1 = b2.
Proof.
  intros (Hf & Hp & Ht & Hs) H1 H2.
  destruct b as [[]|]; rewrite ?app_nil_r in *;
    destruct b1, b2; cbn [bucket_list] in *; congruence.
Qed.

(** C1: the classifier never raises and returns the one branch that the
    ordered rules select (first match wins); the result depends only on the
    fields name, type and context.  A step adds the record at the end of the
    list of the bucket of the selected rule (psu for rule 1 and for the
    PowerSupply fallback, temperature for rule 2, fan for rule 3, sysBoard
    for rule 4 and for the Chassis fallback, none when nothing matches) and
    leaves every other list as it was, so at most one list changes.  A
    record that meets rule 1 and the context fallback is handled by rule 1
    and goes to psu. *)
Theorem classify_first_match (d : dict) :
  (exists r, classify (JDict d) = Ok r /\ Spec.selects d r /\
             forall r', Spec.selects d r' -> r' = r) /\
  (forall d',
      (forall k, In k ["name"; "type"; "context"] -> dict_get k d' = dict_get k d) ->
      classify (JDict d') = classify (JDict d)) /\
  (forall out, exists r out',
      Spec.selects d r /\
      classify_into out (JDict d) = Ok out' /\
      Spec.placed (Spec.bucket_for r) (JDict d) out out' /\
      (forall b1 b2,
          bucket_list b1 out' <> bucket_list b1 out ->
          bucket_list b2 out' <> bucket_list b2 out -> b1 = b2)) /\
  (Spec.rule1 d -> Spec.fallback_psu d ->
   classify (JDict d) = Ok RulePsuName /\
   forall out, exists out',
     classify_into out (JDict d) = Ok out' /\
     Spec.placed (Some Psu) (JDict d) out out').
Proof.
  split; [|split; [|split]].
  - exists (chain d). split; [apply classify_chain|]. split; [apply chain_selects|].
    intros r' H. exact (selects_functional _ _ _ H (chain_selects d)).
  - intros d' H. rewrite !classify_chain, (chain_same_fields _ _ H). reflexivity.
  - intros out. destruct (classify_into_placed out d) as (out' & E & P).
    exists (chain d), out'.
    split; [apply chain_selects|]. split; [exact E|]. split; [exact P|].
    intros b1 b2. exact (placed_one_bucket _ _ _ _ b1 b2 P).
  - intros H1 _.
    assert (R : chain d = RulePsuName)
      by exact (selects_functional _ _ _ (chain_selects d) (Spec.by_rule1 H1)).
    split; [rewrite classify_chain, R; reflexivity|].
    intros out. destruct (classify_into_placed out d) as (out' & E & P).
    rewrite R in P. exists out'. split; assumption.
Qed.

Lemma classify_first_match_witness :
  classify (JDict ps1_voltage) = Ok RulePsuName /\
  exists out',
    classify_into empty_out (JDict ps1_voltage) = Ok out' /\
    fan out' = [] /\ psu out' = [JDict ps1_voltage] /\
    temperature out' = [] /\ sysBoard out' = [].
Proof.
  assert (H1 : Spec.rule1 ps1_voltage)
    by (split; [exists "1 Voltage"|]; reflexivity).
  assert (H5 : Spec.fallback_psu ps1_voltage) by reflexivity.
  destruct (proj2 (proj2 (proj2 (classify_first_match ps1_voltage))) H1 H5) as [C P].
  split; [exact C|].
  destruct (P empty_out) as (out' & E & Pl).
  exists out'. split; [exact E|]. exact Pl.
Defined.



Lemma parse_json_sensor_field (sensor_obj : json) (k : string) :
  In k ["Id"; "Name"; "PhysicalContext"; "Reading"; "ReadingType"] ->
  parse_json sensor_obj [k] = Ok (top_field k sensor_obj).
Proof.
  intros H. cbn [In] in H.
  destruct H as [<-|[<-|[<-|[<-|[<-|[]]]]]]; destruct sensor_obj; reflexivity.
Qed.

Lemma extract_key_dotted (data : json) (return_buffer : dict) (name path : string) :
  (path =? "@odata.id")%string = false ->
  extract_key data return_buffer (NamedKey name path) =
  (v <- parse_json data (PyStr.split "." path) ;; Ok (dict_set name v return_buffer)).
Proof. intros H. unfold extract_key. cbn [key_name key_path]. rewrite H. reflexivity. Qed.

(** What the extraction of one sensor object gives: six fields, always. *)
Lemma extract_sensor_fields (loads : string -> res json) (sensor_obj : json) :
  extract_data loads sensor_obj sensor_keys true =
  Ok (JDict (sensor_record (top_field "Id" sensor_obj)
                           (top_field "Name" sensor_obj)
                           (top_field "PhysicalContext" sensor_obj)
                           (top_field "Reading" sensor_obj)
                           (top_field "ReadingType" sensor_obj)
                           (status_health sensor_obj))).
Proof.
  unfold status_health.
  destruct (parse_json_never_raises sensor_obj ["Status"; "Health"]) as [h Eh].
  rewrite Eh.
  unfold extract_data, sensor_keys.
  replace (load_document loads sensor_obj true) with (Ok sensor_obj)
    by (destruct sensor_obj; reflexivity).
  cbn [bind fold_res].
  repeat (rewrite extract_key_dotted by reflexivity;
          match goal with
          | |- context [PyStr.split "." ?p] =>
              let l := eval vm_compute in (PyStr.split "." p) in
              change (PyStr.split "." p) with l
          end;
          first [rewrite parse_json_sensor_field by (cbn [In]; tauto) | rewrite Eh];
          cbn [bind]).
  reflexivity.
Qed.

(** ** Splitting and joining *)

Lemma split_not_nil (sep : ascii) (s : string) : PyStr.split sep s <> [].
Proof.
  destruct s as [|c s]; cbn [PyStr.split]; [discriminate|].
  destruct (Ascii.eqb c sep); [discriminate|].
  destruct (PyStr.split sep s); discriminate.
Qed.

(** Joining the pieces with the separator gives the string back. *)
Lemma join_split (sep : ascii) (s : string) :
  PyStr.join (String sep "") (PyStr.split sep s) = s.
Proof.
  unfold PyStr.join.
  induction s as [|c s IH]; [reflexivity|].
  cbn [PyStr.split].
  destruct (Ascii.eqb c sep) eqn:E.
  - apply Ascii.eqb_eq in E; subst c.
    destruct (PyStr.split sep s) as [|w ws] eqn:S;
      [contradiction (split_not_nil sep s)|].
    rewrite <- IH. reflexivity.
  - destruct (PyStr.split sep s) as [|w ws] eqn:S;
      [contradiction (split_not_nil sep s)|].
    rewrite <- IH. destruct ws; reflexivity.
Qed.

Lemma split_free (sep : ascii) (w : string) :
  PyStr.contains (String sep "") w = false -> PyStr.split sep w = [w].
Proof.
  induction w as [|c w IH]; intros H; [reflexivity|].
  apply contains_char_cons in H. destruct H as [Hc Hw].
  cbn [PyStr.split]. rewrite Hc, (IH Hw). reflexivity.
Qed.

Lemma split_append_sep (sep : ascii) (w rest : string) :
  PyStr.contains (String sep "") w = false ->
  PyStr.split sep (w ++ String sep rest) = w :: PyStr.split sep rest.
Proof.
  induction w as [|c w IH]; intros H.
  - cbn [append PyStr.split]. rewrite Ascii.eqb_refl. reflexivity.
  - apply contains_char_cons in H. destruct H as [Hc Hw].
    cbn [append PyStr.split]. rewrite Hc, (IH Hw). reflexivity.
Qed.

(** Splitting a join of separator-free tokens gives the tokens back. *)
Lemma split_join (sep : ascii) (tokens : list string) :
  tokens <> [] ->
  Forall (fun w => PyStr.contains (String sep "") w = false) tokens ->
  PyStr.split sep (PyStr.join (String sep "") tokens) = tokens.
Proof.
  unfold PyStr.join.
  induction tokens as [|w ws IH]; intros Hne Hfree; [congruence|].
  inversion Hfree as [|? ? Hw Hws]; subst.
  destruct ws as [|w2 ws].
  - cbn [concat]. apply split_free, Hw.
  - change (concat (String sep "") (w :: w2 :: ws))
      with (w ++ String sep (concat (String sep "") (w2 :: ws)))%string.
    rewrite split_append_sep by exact Hw.
    rewrite IH; [reflexivity | discriminate | exact Hws].
Qed.

Lemma contains_char_cons_false (sep c : ascii) (s : string) :
  Ascii.eqb c sep = false ->
  PyStr.contains (String sep "") s = false ->
  PyStr.contains (String sep "") (String c s) = false.
Proof.
  intros Hc Hs. cbn [PyStr.contains]. rewrite Hs, orb_false_r.
  cbn [prefix]. destruct (ascii_dec sep c) as [->|]; [|reflexivity].
  rewrite Ascii.eqb_refl in Hc. discriminate.
Qed.

(** No piece of a split holds the separator. *)
Lemma split_pieces_free (sep : ascii) (s : string) :
  Forall (fun w => PyStr.contains (String sep "") w = false) (PyStr.split sep s).
Proof.
  induction s as [|c s IH]; cbn [PyStr.split].
  - repeat constructor.
  - destruct (Ascii.eqb c sep) eqn:E.
    + constructor; [reflexivity | exact IH].
    + destruct (PyStr.split sep s) as [|w ws]; [repeat constructor|].
      * apply contains_char_cons_false; [exact E | reflexivity].
      * inversion IH as [|? ? Hw Hws]; subst.
        constructor; [apply contains_char_cons_false; assumption | exact Hws].
Qed.

(** Every name is a join of space-free tokens: those of its split. *)
Lemma name_tokens (name : string) :
  exists tokens,
    tokens <> [] /\ Forall space_free tokens /\ name = PyStr.join " " tokens.
Proof.
  exists (PyStr.split " " name). split; [apply split_not_nil|].
  split; [apply split_pieces_free | symmetry; apply join_split].
Qed.

Lemma dict_set_same (k : string) (v : json) (d : dict) :
  dict_get k d = Some v -> dict_set k v d = d.
Proof.
  induction d as [|[k' v'] d IH]; cbn [dict_get dict_set]; [discriminate|].
  destruct (k' =? k)%string eqn:E.
  - apply String.eqb_eq in E. intros [= ->]. subst. reflexivity.
  - intros H. rewrite (IH H). reflexivity.
Qed.

Lemma map_res_map {A B : Type} (f : A -> res B) (g : A -> B) (l : list A) :
  Forall (fun x => f x = Ok (g x)) l -> map_res f l = Ok (map g l).
Proof.
  induction 1 as [|x l Hx _ IH]; cbn [map_res map]; [reflexivity|].
  rewrite Hx, IH. reflexivity.
Qed.

(** ** Temperature trim *)

Lemma format_temp_obj_rename (obj : json) :
  has_string_name obj -> format_temp_obj obj = Ok (rename temp_name obj).
Proof.
  intros (d & s & -> & Hn).
  unfold format_temp_obj, rename, temp_name.
  cbn [py_get_default bind]. unfold dict_get_or. rewrite Hn.
  cbn [py_split bind].
  destruct (1 <? List.length (PyStr.split " " s))%nat; cbn [py_setitem].
  - reflexivity.
  - rewrite dict_set_same by exact Hn. reflexivity.
Qed.

Lemma temp_name_tokens (tokens : list string) :
  tokens <> [] -> Forall space_free tokens ->
  temp_name (PyStr.join " " tokens) = PyStr.join " " (Spec.drop_final tokens).
Proof.
  intros Hne Hfree. unfold temp_name, Spec.drop_final.
  rewrite split_join by assumption.
  destruct (1 <? List.length tokens)%nat; reflexivity.
Qed.

Lemma format_temp_rename (temp_obj : list json) :
  Forall has_string_name temp_obj ->
  format_temp temp_obj = Ok (map (rename temp_name) temp_obj).
Proof.
  intros H. apply map_res_map.
  eapply Forall_impl; [|exact H]. apply format_temp_obj_rename.
Qed.

(** On a name made of space-free pieces joined by single spaces,
    [format_temp] drops the last piece when there is more than one and
    leaves a single piece as it is. *)
Lemma format_temp_drops_final_token :
  (forall temp_obj,
      Forall has_string_name temp_obj ->
      format_temp temp_obj = Ok (map (rename temp_name) temp_obj)) /\
  (forall tokens final,
      tokens <> [] -> Forall space_free (tokens ++ [final]) ->
      temp_name (PyStr.join " " (tokens ++ [final])) = PyStr.join " " tokens) /\
  (forall token, space_free token -> temp_name token = token) /\
  format_temp [JDict [("name", JStr "Inlet Temp")]; JDict [("name", JStr "CPU1")]] =
    Ok [JDict [("name", JStr "Inlet")]; JDict [("name", JStr "CPU1")]].
Proof.
  split; [|split; [|split]].
  - apply format_temp_rename.
  - intros tokens final Hne Hfree.
    rewrite temp_name_tokens; [|destruct tokens; discriminate | exact Hfree].
    unfold Spec.drop_final. rewrite removelast_last.
    replace (1 <? List.length (tokens ++ [final]))%nat with true; [reflexivity|].
    symmetry. apply Nat.ltb_lt. rewrite length_app. cbn [List.length].
    destruct tokens; [congruence | cbn [List.length]; lia].
  - intros token Hfree.
    apply (temp_name_tokens [token]); [discriminate|].
    constructor; [exact Hfree | constructor].
  - reflexivity.
Qed.

Lemma format_temp_drops_final_token_witness :
  format_temp [JDict [("id", JInt 7); ("name", JStr "Inlet Temp")]] =
    Ok [JDict [("id", JInt 7); ("name", JStr "Inlet")]] /\
  temp_name (PyStr.join " " (["CPU1"; "Core"] ++ ["Temp"])) = "CPU1 Core" /\
  temp_name "CPU1" = "CPU1".
Proof.
  split; [|split].
  - apply (proj1 format_temp_drops_final_token).
    constructor; [|constructor].
    exists [("id", JInt 7); ("name", JStr "Inlet Temp")], "Inlet Temp".
    split; reflexivity.
  - apply (proj1 (proj2 format_temp_drops_final_token)); [discriminate|].
    repeat constructor.
  - apply (proj1 (proj2 (proj2 format_temp_drops_final_token))). reflexivity.
Defined.

(** C8: the code at names with a space at the end, at the start, and
    doubled.  Cut at white space, [Inlet Temp] with a space after it has the
    two tokens [Inlet] and [Temp] and trims to [Inlet].  The code cuts at
    every single space, so the pieces are [Inlet], [Temp] and an empty one;
    it drops the empty piece and the name keeps [Temp].  A leading space
    makes a name of one token empty, and a doubled space leaves a space at
    the end.  On [Inlet Temp] and [CPU1] the code gives [Inlet] and
    [CPU1]. *)
Theorem format_temp_keeps_final_token :
  Spec.tokens "Inlet Temp " = ["Inlet"; "Temp"] /\
  Spec.temp_trim "Inlet Temp " = "Inlet" /\
  PyStr.split " " "Inlet Temp " = ["Inlet"; "Temp"; ""] /\
  format_temp [JDict [("name", JStr "Inlet Temp ")]] =
    Ok [JDict [("name", JStr "Inlet Temp")]] /\
  Spec.temp_trim " Inlet" = " Inlet" /\
  format_temp [JDict [("name", JStr " Inlet")]] = Ok [JDict [("name", JStr "")]] /\
  Spec.temp_trim "Inlet  Temp" = "Inlet" /\
  format_temp [JDict [("name", JStr "Inlet  Temp")]] =
    Ok [JDict [("name", JStr "Inlet ")]] /\
  format_temp [JDict [("name", JStr "Inlet Temp")]; JDict [("name", JStr "CPU1")]] =
    Ok [JDict [("name", JStr "Inlet")]; JDict [("name", JStr "CPU1")]].
Proof. repeat split. Qed.

(** ** System board trim *)

Lemma format_sysboard_obj_rename (obj : json) :
  has_string_name obj -> format_sysboard_obj obj = Ok (rename sysboard_name obj).
Proof.
  intros (d & s & -> & Hn).
  unfold format_sysboard_obj, rename, sysboard_name.
  cbn [py_get_default bind]. unfold dict_get_or. rewrite Hn.
  cbn [py_split bind]. fold keep_word.
  destruct (filter keep_word (PyStr.split " " s)); cbn [py_setitem].
  - rewrite dict_set_same by exact Hn. reflexivity.
  - reflexivity.
Qed.

Lemma format_sysboard_rename (sys_obj : list json) :
  Forall has_string_name sys_obj ->
  format_sysboard sys_obj = Ok (map (rename sysboard_name) sys_obj).
Proof.
  intros H. apply map_res_map.
  eapply Forall_impl; [|exact H]. apply format_sysboard_obj_rename.
Qed.

(** On space-free tokens joined by single spaces: the stopwords go, and the
    name stays when nothing is left. *)
Lemma sysboard_name_tokens (tokens : list string) :
  tokens <> [] -> Forall space_free tokens ->
  sysboard_name (PyStr.join " " tokens) =
  PyStr.join " " (match filter keep_word tokens with
                  | [] => tokens
                  | buffer => buffer
                  end).
Proof.
  intros Hne Hfree. unfold sysboard_name.
  rewrite split_join by assumption.
  destruct (filter keep_word tokens); reflexivity.
Qed.

Lemma join_not_empty (sep : string) (tokens : list string) :
  tokens <> [] -> Forall (fun w => w <> "") tokens -> PyStr.join sep tokens <> "".
Proof.
  intros Hne Hw. destruct tokens as [|w ws]; [congruence|].
  inversion Hw as [|? ? H1 _]; subst.
  unfold PyStr.join. cbn [concat].
  destruct w as [|c w]; [congruence|].
  destruct ws; cbn [append]; discriminate.
Qed.

(** With no empty token (no leading, trailing or doubled space) the trimmed
    name is not empty. *)
Lemma sysboard_name_not_empty (tokens : list string) :
  tokens <> [] -> Forall space_free tokens -> Forall (fun w => w <> "") tokens ->
  sysboard_name (PyStr.join " " tokens) <> "".
Proof.
  intros Hne Hfree Hw. rewrite sysboard_name_tokens by assumption.
  destruct (filter keep_word tokens) as [|w ws] eqn:F.
  - apply join_not_empty; assumption.
  - apply join_not_empty; [discriminate|].
    rewrite <- F. apply Forall_forall. intros x Hx.
    apply filter_In in Hx. destruct Hx as [Hx _].
    rewrite Forall_forall in Hw. apply Hw, Hx.
Qed.

Lemma sysboard_name_example :
  format_sysboard [JDict [("name", JStr "System Board Usage")];
                   JDict [("name", JStr "System Board CPU Usage")]] =
  Ok [JDict [("name", JStr "System Board Usage")];
      JDict [("name", JStr "CPU")]].
Proof. reflexivity. Qed.

(** C7: the code at a name with a trailing space.  The split leaves an empty
    last piece, which is no stopword; the list of kept pieces is then not
    empty, and joining it gives the empty name. *)
Theorem format_sysboard_empties_name :
  PyStr.split " " "System Board " = ["System"; "Board"; ""] /\
  filter keep_word ["System"; "Board"; ""] = [""] /\
  format_sysboard [JDict [("name", JStr "System Board ")]] =
    Ok [JDict [("name", JStr "")]].
Proof. repeat split. Qed.

(** ** Power supply merge *)

Lemma dict_get_set_eq (k : string) (v : json) (d : dict) :
  dict_get k (dict_set k v d) = Some v.
Proof.
  induction d as [|[k' v'] d IH]; cbn [dict_set dict_get].
  - rewrite String.eqb_refl. reflexivity.
  - destruct (k' =? k)%string eqn:E; cbn [dict_get].
    + rewrite String.eqb_refl. reflexivity.
    + rewrite E. exact IH.
Qed.

Lemma dict_get_set_neq (k k' : string) (v : json) (d : dict) :
  k <> k' -> dict_get k' (dict_set k v d) = dict_get k' d.
Proof.
  intros Hne. apply String.eqb_neq in Hne.
  induction d as [|[k0 v0] d IH]; cbn [dict_set dict_get].
  - rewrite Hne. reflexivity.
  - destruct (k0 =? k)%string eqn:E; cbn [dict_get].
    + apply String.eqb_eq in E; subst k0. rewrite Hne. reflexivity.
    + rewrite IH. reflexivity.
Qed.

Lemma existsb_eqb_In (x : string) (l : list string) :
  existsb (String.eqb x) l = true <-> In x l.
Proof.
  rewrite existsb_exists. split.
  - intros (y & Hy & E). apply String.eqb_eq in E. congruence.
  - intros H. exists x. split; [exact H | apply String.eqb_refl].
Qed.

Lemma fold_see_In (l acc : list string) (x : string) :
  In x (fold_left see l acc) <-> In x acc \/ In x l.
Proof.
  revert acc; induction l as [|y l IH]; intros acc; cbn [fold_left In].
  - tauto.
  - rewrite IH. unfold see.
    destruct (existsb (String.eqb y) acc) eqn:E.
    + apply existsb_eqb_In in E. intuition (subst; auto).
    + rewrite in_app_iff. cbn [In]. intuition auto.
Qed.

Lemma fold_see_NoDup (l acc : list string) :
  NoDup acc -> NoDup (fold_left see l acc).
Proof.
  revert acc; induction l as [|y l IH]; intros acc H; cbn [fold_left]; [exact H|].
  apply IH. unfold see.
  destruct (existsb (String.eqb y) acc) eqn:E; [exact H|].
  assert (~ In y acc) as Hy
    by (intros Hy; apply existsb_eqb_In in Hy; congruence).
  apply NoDup_app; [exact H | repeat constructor; intros [] | ].
  intros a Ha [<-|[]]. exact (Hy Ha).
Qed.

(** [first_seen] lists every item once. *)
Lemma first_seen_In (l : list string) (x : string) :
  In x (first_seen l) <-> In x l.
Proof. unfold first_seen. rewrite fold_see_In. cbn [In]. tauto. Qed.

Lemma first_seen_NoDup (l : list string) : NoDup (first_seen l).
Proof. apply fold_see_NoDup. constructor. Qed.

Lemma first_seen_snoc (l : list string) (x : string) :
  first_seen (l ++ [x]) = see (first_seen l) x.
Proof. unfold first_seen. rewrite fold_left_app. reflexivity. Qed.

Lemma wf_psu_parts (obj : json) :
  wf_psu obj ->
  psu_name_of obj = Ok (first_piece obj) /\
  psu_key_of obj = Ok (reading_key obj) /\
  psu_entry_of obj = Ok (reading_entry obj).
Proof.
  intros (d & -> & Hn & Ht & _).
  unfold psu_name_of, psu_key_of, psu_entry_of, first_piece, reading_key, reading_entry.
  cbn [py_get_default py_get bind].
  destruct (dict_get_or "name" (JStr "") d); try discriminate.
  destruct (dict_get_or "type" (JStr "") d); try discriminate.
  cbn [py_split py_lower bind]. repeat split.
  destruct (PyStr.split " " s) eqn:E; [contradiction (split_not_nil " " s)|].
  reflexivity.
Qed.

Lemma last_reading_snoc (t k : string) (pre : list json) (obj : json) :
  last_reading t k (pre ++ [obj]) =
  if ((first_piece obj =? t) && (reading_key obj =? k))%string
  then Some obj else last_reading t k pre.
Proof. unfold last_reading. rewrite rev_app_distr. reflexivity. Qed.

Lemma find_all_false {A : Type} (f : A -> bool) (l : list A) :
  (forall x, In x l -> f x = false) -> find f l = None.
Proof.
  induction l as [|x l IH]; intros H; cbn [find]; [reflexivity|].
  rewrite (H x) by (left; reflexivity). apply IH. intros y Hy. apply H. right; exact Hy.
Qed.

Lemma last_reading_unseen (t k : string) (pre : list json) :
  ~ In t (map first_piece pre) -> last_reading t k pre = None.
Proof.
  intros H. unfold last_reading. apply find_all_false.
  intros o Ho. apply in_rev in Ho.
  destruct (first_piece o =? t)%string eqn:E; [|reflexivity].
  apply String.eqb_eq in E. exfalso. apply H. rewrite <- E. apply in_map, Ho.
Qed.

(** A record of another group leaves the emitted record as it is. *)
Lemma merged_other (pre : list json) (obj : json) (t : string) (b : dict) :
  first_piece obj <> t ->
  merged pre t b -> merged (pre ++ [obj]) t b.
Proof.
  intros Hne [Hname Hkeys]. split; [exact Hname|].
  intros k Hk. rewrite last_reading_snoc.
  apply String.eqb_neq in Hne. rewrite Hne. cbn [andb]. apply Hkeys, Hk.
Qed.

Lemma merged_others (pre : list json) (obj : json)
    (found : list string) (buffer : list dict) :
  ~ In (first_piece obj) found ->
  Forall2 (merged pre) found buffer ->
  Forall2 (merged (pre ++ [obj])) found buffer.
Proof.
  intros Hnot H. induction H as [|t b found buffer Hm _ IH]; constructor.
  - apply merged_other; [|exact Hm]. intros E. apply Hnot. left. congruence.
  - apply IH. intros Hin. apply Hnot. right. exact Hin.
Qed.

(** A record of the same group sets its key in the emitted record. *)
Lemma merged_same (pre : list json) (obj : json) (b : dict) :
  reading_key obj <> "name" ->
  merged pre (first_piece obj) b ->
  merged (pre ++ [obj]) (first_piece obj)
              (dict_set (reading_key obj) (reading_entry obj) b).
Proof.
  intros Hkey [Hname Hkeys]. split.
  - rewrite dict_get_set_neq by exact Hkey. exact Hname.
  - intros k Hk. rewrite last_reading_snoc, String.eqb_refl. cbn [andb].
    destruct (reading_key obj =? k)%string eqn:E.
    + apply String.eqb_eq in E. subst k. apply dict_get_set_eq.
    + apply String.eqb_neq in E. rewrite dict_get_set_neq by exact E.
      apply Hkeys, Hk.
Qed.

(** The first record of a group starts the emitted record. *)
Lemma merged_new (pre : list json) (obj : json) :
  reading_key obj <> "name" ->
  ~ In (first_piece obj) (map first_piece pre) ->
  merged (pre ++ [obj]) (first_piece obj)
              (dict_set (reading_key obj) (reading_entry obj)
                        [("name", JStr (first_piece obj))]).
Proof.
  intros Hkey Hnew. split.
  - rewrite dict_get_set_neq by exact Hkey. reflexivity.
  - intros k Hk. rewrite last_reading_snoc, String.eqb_refl. cbn [andb].
    destruct (reading_key obj =? k)%string eqn:E.
    + apply String.eqb_eq in E. subst k. apply dict_get_set_eq.
    + apply String.eqb_neq in E. rewrite dict_get_set_neq by exact E.
      rewrite last_reading_unseen by exact Hnew.
      cbn [dict_get option_map].
      replace ("name" =? k)%string with false; [reflexivity|].
      symmetry. apply String.eqb_neq. congruence.
Qed.

(** The inner loop finds the record of the group and updates it. *)
Lemma update_buffer_merged (pre : list json) (obj : json)
    (found : list string) (buffer : list dict) :
  wf_psu obj ->
  Forall2 (merged pre) found buffer ->
  NoDup found ->
  In (first_piece obj) found ->
  exists buffer',
    update_buffer (first_piece obj) obj buffer = Ok buffer' /\
    Forall2 (merged (pre ++ [obj])) found buffer'.
Proof.
  intros Hwf H. destruct (wf_psu_parts obj Hwf) as (_ & Hk & He).
  assert (Hkey : reading_key obj <> "name") by (destruct Hwf as (d & _ & _ & _ & K); exact K).
  induction H as [|t b found buffer Hm Hrest IH]; intros Hnd Hin; [contradiction|].
  inversion Hnd as [|? ? Hnotin Hnd']; subst.
  cbn [update_buffer]. unfold dict_getitem.
  rewrite (proj1 Hm). cbn [bind eq_str].
  destruct (t =? first_piece obj)%string eqn:E.
  - apply String.eqb_eq in E. subst t.
    rewrite Hk, He. cbn [bind]. eexists; split; [reflexivity|].
    constructor; [apply merged_same; assumption|].
    apply merged_others; assumption.
  - apply String.eqb_neq in E.
    destruct IH as (buffer' & Eb & Hb); [exact Hnd' | destruct Hin; congruence|].
    rewrite Eb. cbn [bind]. eexists; split; [reflexivity|].
    constructor; [apply merged_other; [congruence | exact Hm] | exact Hb].
Qed.

(** One turn of the scan keeps the groups and their records in step. *)
Lemma psu_step_merged (pre : list json) (obj : json)
    (found : list string) (buffer : list dict) :
  wf_psu obj ->
  found = first_seen (map first_piece pre) ->
  Forall2 (merged pre) found buffer ->
  exists found' buffer',
    psu_step (found, buffer) obj = Ok (found', buffer') /\
    found' = first_seen (map first_piece (pre ++ [obj])) /\
    Forall2 (merged (pre ++ [obj])) found' buffer'.
Proof.
  intros Hwf Hfound H. subst found.
  destruct (wf_psu_parts obj Hwf) as (Hn & Hk & He).
  assert (Hkey : reading_key obj <> "name") by (destruct Hwf as (d & _ & _ & _ & K); exact K).
  assert (Esnoc : first_seen (map first_piece (pre ++ [obj])) =
                  see (first_seen (map first_piece pre)) (first_piece obj))
    by (rewrite map_app; cbn [map]; apply first_seen_snoc).
  unfold psu_step. rewrite Hn. cbn [bind].
  destruct (existsb (String.eqb (first_piece obj))
                    (first_seen (map first_piece pre))) eqn:E; cbn [negb].
  - pose proof E as Hin. apply existsb_eqb_In in Hin.
    destruct (update_buffer_merged pre obj _ buffer Hwf H) as (buffer' & Eb & Hb);
      [apply first_seen_NoDup | exact Hin |].
    rewrite Eb. cbn [bind]. do 2 eexists. split; [reflexivity|].
    split; [|exact Hb].
    rewrite Esnoc. unfold see. rewrite E. reflexivity.
  - assert (Hnew : ~ In (first_piece obj) (first_seen (map first_piece pre)))
      by (intros Hin; apply existsb_eqb_In in Hin; congruence).
    rewrite Hk, He. cbn [bind]. do 2 eexists. split; [reflexivity|].
    split; [rewrite Esnoc; unfold see; rewrite E; reflexivity|].
    apply Forall2_app; [apply merged_others; assumption|].
    constructor; [|constructor].
    apply merged_new; [exact Hkey|].
    intros Hin. apply Hnew. apply first_seen_In, Hin.
Qed.

Lemma psu_scan_merged (rest pre : list json) (found : list string) (buffer : list dict) :
  Forall wf_psu rest ->
  found = first_seen (map first_piece pre) ->
  Forall2 (merged pre) found buffer ->
  exists buffer',
    fold_res psu_step rest (found, buffer) =
      Ok (first_seen (map first_piece (pre ++ rest)), buffer') /\
    Forall2 (merged (pre ++ rest))
            (first_seen (map first_piece (pre ++ rest))) buffer'.
Proof.
  revert pre found buffer.
  induction rest as [|obj rest IH]; intros pre found buffer Hwf Hfound H.
  - rewrite app_nil_r. subst found. cbn [fold_res]. eauto.
  - inversion Hwf as [|? ? Hobj Hrest]; subst.
    destruct (psu_step_merged pre obj _ buffer Hobj eq_refl H)
      as (found' & buffer' & Es & Ef & Hb).
    cbn [fold_res]. rewrite Es. cbn [bind].
    replace (pre ++ obj :: rest) with ((pre ++ [obj]) ++ rest)
      by (rewrite <- app_assoc; reflexivity).
    apply IH; assumption.
Qed.

Lemma format_psu_merged (psu_obj : list json) :
  Forall wf_psu psu_obj ->
  exists buffer,
    format_psu psu_obj = Ok (map JDict buffer) /\
    Forall2 (merged psu_obj) (first_seen (map first_piece psu_obj)) buffer.
Proof.
  intros Hwf.
  destruct (psu_scan_merged psu_obj [] [] [] Hwf eq_refl (Forall2_nil _))
    as (buffer & E & H).
  cbn [app] in E, H.
  exists buffer. unfold format_psu. rewrite E. cbn [bind snd].
  split; [reflexivity | exact H].
Qed.

(** X21: on records whose name and type are strings (the type not being
    [name] up to case), [format_psu] emits one record per first piece of the
    names (the part before the first space), in the order in which the
    pieces are first met; the record of a group holds the piece under [name]
    and, under each lowercased reading type of the group, the reading and
    health of the last record of the group with that type. *)
Theorem format_psu_groups (psu_obj : list json) :
  Forall wf_psu psu_obj ->
  exists buffer,
    format_psu psu_obj = Ok (map JDict buffer) /\
    NoDup (first_seen (map first_piece psu_obj)) /\
    (forall t, In t (first_seen (map first_piece psu_obj)) <->
               exists obj, In obj psu_obj /\ first_piece obj = t) /\
    Forall2 (merged psu_obj) (first_seen (map first_piece psu_obj)) buffer.
Proof.
  intros Hwf.
  destruct (format_psu_merged psu_obj Hwf) as (buffer & E & H).
  exists buffer.
  split; [exact E|]. split; [apply first_seen_NoDup|]. split; [|exact H].
  intros t. rewrite first_seen_In, in_map_iff.
  split; intros (obj & A & B); exists obj; split; assumption.
Qed.

Lemma psu_example_wf : Forall wf_psu psu_example.
Proof.
  repeat constructor;
    (eexists; split; [reflexivity|]; repeat split; discriminate).
Qed.

Lemma format_psu_groups_witness :
  exists buffer,
    format_psu psu_example = Ok (map JDict buffer) /\
    NoDup (first_seen (map first_piece psu_example)) /\
    (forall t, In t (first_seen (map first_piece psu_example)) <->
               exists obj, In obj psu_example /\ first_piece obj = t) /\
    Forall2 (merged psu_example)
            (first_seen (map first_piece psu_example)) buffer.
Proof. exact (format_psu_groups psu_example psu_example_wf). Defined.

(** The later voltage of PS1 replaces the earlier one; PS1 comes before PS2. *)
Lemma format_psu_example :
  format_psu psu_example =
  Ok [JDict [("name", JStr "PS1");
             ("voltage", JDict [("reading", JInt 13); ("health", JStr "Critical")]);
             ("current", JDict [("reading", JFloat 1.5); ("health", JStr "OK")])];
      JDict [("name", JStr "PS2");
             ("voltage", JDict [("reading", JInt 11); ("health", JStr "Warning")])]].
Proof. reflexivity. Qed.

(** C2: the code on a power-supply sensor that reports no reading type.
    The member loop puts its record, with type [None], in the psu list next
    to a reading of the same supply; [format_psu] asks for the type with the
    default of the empty string, gets [None] because the key is there, and
    raises on [lower]: no record is emitted for the group, the sensor phase
    is given up and the document holds no bucket.  Further, the group of a
    name is the piece before its first space, not its first token: a name
    that starts with a space is grouped under the empty name; and a reading
    type [Name] takes the place of the name of the emitted record. *)
Theorem format_psu_loses_untyped_group :
  classify_members (table_request responses)
    (table_loads (documents_with (JList [ps1_member; untyped_member])))
    [ps1_member; untyped_member] =
    Ok (Buckets [] [ps1_record; untyped_record] [] []) /\
  format_psu [ps1_record; untyped_record] = Raise AttributeError /\
  run (JList [ps1_member; untyped_member]) = system_fields /\
  run (JList [ps1_member]) =
    system_fields ++
    out_dict (Buckets [] [JDict [("name", JStr "PS1"); ("voltage", voltage_entry)]] [] []) /\
  Spec.first_token " PS1 Voltage" = "PS1" /\
  format_psu [JDict (sensor_record (JStr "p1") (JStr " PS1 Voltage") (JStr "PowerSupply")
                                   (JInt 12) (JStr "Voltage") (JStr "OK"))] =
    Ok [JDict [("name", JStr ""); ("voltage", voltage_entry)]] /\
  format_psu [JDict (sensor_record (JStr "p1") (JStr "PS1 Voltage") (JStr "PowerSupply")
                                   (JInt 12) (JStr "Name") (JStr "OK"))] =
    Ok [JDict [("name", voltage_entry)]].
Proof. repeat split. Qed.

(** The first item of the scan opens the first group; the other groups are
    those of the rest of the scan. *)
Lemma fold_see_cons (l acc : list string) (x : string) :
  fold_left see l (x :: acc) =
  x :: fold_left see (filter (fun y => negb (y =? x)%string) l) acc.
Proof.
  revert acc; induction l as [|y l IH]; intros acc; [reflexivity|].
  cbn [fold_left filter]. unfold see at 2. cbn [existsb].
  destruct (y =? x)%string eqn:E; cbn [orb negb].
  - apply IH.
  - cbn [fold_left]. unfold see at 3.
    destruct (existsb (String.eqb y) acc); apply IH.
Qed.

Lemma first_seen_cons (x : string) (l : list string) :
  first_seen (x :: l) =
  x :: first_seen (filter (fun y => negb (y =? x)%string) l).
Proof. apply (fold_see_cons l [] x). Qed.

(** ** The orchestration *)

Section PipelineFacts.

Variable execute_request : string -> res string.
Variable loads : string -> res json.

(** No turn of the member loop raises. *)
Lemma member_step_never_raises (out : buckets) (sensor : json) :
  exists out', (member_step execute_request loads) out sensor = Ok out'.
Proof.
  unfold member_step.
  destruct (resolve_member execute_request loads sensor) as [sensor_obj|]; [|eauto].
  rewrite extract_sensor_fields.
  destruct (classify_into_places out
              (sensor_record (top_field "Id" sensor_obj) (top_field "Name" sensor_obj)
                 (top_field "PhysicalContext" sensor_obj) (top_field "Reading" sensor_obj)
                 (top_field "ReadingType" sensor_obj) (status_health sensor_obj)))
    as (out' & E & _).
  eauto.
Qed.

Lemma member_loop_never_raises (sensors : list json) (out : buckets) :
  exists out', fold_res (member_step execute_request loads) sensors out = Ok out'.
Proof.
  revert out; induction sensors as [|sensor sensors IH]; intros out; cbn [fold_res].
  - eauto.
  - destruct (member_step_never_raises out sensor) as [out' ->]. cbn [bind]. apply IH.
Qed.

(** A reference that cannot be fetched is skipped. *)
Lemma failed_fetch_skipped (out : buckets) (path : string) (e : exn) :
  fetch execute_request loads (JStr path) = Raise e ->
  (member_step execute_request loads) out (JStr path) = Ok out.
Proof.
  intros H. unfold member_step, resolve_member. rewrite H. reflexivity.
Qed.

Lemma failed_reference_skipped (out : buckets) (d : dict) (e : exn) :
  dict_mem "@odata.id" d = true ->
  fetch execute_request loads (dict_get_or "@odata.id" JNull d) = Raise e ->
  (member_step execute_request loads) out (JDict d) = Ok out.
Proof.
  intros Hm H. unfold member_step, resolve_member.
  rewrite Hm, H. reflexivity.
Qed.

(** The loop classifies the other members as if the skipped one were not
    in the list. *)
Lemma skipped_member_dropped (pre post : list json) (bad : json) (out : buckets) :
  (forall out', (member_step execute_request loads) out' bad = Ok out') ->
  fold_res (member_step execute_request loads) (pre ++ bad :: post) out = fold_res (member_step execute_request loads) (pre ++ post) out.
Proof.
  intros Hbad. revert out; induction pre as [|x pre IH]; intros out; cbn [app fold_res].
  - rewrite Hbad. reflexivity.
  - destruct ((member_step execute_request loads) out x); cbn [bind]; [apply IH | reflexivity].
Qed.

(** The normalisers go through when the names and types they read are
    strings. *)
Lemma normalise_strings (out : buckets) :
  Forall wf_psu (psu out) ->
  Forall has_string_name (temperature out) ->
  Forall has_string_name (sysBoard out) ->
  exists out', normalise out = Ok out'.
Proof.
  intros Hp Ht Hs. unfold normalise.
  destruct (format_psu_merged (psu out) Hp) as (buffer & -> & _).
  rewrite (format_temp_rename _ Ht).
  rewrite (format_sysboard_rename _ Hs).
  cbn [bind]. eauto.
Qed.

(** The member list: a non-empty list under [Members]; else a non-empty
    list under [members]; a document that is itself a list. *)
Lemma select_sensors_members (sensors_raw : string) (d : dict) (x : json) (l : list json) :
  loads sensors_raw = Ok (JDict d) ->
  dict_get "Members" d = Some (JList (x :: l)) ->
  select_sensors loads sensors_raw = Ok (x :: l).
Proof.
  intros Hl Hm. unfold select_sensors. rewrite Hl. cbn [try_except bind].
  unfold dict_get_or. rewrite Hm. reflexivity.
Qed.

Lemma select_sensors_lowercase (sensors_raw : string) (d : dict) (x : json) (l : list json) :
  loads sensors_raw = Ok (JDict d) ->
  truthy (dict_get_or "Members" JNull d) = false ->
  dict_get "members" d = Some (JList (x :: l)) ->
  select_sensors loads sensors_raw = Ok (x :: l).
Proof.
  intros Hl Hf Hm. unfold select_sensors, py_or. rewrite Hl. cbn [try_except bind].
  rewrite Hf. unfold dict_get_or. rewrite Hm. reflexivity.
Qed.

Lemma select_sensors_sequence (sensors_raw : string) (l : list json) :
  loads sensors_raw = Ok (JList l) ->
  select_sensors loads sensors_raw = Ok l.
Proof.
  intros Hl. unfold select_sensors. rewrite Hl. reflexivity.
Qed.

(** An object is never taken for the member list itself. *)
Lemma select_sensors_object (sensors_raw : string) (d : dict) :
  loads sensors_raw = Ok (JDict d) ->
  truthy (dict_get_or "Members" JNull d) = false ->
  truthy (dict_get_or "members" JNull d) = false ->
  select_sensors loads sensors_raw = Raise (RuntimeError "Unexpected type for sensors.").
Proof.
  intros Hl H1 H2. unfold select_sensors, py_or. rewrite Hl. cbn [try_except bind].
  rewrite H1, H2. reflexivity.
Qed.

End PipelineFacts.

(** C3: the code on a collection of three members: a reference that cannot
    be fetched, a temperature sensor that reports no name, and a fan.  The
    member loop skips the first and classifies the other two; the
    temperature trim then raises on the missing name, the sensor phase is
    given up, and the document holds no bucket at all: the fan is lost.
    Without the nameless sensor the fan is reported. *)
Theorem nameless_sensor_loses_all_buckets :
  classify_members (table_request responses)
    (table_loads (documents_with (JDict [("Members",
       JList [gone_member; nameless_member; fan_member])])))
    [gone_member; nameless_member; fan_member] =
    Ok (Buckets [fan_record] [] [nameless_record] []) /\
  format_temp [nameless_record] = Raise AttributeError /\
  run (JDict [("Members", JList [gone_member; nameless_member; fan_member])]) =
    system_fields /\
  run (JDict [("Members", JList [gone_member; fan_member])]) =
    system_fields ++ out_dict (Buckets [fan_record] [] [] []).
Proof. repeat split. Qed.

(** C9: the code on an object whose [Members] is the empty list.  The empty
    list counts as false, so [members] and then the object itself are
    tried, and the object is refused as no list: the document gets no
    bucket, where an empty member list gives four empty buckets.  A
    non-empty [members] next to an empty [Members] is taken instead. *)
Theorem empty_members_not_taken :
  select_sensors (table_loads (documents_with (JDict [("Members", JList [])])))
    "sensors" = Raise (RuntimeError "Unexpected type for sensors.") /\
  select_sensors
    (table_loads (documents_with
       (JDict [("Members", JList []); ("members", JList [fan_member])])))
    "sensors" = Ok [fan_member] /\
  run (JDict [("Members", JList [])]) = system_fields /\
  run (JList []) = system_fields ++ out_dict empty_out.
Proof. repeat split. Qed.

(** Two readings of one power supply end up in one record of the psu list. *)
Lemma run_ps1_example :
  dict_get "psu" (run (JDict [("Members", ps1_members)])) =
  Some (JList [JDict [("name", JStr "PS1");
                      ("voltage", JDict [("reading", JInt 12); ("health", JStr "OK")]);
                      ("current", JDict [("reading", JFloat 1.5); ("health", JStr "OK")])]]).
Proof. reflexivity. Qed.

(* ================================================================== *)
(** * Further properties of the code *)

(** ** validate_zabbix_params *)

Lemma unset_value_false (v : json) :
  unset_value v = false <-> v <> JStr "" /\ v <> JNull.
Proof.
  unfold unset_value. rewrite orb_false_iff. split.
  - intros [H1 H2]. split; intros ->; discriminate.
  - intros [H1 H2]. split.
    + destruct (eq_str v "") eqn:E; [|reflexivity].
      apply eq_str_iff in E. contradiction.
    + destruct v; try reflexivity. contradiction.
Qed.

Lemma param_missing_false (field : string) (all_params : json) :
  param_missing field all_params = false <-> param_set all_params field.
Proof.
  unfold param_missing, param_set. split.
  - destruct all_params as [| | | | | |d]; try discriminate.
    destruct (dict_get field d) as [v|] eqn:E; [|discriminate].
    intros H. apply unset_value_false in H. destruct H as [H1 H2].
    exists d, v. split; [reflexivity|]. split; [exact E|]. split; assumption.
  - intros (d & v & -> & Hd & Hv). rewrite Hd. apply unset_value_false, Hv.
Qed.

Lemma validate_zabbix_params_ok
    (required_params : list string) (all_params : json) :
  (validate_zabbix_params required_params all_params = ParamsOk <->
   Forall (param_set all_params) required_params) /\
  (forall msg,
      validate_zabbix_params required_params all_params = ParamError msg <->
      exists before field after,
        required_params = before ++ field :: after /\
        Forall (param_set all_params) before /\
        ~ param_set all_params field /\
        msg = ("Required param is not set: " ++ field ++ ".")%string).
Proof.
  induction required_params as [|f rest [IHok IHerr]]; cbn [validate_zabbix_params].
  - split.
    + split; [constructor | reflexivity].
    + intros msg. split; [discriminate|].
      intros (before & field & after & E & _). destruct before; discriminate.
  - destruct (param_missing f all_params) eqn:M.
    + assert (Hf : ~ param_set all_params f)
        by (intros H; apply param_missing_false in H; congruence).
      split.
      * split; [discriminate|]. intros H. inversion H; subst. contradiction.
      * intros msg. split.
        -- intros [= <-]. exists [], f, rest. repeat split; [constructor | exact Hf].
        -- intros (before & field & after & E & Hb & Hn & ->).
           destruct before as [|b before]; cbn [app] in E.
           ++ injection E as -> _. reflexivity.
           ++ injection E as -> _. inversion Hb; subst. contradiction.
    + apply param_missing_false in M. split.
      * rewrite IHok. split; [intros H; constructor; assumption|].
        intros H. inversion H; assumption.
      * intros msg. rewrite IHerr. split.
        -- intros (before & field & after & -> & Hb & Hn & ->).
           exists (f :: before), field, after.
           repeat split; [constructor; assumption | exact Hn].
        -- intros (before & field & after & E & Hb & Hn & ->).
           destruct before as [|b before]; cbn [app] in E.
           ++ injection E as -> _. contradiction.
           ++ injection E as -> ->. inversion Hb; subst.
              exists before, field, after. repeat split; assumption.
Qed.

(** X1: [validate_zabbix_params] returns exactly when every required field
    is set, and otherwise raises [ParamError] naming the first required field
    that is not. *)
Theorem validate_zabbix_params_first_unset
    (required_params : list string) (all_params : json) :
  (validate_zabbix_params required_params all_params = ParamsOk <->
   Forall (param_set all_params) required_params) /\
  (forall msg,
      validate_zabbix_params required_params all_params = ParamError msg <->
      exists before field after,
        required_params = before ++ field :: after /\
        Forall (param_set all_params) before /\
        ~ param_set all_params field /\
        msg = ("Required param is not set: " ++ field ++ ".")%string).
Proof. apply validate_zabbix_params_ok. Qed.

(** ** [rstrip], [execute_request] and [get] *)

Lemma str_rstrip_snoc (c : ascii) (s : string) :
  str_rstrip c (s ++ String c "") = str_rstrip c s.
Proof.
  induction s as [|a s IH]; cbn [append str_rstrip].
  - rewrite Ascii.eqb_refl. reflexivity.
  - rewrite IH. reflexivity.
Qed.

Lemma str_rstrip_repeat (c : ascii) (k : nat) (s : string) :
  str_rstrip c (s ++ repeat_char c k) = str_rstrip c s.
Proof.
  revert s; induction k as [|k IH]; intros s; cbn [repeat_char].
  - rewrite append_empty_r. reflexivity.
  - replace (s ++ String c (repeat_char c k))%string
      with ((s ++ String c "") ++ repeat_char c k)%string
      by (rewrite append_assoc; reflexivity).
    rewrite IH. apply str_rstrip_snoc.
Qed.

Lemma endswith_char_cons (c a : ascii) (s : string) :
  PyStr.endswith (String c "") (String a s) = false ->
  (s = EmptyString -> Ascii.eqb a c = false) /\
  PyStr.endswith (String c "") s = false.
Proof.
  cbn [PyStr.endswith]. intros H. apply orb_false_iff in H. destruct H as [H1 H2].
  split; [|exact H2]. intros ->. cbn [String.eqb] in H1.
  destruct (Ascii.eqb a c); [discriminate | reflexivity].
Qed.

Lemma str_rstrip_fixed (c : ascii) (s : string) :
  PyStr.endswith (String c "") s = false -> str_rstrip c s = s.
Proof.
  induction s as [|a s IH]; intros H; [reflexivity|].
  apply endswith_char_cons in H. destruct H as [Ha Hs].
  cbn [str_rstrip]. rewrite (IH Hs).
  destruct s; [rewrite Ha; reflexivity | reflexivity].
Qed.

Lemma str_rstrip_no_trailing (c : ascii) (s : string) :
  PyStr.endswith (String c "") (str_rstrip c s) = false.
Proof.
  induction s as [|a s IH]; [reflexivity|].
  cbn [str_rstrip]. destruct (str_rstrip c s) as [|b r] eqn:E.
  - destruct (Ascii.eqb a c) eqn:Ea; [reflexivity|].
    cbn [PyStr.endswith String.eqb]. rewrite Ea. reflexivity.
  - cbn [PyStr.endswith] in *. rewrite IH.
    cbn [String.eqb]. destruct (Ascii.eqb a c); reflexivity.
Qed.

(** Every string is its [rstrip] followed by a run of the stripped
    character. *)
Lemma str_rstrip_run (c : ascii) (s : string) :
  exists k, s = (str_rstrip c s ++ repeat_char c k)%string.
Proof.
  induction s as [|a s [k IH]].
  - exists 0. reflexivity.
  - cbn [str_rstrip]. destruct (str_rstrip c s) as [|b r] eqn:E.
    + destruct (Ascii.eqb a c) eqn:Ea.
      * apply Ascii.eqb_eq in Ea. subst a. exists (S k).
        cbn [append repeat_char] in *. rewrite <- IH. reflexivity.
      * exists k. cbn [append] in *. rewrite <- IH. reflexivity.
    + exists k. cbn [append] in *. rewrite <- IH. reflexivity.
Qed.

(** X2: [execute_request] asks for the configured url without its trailing
    slashes, followed by the path, with the configured expected status: any
    number of slashes at the end of the url gives the same request. *)
Theorem execute_request_trailing_slashes
    (session_get : session -> string -> list (string * string) -> json -> res response)
    (basic_token : json -> json -> res string) (params : dict)
    (base api_path : string) (k : nat) :
  dict_get "url" params = Some (JStr (base ++ repeat_char "/" k)) ->
  PyStr.endswith "/" base = false ->
  execute_request session_get basic_token params api_path =
  get session_get basic_token params (base ++ api_path)
      (dict_get_or "http_status_code" JNull params).
Proof.
  intros Hurl Hbase. unfold execute_request, dict_get_or at 1. rewrite Hurl.
  cbn [py_rstrip bind].
  rewrite str_rstrip_repeat, str_rstrip_fixed by exact Hbase. reflexivity.
Qed.

Lemma execute_request_trailing_slashes_witness :
  execute_request (always_reply (Response 200 "{}")) fixed_token
                  http_examples_params "/redfish/v1" =
  get (always_reply (Response 200 "{}")) fixed_token http_examples_params
      "https://idrac.example/redfish/v1" (JStr "200").
Proof.
  exact (execute_request_trailing_slashes (always_reply (Response 200 "{}")) fixed_token
           http_examples_params "https://idrac.example" "/redfish/v1" 2 eq_refl eq_refl).
Defined.

(** *** [int] on text *)

Lemma list_ascii_app (a b : string) :
  list_ascii_of_string (a ++ b) = (list_ascii_of_string a ++ list_ascii_of_string b)%list.
Proof. induction a as [|c a IH]; cbn; [reflexivity | rewrite IH; reflexivity]. Qed.

Lemma string_of_list_app (a b : list ascii) :
  string_of_list_ascii (a ++ b)%list =
  (string_of_list_ascii a ++ string_of_list_ascii b)%string.
Proof. induction a as [|c a IH]; cbn; [reflexivity | rewrite IH; reflexivity]. Qed.

Lemma rev_rev (s : string) : PyStr.rev (PyStr.rev s) = s.
Proof.
  unfold PyStr.rev.
  rewrite list_ascii_of_string_of_list_ascii, rev_involutive.
  apply string_of_list_ascii_of_string.
Qed.

Lemma rev_append (a b : string) :
  PyStr.rev (a ++ b) = (PyStr.rev b ++ PyStr.rev a)%string.
Proof.
  unfold PyStr.rev. rewrite list_ascii_app, rev_app_distr. apply string_of_list_app.
Qed.

Lemma chars_rev (s : string) (c : ascii) :
  In c (list_ascii_of_string (PyStr.rev s)) <-> In c (list_ascii_of_string s).
Proof.
  unfold PyStr.rev. rewrite list_ascii_of_string_of_list_ascii.
  symmetry. apply in_rev.
Qed.

(** Leading white space goes, and nothing else. *)
Lemma lstrip_by_spaces (space : ascii -> bool) (pre s : string) :
  Forall (fun c => space c = true) (list_ascii_of_string pre) ->
  PyStr.lstrip_by space (pre ++ s) = PyStr.lstrip_by space s.
Proof.
  induction pre as [|c pre IH]; intros H; [reflexivity|].
  cbn [list_ascii_of_string] in H. inversion H as [|? ? Hc Hpre]; subst.
  cbn [append PyStr.lstrip_by]. rewrite Hc. apply IH, Hpre.
Qed.

Lemma lstrip_by_first (space : ascii -> bool) (s : string) :
  s <> EmptyString ->
  (forall c, In c (list_ascii_of_string s) -> space c = false) ->
  forall post, PyStr.lstrip_by space (s ++ post) = (s ++ post)%string.
Proof.
  destruct s as [|c s]; [congruence|]. intros _ H post.
  cbn [append PyStr.lstrip_by]. rewrite (H c); [reflexivity | left; reflexivity].
Qed.

Lemma lstrip_by_keeps (space : ascii -> bool) (s : string) (c : ascii) :
  In c (list_ascii_of_string s) -> space c = false ->
  In c (list_ascii_of_string (PyStr.lstrip_by space s)).
Proof.
  induction s as [|a s IH]; intros Hin Hc; [contradiction|].
  cbn [PyStr.lstrip_by]. destruct (space a) eqn:Ea; [|exact Hin].
  destruct Hin as [<-|Hin]; [congruence | exact (IH Hin Hc)].
Qed.

Lemma strip_by_keeps (space : ascii -> bool) (s : string) (c : ascii) :
  In c (list_ascii_of_string s) -> space c = false ->
  In c (list_ascii_of_string (PyStr.strip_by space s)).
Proof.
  intros Hin Hc. unfold PyStr.strip_by.
  apply (proj2 (chars_rev _ c)), lstrip_by_keeps; [|exact Hc].
  apply (proj2 (chars_rev _ c)), lstrip_by_keeps; assumption.
Qed.

Lemma rev_all (P : ascii -> Prop) (s : string) :
  Forall P (list_ascii_of_string s) -> Forall P (list_ascii_of_string (PyStr.rev s)).
Proof.
  intros H. apply Forall_forall. intros c Hc. apply (proj1 (chars_rev s c)) in Hc.
  rewrite Forall_forall in H. exact (H c Hc).
Qed.

(** A text with no white space of its own, between runs of white space, is
    what [strip] leaves. *)
Lemma strip_by_core (space : ascii -> bool) (pre core post : string) :
  Forall (fun c => space c = true) (list_ascii_of_string pre) ->
  Forall (fun c => space c = true) (list_ascii_of_string post) ->
  core <> EmptyString ->
  (forall c, In c (list_ascii_of_string core) -> space c = false) ->
  PyStr.strip_by space (pre ++ core ++ post) = core.
Proof.
  intros Hpre Hpost Hne Hcore. unfold PyStr.strip_by.
  rewrite lstrip_by_spaces by exact Hpre.
  rewrite lstrip_by_first by assumption.
  rewrite rev_append, lstrip_by_spaces by (apply rev_all, Hpost).
  rewrite <- (append_empty_r (PyStr.rev core)).
  rewrite lstrip_by_first.
  - rewrite append_empty_r. apply rev_rev.
  - intros E. apply Hne. rewrite <- (rev_rev core), E. reflexivity.
  - intros c Hc. apply Hcore, (proj1 (chars_rev core c)), Hc.
Qed.

Lemma strip_by_blank (space : ascii -> bool) (s : string) :
  Forall (fun c => space c = true) (list_ascii_of_string s) ->
  PyStr.strip_by space s = EmptyString.
Proof.
  intros H. unfold PyStr.strip_by.
  rewrite <- (append_empty_r s), lstrip_by_spaces by exact H. reflexivity.
Qed.

Lemma int_blank_space (c : ascii) : int_blank c <-> PyStr.is_int_space c = true.
Proof.
  unfold int_blank, PyStr.is_int_space. cbn [In]. split.
  - intros H. repeat (destruct H as [<-|H]; [reflexivity|]). contradiction.
  - intros H. apply orb_true_iff in H. destruct H as [H|H].
    + apply andb_true_iff in H. destruct H as [H1 H2].
      apply Nat.leb_le in H1, H2. lia.
    + apply Nat.eqb_eq in H. lia.
Qed.

Lemma blanks_spaces (s : string) :
  blanks s -> Forall (fun c => PyStr.is_int_space c = true) (list_ascii_of_string s).
Proof.
  unfold blanks. intros H. eapply Forall_impl; [|exact H].
  intros c. apply int_blank_space.
Qed.

Lemma uint_chars_no_space (d : Decimal.uint) (c : ascii) :
  In c (list_ascii_of_string (NilEmpty.string_of_uint d)) -> PyStr.is_int_space c = false.
Proof.
  induction d; cbn [NilEmpty.string_of_uint list_ascii_of_string In];
    try contradiction; (intros [<-|H]; [reflexivity | exact (IHd H)]).
Qed.

Lemma digits_uint_acc (d : Decimal.uint) (acc : positive) :
  PyStr.digits (Zpos acc) true (NilEmpty.string_of_uint d) =
  Some (Zpos (Pos.of_uint_acc d acc)).
Proof.
  revert acc; induction d; intros acc;
    cbn [NilEmpty.string_of_uint PyStr.digits Pos.of_uint_acc]; try reflexivity;
    match goal with
    | |- context [PyStr.digit_val ?c] =>
        let v := eval vm_compute in (PyStr.digit_val c) in
        change (PyStr.digit_val c) with v
    end; cbv iota beta; rewrite <- IHd; f_equal; lia.
Qed.

Lemma digits_uint (d : Decimal.uint) :
  PyStr.digits 0 true (NilEmpty.string_of_uint d) = Some (Z.of_N (Pos.of_uint d)).
Proof.
  induction d; cbn [NilEmpty.string_of_uint PyStr.digits Pos.of_uint];
    try reflexivity;
    match goal with
    | |- context [PyStr.digit_val ?c] =>
        let v := eval vm_compute in (PyStr.digit_val c) in
        change (PyStr.digit_val c) with v
    end; cbv iota beta;
    first [exact IHd | apply digits_uint_acc].
Qed.

Lemma digits_uint_start (d : Decimal.uint) :
  d <> Decimal.Nil ->
  PyStr.digits 0 false (NilEmpty.string_of_uint d) =
  PyStr.digits 0 true (NilEmpty.string_of_uint d).
Proof. destruct d; intros H; [congruence | reflexivity ..]. Qed.

Lemma pos_to_uint_not_nil (p : positive) : Pos.to_uint p <> Decimal.Nil.
Proof.
  intros H. pose proof (DecimalPos.Unsigned.of_to p) as E.
  rewrite H in E. discriminate.
Qed.

Lemma digits_of_pos (p : positive) :
  PyStr.digits 0 false (NilEmpty.string_of_uint (Pos.to_uint p)) = Some (Zpos p).
Proof.
  rewrite digits_uint_start by apply pos_to_uint_not_nil.
  rewrite digits_uint, DecimalPos.Unsigned.of_to. reflexivity.
Qed.

Lemma uint_string_first (d : Decimal.uint) :
  d <> Decimal.Nil ->
  exists c rest,
    NilEmpty.string_of_uint d = String c rest /\ c <> "+"%char /\ c <> "-"%char.
Proof.
  destruct d; intros H; [congruence|..];
    cbn [NilEmpty.string_of_uint]; do 2 eexists; (split; [reflexivity|]);
    split; discriminate.
Qed.

(** The decimal text of a whole number: not empty, no white space in it, and
    its digits read back as the number. *)
Lemma str_of_int_chars (n : Z) :
  str_of_int n <> EmptyString /\
  forall c, In c (list_ascii_of_string (str_of_int n)) -> PyStr.is_int_space c = false.
Proof.
  destruct n as [|p|p]; unfold str_of_int;
    cbn [Z.to_int NilZero.string_of_int]; unfold NilZero.string_of_uint.
  - split; [discriminate|]. intros c [<-|[]]. reflexivity.
  - pose proof (pos_to_uint_not_nil p) as Hn.
    destruct (Pos.to_uint p) eqn:U; try congruence; rewrite <- U;
      (split; [rewrite U; discriminate | apply uint_chars_no_space]).
  - pose proof (pos_to_uint_not_nil p) as Hn.
    split; [discriminate|]. intros c [<-|H]; [reflexivity|].
    destruct (Pos.to_uint p) eqn:U; try congruence; rewrite <- U in H;
      exact (uint_chars_no_space _ _ H).
Qed.

Lemma signed_digits_str_of_int (n : Z) : PyStr.signed (str_of_int n) = Some n.
Proof.
  destruct n as [|p|p]; [reflexivity|..]; unfold PyStr.signed, str_of_int;
    cbn [Z.to_int NilZero.string_of_int]; unfold NilZero.string_of_uint;
    pose proof (pos_to_uint_not_nil p) as Hn;
    pose proof (digits_of_pos p) as Hd;
    destruct (uint_string_first _ Hn) as (c & rest & E & Hplus & Hminus);
    destruct (Pos.to_uint p) eqn:U; try congruence; rewrite <- U in *.
  all: try (rewrite Hd; reflexivity).
  all: rewrite E in *; destruct c as [[] [] [] [] [] [] [] []];
    try congruence; rewrite Hd; reflexivity.
Qed.

(** Converting the decimal text of a whole number gives the number back,
    also with blanks around the text. *)
Lemma to_int_blanks (pre post : string) (n : Z) :
  blanks pre -> blanks post ->
  PyStr.to_int (pre ++ str_of_int n ++ post) = Ok n.
Proof.
  intros Hpre Hpost. unfold PyStr.to_int.
  destruct (str_of_int_chars n) as [Hne Hchars].
  rewrite strip_by_core; try assumption; try (apply blanks_spaces; assumption).
  rewrite signed_digits_str_of_int. reflexivity.
Qed.

Lemma to_int_str_of_int (n : Z) : PyStr.to_int (str_of_int n) = Ok n.
Proof.
  rewrite <- (to_int_blanks "" "" n) by constructor.
  cbn [append]. rewrite append_empty_r. reflexivity.
Qed.

Lemma digits_other_char (s : string) (c : ascii) (acc : Z) (after_digit : bool) :
  In c (list_ascii_of_string s) ->
  PyStr.digit_val c = None -> c <> "_"%char ->
  PyStr.digits acc after_digit s = None.
Proof.
  revert acc after_digit. induction s as [|a s IH]; intros acc after_digit Hin Hd Hu;
    [contradiction|].
  cbn [PyStr.digits]. destruct Hin as [<-|Hin].
  - rewrite Hd. destruct (Ascii.eqb_spec a "_"); [contradiction | reflexivity].
  - destruct (PyStr.digit_val a); [apply IH; assumption|].
    destruct (Ascii.eqb a "_" && after_digit); [apply IH; assumption | reflexivity].
Qed.

Lemma not_int_char (c : ascii) :
  ~ int_char c ->
  PyStr.is_int_space c = false /\ PyStr.digit_val c = None /\
  c <> "+"%char /\ c <> "-"%char /\ c <> "_"%char.
Proof.
  intros H. unfold int_char in H.
  split; [|split; [|split; [|split]]].
  - destruct (PyStr.is_int_space c) eqn:E; [|reflexivity].
    exfalso. apply H. left. apply int_blank_space, E.
  - unfold PyStr.digit_val.
    destruct ((48 <=? nat_of_ascii c)%nat && (nat_of_ascii c <=? 57)%nat) eqn:E;
      [|reflexivity].
    exfalso. apply H. right; left.
    apply andb_true_iff in E. destruct E as [E1 E2].
    apply Nat.leb_le in E1, E2. lia.
  - intros ->. apply H. tauto.
  - intros ->. apply H. tauto.
  - intros ->. apply H. tauto.
Qed.

(** A text with a character that no number text has does not convert. *)
Lemma to_int_other_char (s : string) (c : ascii) :
  In c (list_ascii_of_string s) -> ~ int_char c -> PyStr.to_int s = Raise ValueError.
Proof.
  intros Hin Hc. apply not_int_char in Hc.
  destruct Hc as (Hs & Hd & Hplus & Hminus & Hu).
  pose proof (strip_by_keeps PyStr.is_int_space s c Hin Hs) as Ht.
  unfold PyStr.to_int, PyStr.signed.
  destruct (PyStr.strip_by PyStr.is_int_space s) as [|a t]; [contradiction|].
  assert (R : forall acc b, PyStr.digits acc b (String a t) = None)
    by (intros; apply (digits_other_char _ c); assumption).
  assert (Rt : a <> c -> forall acc b, PyStr.digits acc b t = None).
  { intros Hac acc b. apply (digits_other_char _ c); try assumption.
    destruct Ht as [E|Ht]; [contradiction | exact Ht]. }
  destruct (Ascii.eqb_spec a "+") as [->|Np].
  - rewrite Rt by congruence. reflexivity.
  - destruct (Ascii.eqb_spec a "-") as [->|Nm].
    + rewrite Rt by congruence. reflexivity.
    + destruct a as [[] [] [] [] [] [] [] []];
        try congruence; rewrite R; reflexivity.
Qed.

Lemma to_int_blank (s : string) : blanks s -> PyStr.to_int s = Raise ValueError.
Proof.
  intros H. unfold PyStr.to_int.
  rewrite strip_by_blank by (apply blanks_spaces, H). reflexivity.
Qed.

(** The separators 28 to 31 are white space for [strip], not for [int]. *)
Lemma to_int_separators :
  PyStr.to_int (String (ascii_of_nat 28) "1") = Raise ValueError /\
  PyStr.to_int (String (ascii_of_nat 31) "404") = Raise ValueError /\
  PyStr.strip (String (ascii_of_nat 28) "1") = "1" /\
  PyStr.to_int (String (ascii_of_nat 9) "404 ") = Ok 404%Z /\
  PyStr.to_int "4_0_4" = Ok 404%Z /\
  PyStr.to_int "4__04" = Raise ValueError /\
  PyStr.to_int "+ 1" = Raise ValueError.
Proof. repeat split. Qed.

(** What [get] takes for the expected status. *)
Lemma status_expected_expects (expected_status : json) (expected : option Z) :
  expects expected_status expected -> status_expected expected_status = expected.
Proof.
  intros H. destruct H; cbn [status_expected]; try reflexivity.
  - rewrite to_int_blanks by assumption. reflexivity.
  - rewrite to_int_blank by assumption. reflexivity.
  - erewrite to_int_other_char by eassumption. reflexivity.
Qed.

Lemma get_reply_to
    (session_get : session -> string -> list (string * string) -> json -> res response)
    (params : dict) (url : string) (headers : list (string * string))
    (expected_status : json) (expected : option Z) :
  expects expected_status expected ->
  (resp <- session_get (HttpClient params) url headers
             (dict_get_or "verify_ssl" (JBool true) params) ;;
   match status_expected expected_status with
   | Some n =>
       if (status_code resp =? n)%Z then Ok (text resp)
       else Raise (RuntimeError
                     ("Unexpected HTTP response code: " ++ str_of_int (status_code resp)))
   | None =>
       if resp_ok resp then Ok (text resp)
       else Raise (RuntimeError ("HTTP error " ++ str_of_int (status_code resp)))
   end) =
  reply_to session_get params url headers expected.
Proof.
  intros H. rewrite (status_expected_expects _ _ H). unfold reply_to.
  destruct (session_get _ url headers _) as [resp|e]; cbn [bind]; [|reflexivity].
  unfold verdict, resp_ok. destruct expected as [n|]; [reflexivity|].
  destruct ((400 <=? status_code resp)%Z && (status_code resp <? 600)%Z); reflexivity.
Qed.

(** X3: [get] sends one request, with no header of its own unless the
    parameter [force_basic_header] counts as true, and then with the header
    [Authorization: Basic] and the token of user and password; when the
    token cannot be built the exception is raised and nothing is sent.  An
    exception of the transport is passed on.  The body of the reply is
    returned when its status is the expected one, or, when no status is
    expected, when it is outside 400 to 599; any other reply raises
    [RuntimeError] with the status in its message.  The expected status is
    a whole number, or its decimal text, with blanks around it or not; a
    text with any character foreign to numbers, the separators 28 to 31
    among them, expects nothing. *)
Theorem get_status_check
    (session_get : session -> string -> list (string * string) -> json -> res response)
    (basic_token : json -> json -> res string) (params : dict)
    (url : string) (expected_status : json) (expected : option Z) :
  expects expected_status expected ->
  let user := dict_get_or "user" (JStr "") params in
  let password := dict_get_or "password" (JStr "") params in
  let result := get session_get basic_token params url expected_status in
  (truthy (dict_get_or "force_basic_header" JNull params) = false ->
   result = reply_to session_get params url [] expected) /\
  (truthy (dict_get_or "force_basic_header" JNull params) = true ->
   (forall e, basic_token user password = Raise e -> result = Raise e) /\
   (forall token,
       basic_token user password = Ok token ->
       result = reply_to session_get params url
                  [("Authorization", ("Basic " ++ token)%string)] expected)).
Proof.
  intros H user password result. subst result user password. unfold get.
  split; [intros F | intros F; split; [intros e T | intros token T]];
    rewrite F; try rewrite T; cbn [bind]; try reflexivity;
    apply get_reply_to, H.
Qed.

Lemma get_status_check_witness :
  get (always_reply (Response 204 "{}")) fixed_token http_examples_params
      "https://idrac.example/redfish/v1" (JStr " 200") =
    Raise (RuntimeError "Unexpected HTTP response code: 204") /\
  get (always_reply (Response 204 "{}")) fixed_token http_examples_params
      "https://idrac.example/redfish/v1" (JStr (String (ascii_of_nat 28) "200")) =
    Ok "{}".
Proof.
  assert (B : blanks " ").
  { constructor; [|constructor]. unfold int_blank. cbn. tauto. }
  assert (N : ~ int_char (ascii_of_nat 28)).
  { unfold int_char, int_blank. cbn.
    intros [H|[H|[H|[H|H]]]]; try discriminate; lia. }
  split.
  - apply (proj1 (get_status_check (always_reply (Response 204 "{}")) fixed_token
                    http_examples_params "https://idrac.example/redfish/v1"
                    (JStr " 200") (Some 200%Z)
                    (@expects_text " " "" 200%Z B (Forall_nil _)))).
    reflexivity.
  - apply (proj1 (get_status_check (always_reply (Response 204 "{}")) fixed_token
                    http_examples_params "https://idrac.example/redfish/v1"
                    (JStr (String (ascii_of_nat 28) "200")) None
                    (@expects_other_text (String (ascii_of_nat 28) "200")
                       (ascii_of_nat 28) (or_introl eq_refl) N))).
    reflexivity.
Defined.

(** ** [extract_data] on a list of keys *)

Lemma dict_set_absent (k : string) (v : json) (d : dict) :
  dict_get k d = None -> dict_set k v d = d ++ [(k, v)].
Proof.
  induction d as [|[k' v'] d IH]; cbn [dict_get dict_set app]; [reflexivity|].
  destruct (k' =? k)%string; [discriminate|].
  intros H. rewrite (IH H). reflexivity.
Qed.

Lemma dict_get_app (k : string) (d e : dict) :
  dict_get k (d ++ e) =
  match dict_get k d with
  | Some v => Some v
  | None => dict_get k e
  end.
Proof.
  induction d as [|[k' v'] d IH]; cbn [dict_get app]; [reflexivity|].
  destruct (k' =? k)%string; [reflexivity | exact IH].
Qed.


(** Updating with fresh, distinct keys appends them in order. *)
Lemma dict_update_fresh (e d : dict) :
  NoDup (map fst e) ->
  (forall k, In k (map fst e) -> dict_get k d = None) ->
  dict_update d e = d ++ e.
Proof.
  unfold dict_update. revert d.
  induction e as [|[k v] e IH]; intros d Hnd Hfresh; cbn [fold_left fst snd].
  - rewrite app_nil_r. reflexivity.
  - cbn [map fst] in Hnd. inversion Hnd as [|? ? Hk Hnd']; subst.
    rewrite dict_set_absent by (apply Hfresh; left; reflexivity).
    rewrite IH; [rewrite <- app_assoc; reflexivity | exact Hnd' |].
    intros k' Hk'. rewrite dict_get_app, Hfresh by (right; exact Hk').
    cbn [dict_get]. destruct (String.eqb_spec k k') as [E|E]; [|reflexivity].
    subst. contradiction.
Qed.

Lemma extract_key_resolve (data : json) (return_buffer : dict) (key : named_key) :
  (exists d, data = JDict d) \/ (key_path key =? "@odata.id")%string = false ->
  extract_key data return_buffer key =
  Ok (dict_set (key_name key) (resolve_key data key) return_buffer).
Proof.
  intros H. unfold extract_key, resolve_key, resolve.
  destruct (key_path key =? "@odata.id")%string eqn:E.
  - destruct H as [[d ->]|H]; [|discriminate].
    apply String.eqb_eq in E. rewrite E. reflexivity.
  - destruct (parse_json_never_raises data (PyStr.split "." (key_path key))) as [v ->].
    reflexivity.
Qed.

Lemma extract_keys_update (data : json) (keys : list named_key) (return_buffer : dict) :
  extractable data keys ->
  fold_res (extract_key data) keys return_buffer =
  Ok (dict_update return_buffer
        (map (fun key => (key_name key, resolve_key data key)) keys)).
Proof.
  intros H. revert return_buffer.
  induction keys as [|key keys IH]; intros return_buffer; [reflexivity|].
  cbn [fold_res map]. rewrite extract_key_resolve.
  - cbn [bind]. rewrite IH; [reflexivity|].
    destruct H as [H|H]; [left; exact H | right; inversion H; assumption].
  - destruct H as [H|H]; [left; exact H | right; inversion H; assumption].
Qed.

Lemma load_document_parsed (loads : string -> res json) (data : json) :
  load_document loads data true = Ok data.
Proof. destruct data; reflexivity. Qed.

Lemma extract_key_list (loads : string -> res json) (data : json)
    (keys : list named_key) :
  extractable data keys ->
  NoDup (map key_name keys) ->
  extract_data loads data (KeyList keys) true =
  Ok (JDict (map (fun key => (key_name key, resolve_key data key)) keys)).
Proof.
  intros He Hnd. unfold extract_data. rewrite load_document_parsed. cbn [bind].
  rewrite extract_keys_update by exact He. cbn [bind].
  rewrite dict_update_fresh; [reflexivity | | reflexivity].
  rewrite map_map. cbn [fst]. exact Hnd.
Qed.

(** X4: on a parsed document, [extract_data] with a list of records of
    distinct names returns one entry per record, in the order of the list,
    holding what the navigator finds under the record's path ([None] when
    the path leads nowhere); it never raises, unless a record asks for
    [@odata.id] of a document that is no mapping. *)
Theorem extract_data_key_list (loads : string -> res json) (data : json)
    (keys : list named_key) :
  NoDup (map key_name keys) ->
  (extractable data keys ->
   extract_data loads data (KeyList keys) true =
   Ok (JDict (map (fun key => (key_name key, resolve_key data key)) keys))) /\
  ((forall d, data <> JDict d) ->
   forall before name after,
     keys = before ++ NamedKey name "@odata.id" :: after ->
     Forall (fun key => (key_path key =? "@odata.id")%string = false) before ->
     extract_data loads data (KeyList keys) true = Raise AttributeError).
Proof.
  intros Hnd. split.
  - intros He. apply extract_key_list; assumption.
  - intros Hnot before name after -> Hbefore.
    unfold extract_data. rewrite load_document_parsed. cbn [bind].
    assert (G : forall rb,
               fold_res (extract_key data)
                        (before ++ NamedKey name "@odata.id" :: after) rb =
               Raise AttributeError).
    { clear Hnd. induction before as [|b before IH]; intros rb; cbn [app fold_res].
      - unfold extract_key. cbn [key_path key_name].
        destruct data; try reflexivity. exfalso. eapply Hnot. reflexivity.
      - inversion Hbefore as [|? ? Hb Hrest]; subst.
        rewrite extract_key_resolve by (right; exact Hb). cbn [bind].
        apply IH, Hrest. }
    rewrite G. reflexivity.
Qed.

Lemma extract_data_key_list_witness :
  extract_data (fun _ => Raise ValueError) system_doc system_keys true =
  Ok (JDict [("model", JStr "PowerEdge R740"); ("serialnumber", JNull);
             ("status", JStr "OK")]).
Proof.
  refine (proj1 (extract_data_key_list _ system_doc _ _) _).
  - repeat constructor; cbn; intuition discriminate.
  - left. eexists. reflexivity.
Defined.

(** ** The two phases of [main] and the printed document *)


Section PhaseFacts.

Variable execute_request : string -> res string.
Variable loads : string -> res json.





End PhaseFacts.





(** ** The member loop *)

Section MemberLoopFacts.

Variable execute_request : string -> res string.
Variable loads : string -> res json.

Lemma member_step_record (out : buckets) (sensor : json) :
  exists out',
    member_step execute_request loads out sensor = Ok out' /\
    forall b,
      bucket_list b out' =
      bucket_list b out ++
      map JDict (filter (in_bucket b) (member_record execute_request loads sensor)).
Proof.
  unfold member_step, member_record.
  destruct (resolve_member execute_request loads sensor) as [sensor_obj|].
  - rewrite extract_sensor_fields.
    match goal with
    | |- context [classify_into out (JDict ?r)] =>
        destruct (classify_into_places out r) as (out' & E & P)
    end.
    exists out'. split; [exact E|].
    intros b. rewrite P. f_equal. unfold added, in_bucket. cbn [filter].
    match goal with
    | |- context [bucket_of ?c] => destruct (bucket_of c) as [b'|]
    end; [destruct (bucket_eqb b' b)|]; reflexivity.
  - exists out. split; [reflexivity|]. intros b. cbn [filter map].
    rewrite app_nil_r. reflexivity.
Qed.

Lemma member_loop_record (sensors : list json) (out : buckets) :
  exists out',
    fold_res (member_step execute_request loads) sensors out = Ok out' /\
    forall b,
      bucket_list b out' =
      bucket_list b out ++
      map JDict (filter (in_bucket b)
                        (flat_map (member_record execute_request loads) sensors)).
Proof.
  revert out; induction sensors as [|sensor sensors IH]; intros out.
  - exists out. split; [reflexivity|]. intros b. cbn. rewrite app_nil_r. reflexivity.
  - destruct (member_step_record out sensor) as (out1 & E1 & P1).
    destruct (IH out1) as (out' & E & P).
    exists out'. cbn [fold_res]. rewrite E1. cbn [bind]. split; [exact E|].
    intros b. rewrite P, P1. cbn [flat_map].
    rewrite filter_app, map_app, <- app_assoc. reflexivity.
Qed.

(** X7: the member loop never raises, and when it ends each bucket holds, in
    the order of the member list, the records of the members that were not
    skipped and that the chain sends to that bucket: no record is lost,
    doubled or reordered. *)
Theorem member_loop_buckets (sensors : list json) :
  exists out,
    classify_members execute_request loads sensors = Ok out /\
    forall b,
      bucket_list b out =
      map JDict (filter (in_bucket b)
                        (flat_map (member_record execute_request loads) sensors)).
Proof.
  destruct (member_loop_record sensors empty_out) as (out & E & P).
  exists out. split; [exact E|].
  intros b. rewrite P. destruct b; reflexivity.
Qed.

End MemberLoopFacts.

(** ** Composition of paths *)

Lemma split_append (sep : ascii) (a b : string) :
  PyStr.split sep (a ++ String sep b) = PyStr.split sep a ++ PyStr.split sep b.
Proof.
  induction a as [|c a IH]; cbn [append PyStr.split].
  - rewrite Ascii.eqb_refl. reflexivity.
  - destruct (Ascii.eqb c sep); rewrite IH; [reflexivity|].
    destruct (PyStr.split sep a) as [|w ws] eqn:E;
      [contradiction (split_not_nil sep a) | reflexivity].
Qed.

Lemma extract_path (loads : string -> res json) (data : json) (path : string) :
  extract_data loads data (KeyPath path) true = parse_json data (PyStr.split "." path).
Proof. unfold extract_data. rewrite load_document_parsed. reflexivity. Qed.

(** X8: a dotted path composes, with either value of [skip_parse]:
    [extract_data] on [a.b] gives what [extract_data] on [b], called with
    [skip_parse=True], gives in the value that [extract_data] on [a] found.
    When what was found is no string the second step gives the same with
    either value of [skip_parse]; a string that was found would be parsed
    again without it. *)
Theorem extract_data_dotted (loads : string -> res json) (data : json) (a b : string)
    (skip_parse : bool) :
  extract_data loads data (KeyPath (a ++ "." ++ b)) skip_parse =
    (found <- extract_data loads data (KeyPath a) skip_parse ;;
     extract_data loads found (KeyPath b) true) /\
  (forall found skip_parse',
      is_str found = false ->
      extract_data loads found (KeyPath b) skip_parse' =
      extract_data loads found (KeyPath b) true).
Proof.
  split.
  - unfold extract_data at 1 2.
    destruct (load_document loads data skip_parse) as [doc|e]; cbn [bind]; [|reflexivity].
    change (a ++ "." ++ b)%string with (a ++ String "." b)%string.
    rewrite split_append, parse_json_app.
    destruct (parse_json doc (PyStr.split "." a)) as [found|e]; cbn [bind]; [|reflexivity].
    rewrite extract_path. reflexivity.
  - intros found skip_parse' Hf. unfold extract_data, load_document.
    destruct found; try discriminate; reflexivity.
Qed.

Lemma plain_of_no_bracket (p : string) :
  PyStr.contains "[" p = false ->
  PyStr.endswith "]" p && PyStr.contains "[" p = false.
Proof. intros ->. apply andb_false_r. Qed.

(** X9: an element [K[i]] is the key [K] followed by the index [i], as long
    as what [K] holds is neither a mapping nor a string. *)
Theorem bracketed_is_key_then_index (d : dict) (key_part idx_part : string)
    (rest : list string) :
  PyStr.contains "[" key_part = false ->
  PyStr.contains "[" idx_part = false ->
  match dict_get_or key_part JNull d with
  | JDict _ => False
  | JStr _ => False
  | _ => True
  end ->
  parse_json (JDict d) (bracketed key_part idx_part :: rest) =
  parse_json (JDict d) (key_part :: idx_part :: rest).
Proof.
  intros Hk Hi Ht.
  cbn [parse_json is_none]. unfold segment at 1 2.
  rewrite segment_body_bracketed by exact Hk.
  unfold segment_body at 1. rewrite (plain_of_no_bracket _ Hk).
  cbn [py_get bind try_except].
  destruct (dict_get_or key_part JNull d) as [|b|z|f|s|l|d'] eqn:T; try contradiction;
    cbn [is_none]; unfold segment, segment_body;
    rewrite ?(plain_of_no_bracket _ Hi);
    destruct (PyStr.to_int idx_part) as [n|e]; cbn [bind try_except py_getitem];
    try reflexivity.
  destruct (match norm_index (List.length l) n with
            | Some n0 => match nth_error l n0 with
                         | Some v => Ok v
                         | None => Raise IndexError
                         end
            | None => Raise IndexError
            end); reflexivity.
Qed.

Lemma bracketed_is_key_then_index_witness :
  parse_json three_items [bracketed "K" "1"] = parse_json three_items ["K"; "1"].
Proof.
  exact (bracketed_is_key_then_index [("K", JList [JInt 10; JInt 20; JInt 30])]
           "K" "1" [] eq_refl eq_refl I).
Defined.

(** X10: what is stored under a simple key (no dot, not of the form [K[i]])
    is what the extractor reads back under that key. *)
Theorem extract_data_reads_back (loads : string -> res json) (d : dict)
    (k : string) (v : json) :
  PyStr.contains "." k = false ->
  PyStr.endswith "]" k && PyStr.contains "[" k = false ->
  extract_data loads (JDict (dict_set k v d)) (KeyPath k) true = Ok v.
Proof.
  intros Hdot Hplain. rewrite extract_path, split_free by exact Hdot.
  cbn [parse_json is_none]. unfold segment, segment_body. rewrite Hplain.
  cbn [try_except bind]. unfold dict_get_or. rewrite dict_get_set_eq. reflexivity.
Qed.

Lemma extract_data_reads_back_witness :
  extract_data (fun _ => Raise ValueError)
    (JDict (dict_set "Model" (JStr "R740") [("Id", JInt 1)])) (KeyPath "Model") true =
  Ok (JStr "R740").
Proof.
  exact (extract_data_reads_back _ [("Id", JInt 1)] "Model" (JStr "R740") eq_refl eq_refl).
Defined.

Lemma parse_json_scalar (data : json) (json_path : list string) :
  is_scalar data = true -> json_path <> [] -> parse_json data json_path = Ok JNull.
Proof.
  intros Hs Hne. destruct json_path as [|p rest]; [congruence|].
  apply parse_json_step_fails.
  destruct data; try discriminate; try (left; reflexivity);
    unfold step_fails, segment_body;
    (destruct (PyStr.endswith "]" p && PyStr.contains "[" p);
     [right; left;
      destruct (unpack2 (PyStr.split1 "[" (PyStr.drop_last p))) as [[kp ip]|e];
      cbn [bind py_get]; eexists; reflexivity
     | right; right; left; reflexivity]).
Qed.

(** X11: nothing is found inside a number, a truth value or [None]:
    [extract_data] returns [None] for every path, with either value of
    [skip_parse].  The same holds for a string handed over with
    [skip_parse=True].  Without it a string is parsed first: the result is
    that of the parsed document, and [RuntimeError] when the string does not
    parse. *)
Theorem extract_data_scalar (loads : string -> res json) (path : string) :
  (forall data skip_parse,
      is_scalar data = true -> is_str data = false ->
      extract_data loads data (KeyPath path) skip_parse = Ok JNull) /\
  (forall text, extract_data loads (JStr text) (KeyPath path) true = Ok JNull) /\
  (forall text,
      extract_data loads (JStr text) (KeyPath path) false =
      match loads text with
      | Ok doc => extract_data loads doc (KeyPath path) true
      | Raise _ =>
          Raise (RuntimeError
                   "Could not parse received JSON object. See logs for more information.")
      end).
Proof.
  split; [|split].
  - intros data skip_parse Hs Hn. unfold extract_data, load_document.
    destruct data; try discriminate; cbn [bind];
      apply parse_json_scalar; solve [reflexivity | apply split_not_nil].
  - intros text. rewrite extract_path.
    apply parse_json_scalar; [reflexivity | apply split_not_nil].
  - intros text. unfold extract_data at 1. cbn [load_document negb].
    destruct (loads text) as [doc|e]; cbn [try_except bind]; [|reflexivity].
    rewrite extract_path. reflexivity.
Qed.

Lemma extract_data_scalar_witness :
  extract_data (fun _ => Raise ValueError) (JStr "{}") (KeyPath "Status.Health") true =
    Ok JNull /\
  extract_data (fun _ => Ok system_doc) (JStr "{}") (KeyPath "Status.Health") false =
    Ok (JStr "OK") /\
  extract_data (fun _ => Raise ValueError) (JInt 7) (KeyPath "Status.Health") false =
    Ok JNull.
Proof.
  split; [|split].
  - exact (proj1 (proj2 (extract_data_scalar _ "Status.Health")) "{}").
  - rewrite (proj2 (proj2 (extract_data_scalar _ "Status.Health")) "{}"). reflexivity.
  - exact (proj1 (extract_data_scalar _ "Status.Health") (JInt 7) false eq_refl eq_refl).
Defined.

(** ** More on the temperature and system board trims *)

Lemma map_res_Forall2 {A B : Type} (f : A -> res B) (l : list A) (out : list B) :
  map_res f l = Ok out -> Forall2 (fun x y => f x = Ok y) l out.
Proof.
  revert out; induction l as [|x l IH]; intros out; cbn [map_res].
  - intros [= <-]. constructor.
  - destruct (f x) as [y|e] eqn:E; cbn [bind]; [|discriminate].
    destruct (map_res f l) as [ys|e]; cbn [bind]; [|discriminate].
    intros [= <-]. constructor; [exact E | apply IH; reflexivity].
Qed.

Lemma map_res_fixed {A : Type} (f : A -> res A) (l out : list A) :
  (forall x y, f x = Ok y -> f y = Ok y) ->
  map_res f l = Ok out -> map_res f out = Ok out.
Proof.
  intros Hf H. apply map_res_Forall2 in H.
  induction H as [|x y l out Hxy _ IH]; [reflexivity|].
  cbn [map_res]. rewrite (Hf _ _ Hxy), IH. reflexivity.
Qed.

Lemma format_temp_obj_cases (d : dict) :
  match dict_get_or "name" (JStr "") d with
  | JStr s =>
      format_temp_obj (JDict d) =
      Ok (if (1 <? List.length (PyStr.split " " s))%nat
          then JDict (dict_set "name" (JStr (temp_name s)) d)
          else JDict d)
  | _ => format_temp_obj (JDict d) = Raise AttributeError
  end.
Proof.
  unfold format_temp_obj, temp_name. cbn [py_get_default bind].
  destruct (dict_get_or "name" (JStr "") d); try reflexivity.
  cbn [py_split bind].
  destruct (1 <? List.length (PyStr.split " " s))%nat; reflexivity.
Qed.

Lemma format_sysboard_obj_cases (d : dict) :
  match dict_get_or "name" (JStr "") d with
  | JStr s =>
      format_sysboard_obj (JDict d) =
      Ok (match filter keep_word (PyStr.split " " s) with
          | [] => JDict d
          | _ => JDict (dict_set "name" (JStr (sysboard_name s)) d)
          end)
  | _ => format_sysboard_obj (JDict d) = Raise AttributeError
  end.
Proof.
  unfold format_sysboard_obj, sysboard_name. cbn [py_get_default bind].
  destruct (dict_get_or "name" (JStr "") d); try reflexivity.
  cbn [py_split bind]. fold keep_word.
  destruct (filter keep_word (PyStr.split " " s)); reflexivity.
Qed.

Lemma map_res_all_or_error {A B : Type} (f : A -> res B) (good : A -> bool)
    (e : exn) (l : list A) :
  (forall x, good x = true -> exists y, f x = Ok y) ->
  (forall x, good x = false -> f x = Raise e) ->
  (forallb good l = true -> exists out, map_res f l = Ok out) /\
  (forallb good l = false -> map_res f l = Raise e).
Proof.
  intros Hgood Hbad. induction l as [|x l [IH1 IH2]]; cbn [forallb map_res].
  - split; [eauto | discriminate].
  - destruct (good x) eqn:G; cbn [andb].
    + destruct (Hgood x G) as [y ->]. cbn [bind]. split.
      * intros H. destruct (IH1 H) as [out ->]. cbn [bind]. eauto.
      * intros H. rewrite (IH2 H). reflexivity.
    + rewrite (Hbad x G). split; [discriminate | reflexivity].
Qed.

Lemma format_temp_obj_good (obj : json) :
  (match obj with JDict d => name_is_str d | _ => false end) = true ->
  exists y, format_temp_obj obj = Ok y.
Proof.
  destruct obj as [| | | | | |d]; try discriminate. unfold name_is_str.
  pose proof (format_temp_obj_cases d) as C.
  destruct (dict_get_or "name" (JStr "") d); try discriminate. eauto.
Qed.

Lemma format_temp_obj_bad (obj : json) :
  (match obj with JDict d => name_is_str d | _ => false end) = false ->
  format_temp_obj obj = Raise AttributeError.
Proof.
  destruct obj as [| | | | | |d]; try reflexivity. unfold name_is_str.
  pose proof (format_temp_obj_cases d) as C.
  destruct (dict_get_or "name" (JStr "") d); try discriminate; intros _; exact C.
Qed.

Lemma format_sysboard_obj_good (obj : json) :
  (match obj with JDict d => name_is_str d | _ => false end) = true ->
  exists y, format_sysboard_obj obj = Ok y.
Proof.
  destruct obj as [| | | | | |d]; try discriminate. unfold name_is_str.
  pose proof (format_sysboard_obj_cases d) as C.
  destruct (dict_get_or "name" (JStr "") d); try discriminate. eauto.
Qed.

Lemma format_sysboard_obj_bad (obj : json) :
  (match obj with JDict d => name_is_str d | _ => false end) = false ->
  format_sysboard_obj obj = Raise AttributeError.
Proof.
  destruct obj as [| | | | | |d]; try reflexivity. unfold name_is_str.
  pose proof (format_sysboard_obj_cases d) as C.
  destruct (dict_get_or "name" (JStr "") d); try discriminate; intros _; exact C.
Qed.

(** X12: [format_temp] and [format_sysboard] return exactly when every
    record is a mapping whose name is a string (or is missing); a single
    record with any other name, [None] included, makes the whole call raise
    [AttributeError], whatever the other records are. *)
Theorem trims_need_string_names (objs : list json) :
  let good obj := match obj with JDict d => name_is_str d | _ => false end in
  (forallb good objs = true ->
   (exists out, format_temp objs = Ok out) /\
   (exists out, format_sysboard objs = Ok out)) /\
  (forallb good objs = false ->
   format_temp objs = Raise AttributeError /\
   format_sysboard objs = Raise AttributeError).
Proof.
  intros good.
  destruct (map_res_all_or_error format_temp_obj good AttributeError objs
              format_temp_obj_good format_temp_obj_bad) as [T1 T2].
  destruct (map_res_all_or_error format_sysboard_obj good AttributeError objs
              format_sysboard_obj_good format_sysboard_obj_bad) as [S1 S2].
  split; intros H; split; auto.
Qed.

Lemma format_temp_obj_same (obj obj' : json) :
  format_temp_obj obj = Ok obj' -> same_but_name obj obj'.
Proof.
  destruct obj as [| | | | | |d]; try discriminate.
  pose proof (format_temp_obj_cases d) as C.
  destruct (dict_get_or "name" (JStr "") d); try (rewrite C; discriminate).
  rewrite C. intros [= <-].
  destruct (1 <? List.length (PyStr.split " " s))%nat.
  - exists d, (dict_set "name" (JStr (temp_name s)) d).
    repeat split. intros k Hk. apply dict_get_set_neq. congruence.
  - exists d, d. repeat split.
Qed.

Lemma format_sysboard_obj_same (obj obj' : json) :
  format_sysboard_obj obj = Ok obj' -> same_but_name obj obj'.
Proof.
  destruct obj as [| | | | | |d]; try discriminate.
  pose proof (format_sysboard_obj_cases d) as C.
  destruct (dict_get_or "name" (JStr "") d); try (rewrite C; discriminate).
  rewrite C. intros [= <-].
  destruct (filter keep_word (PyStr.split " " s)).
  - exists d, d. repeat split.
  - exists d, (dict_set "name" (JStr (sysboard_name s)) d).
    repeat split. intros k Hk. apply dict_get_set_neq. congruence.
Qed.

(** X13: when a trim returns, it returns as many records as it was given,
    in the same order, and each differs from the one given at most in the
    value of its name: every other field is as it was. *)
Theorem trims_keep_other_fields (objs out : list json) :
  format_temp objs = Ok out \/ format_sysboard objs = Ok out ->
  Forall2 same_but_name objs out.
Proof.
  intros [H|H]; apply map_res_Forall2 in H;
    (eapply Forall2_impl; [|exact H]); cbv beta.
  - apply format_temp_obj_same.
  - apply format_sysboard_obj_same.
Qed.

Lemma trims_keep_other_fields_witness :
  Forall2 same_but_name
    [JDict [("id", JInt 7); ("name", JStr "Inlet Temp")]]
    [JDict [("id", JInt 7); ("name", JStr "Inlet")]].
Proof.
  apply (trims_keep_other_fields
           [JDict [("id", JInt 7); ("name", JStr "Inlet Temp")]]
           [JDict [("id", JInt 7); ("name", JStr "Inlet")]]).
  left. reflexivity.
Defined.

Lemma filter_twice {A : Type} (f : A -> bool) (l : list A) :
  filter f (filter f l) = filter f l.
Proof.
  induction l as [|x l IH]; cbn [filter]; [reflexivity|].
  destruct (f x) eqn:E; cbn [filter]; [rewrite E, IH|]; auto.
Qed.

Lemma filter_Forall {A : Type} (f : A -> bool) (P : A -> Prop) (l : list A) :
  Forall P l -> Forall P (filter f l).
Proof.
  induction 1 as [|x l Hx _ IH]; cbn [filter]; [constructor|].
  destruct (f x); [constructor; assumption | assumption].
Qed.

(** The pieces of the trimmed name are the pieces that are no stopwords. *)
Lemma sysboard_name_split (s : string) :
  filter keep_word (PyStr.split " " s) <> [] ->
  PyStr.split " " (sysboard_name s) = filter keep_word (PyStr.split " " s).
Proof.
  intros Hne. unfold sysboard_name.
  destruct (filter keep_word (PyStr.split " " s)) as [|w ws] eqn:F; [congruence|].
  apply split_join; [discriminate|].
  rewrite <- F. apply filter_Forall, split_pieces_free.
Qed.

Lemma sysboard_name_twice (s : string) :
  sysboard_name (sysboard_name s) = sysboard_name s.
Proof.
  destruct (filter keep_word (PyStr.split " " s)) as [|w ws] eqn:F.
  - unfold sysboard_name at 2. rewrite F. reflexivity.
  - unfold sysboard_name at 1.
    rewrite sysboard_name_split by (rewrite F; discriminate).
    rewrite filter_twice, F. unfold sysboard_name. rewrite F. reflexivity.
Qed.

Lemma format_sysboard_obj_fixed (obj obj' : json) :
  format_sysboard_obj obj = Ok obj' -> format_sysboard_obj obj' = Ok obj'.
Proof.
  destruct obj as [| | | | | |d]; try discriminate.
  pose proof (format_sysboard_obj_cases d) as C.
  destruct (dict_get_or "name" (JStr "") d) as [| | | |s| |] eqn:N;
    try (rewrite C; discriminate).
  rewrite C. intros [= <-].
  destruct (filter keep_word (PyStr.split " " s)) as [|w ws] eqn:F.
  - rewrite C. reflexivity.
  - pose proof (format_sysboard_obj_cases
                  (dict_set "name" (JStr (sysboard_name s)) d)) as C'.
    unfold dict_get_or in C'. rewrite dict_get_set_eq in C'.
    rewrite C', sysboard_name_split by (rewrite F; discriminate).
    rewrite filter_twice, F, sysboard_name_twice.
    rewrite dict_set_same by apply dict_get_set_eq. reflexivity.
Qed.

(** X14: the system board trim is idempotent: applied to its own result it
    returns that result unchanged. *)
Theorem format_sysboard_idempotent (sys_obj out : list json) :
  format_sysboard sys_obj = Ok out -> format_sysboard out = Ok out.
Proof. apply map_res_fixed, format_sysboard_obj_fixed. Qed.

Lemma format_sysboard_idempotent_witness :
  format_sysboard [JDict [("name", JStr "CPU")]] = Ok [JDict [("name", JStr "CPU")]].
Proof.
  apply (format_sysboard_idempotent [JDict [("name", JStr "System Board CPU Usage")]]).
  reflexivity.
Defined.

Lemma keep_word_not_stopword (w : string) : keep_word w = not_stopword w.
Proof.
  unfold keep_word, not_stopword, remove. cbn [existsb].
  rewrite orb_false_r, orb_assoc. reflexivity.
Qed.

Lemma kept_pieces_filter (name : string) :
  filter keep_word (PyStr.split " " name) = kept_pieces name.
Proof. apply filter_ext, keep_word_not_stopword. Qed.

(** X15: [format_sysboard] gives a record the name made, with single
    spaces, of the pieces of the old name that are none of [System],
    [Board] and [Usage], in their order (empty pieces, which leading,
    trailing and doubled spaces leave, are kept like any other piece), and
    these are exactly the pieces of the new name; when no piece is left the
    name stays as it is. *)
Theorem format_sysboard_pieces (d : dict) (name : string) :
  dict_get "name" d = Some (JStr name) ->
  format_sysboard [JDict d] =
    Ok [JDict (dict_set "name"
                 (JStr (match kept_pieces name with
                        | [] => name
                        | _ => PyStr.join " " (kept_pieces name)
                        end)) d)] /\
  (kept_pieces name <> [] ->
   PyStr.split " " (PyStr.join " " (kept_pieces name)) = kept_pieces name).
Proof.
  intros Hn. split.
  - rewrite format_sysboard_rename.
    + cbn [map rename]. rewrite Hn. unfold sysboard_name.
      rewrite kept_pieces_filter. destruct (kept_pieces name); reflexivity.
    + constructor; [|constructor]. exists d, name. split; [reflexivity | exact Hn].
  - intros Hne. apply split_join; [exact Hne|].
    apply filter_Forall, split_pieces_free.
Qed.

Lemma format_sysboard_pieces_witness :
  kept_pieces "System Board CPU Usage" = ["CPU"] /\
  format_sysboard [JDict [("id", JInt 3); ("name", JStr "System Board CPU Usage")]] =
    Ok [JDict [("id", JInt 3); ("name", JStr "CPU")]].
Proof.
  split; [reflexivity|].
  exact (proj1 (format_sysboard_pieces
                  [("id", JInt 3); ("name", JStr "System Board CPU Usage")]
                  "System Board CPU Usage" eq_refl)).
Defined.

Lemma join_snoc (sep : string) (init : list string) (final : string) :
  init <> [] ->
  PyStr.join sep (init ++ [final]) = (PyStr.join sep init ++ sep ++ final)%string.
Proof.
  unfold PyStr.join. induction init as [|w ws IH]; intros Hne; [congruence|].
  destruct ws as [|w2 ws].
  - reflexivity.
  - change (concat sep ((w :: w2 :: ws) ++ [final]))
      with (w ++ sep ++ concat sep ((w2 :: ws) ++ [final]))%string.
    rewrite IH by discriminate.
    change (concat sep (w :: w2 :: ws)) with (w ++ sep ++ concat sep (w2 :: ws))%string.
    rewrite !append_assoc. reflexivity.
Qed.

Lemma temp_name_last_space (kept rest : string) :
  space_free rest -> temp_name (kept ++ " " ++ rest) = kept.
Proof.
  intros Hrest. unfold temp_name.
  change (kept ++ " " ++ rest)%string with (kept ++ String " " rest)%string.
  pose proof (split_not_nil " " kept) as Hne.
  assert (E : PyStr.split " " (kept ++ String " " rest) =
              (PyStr.split " " kept ++ [rest])%list).
  { pose proof (split_append " " kept rest) as A.
    rewrite (split_free " " rest Hrest) in A. exact A. }
  rewrite E, removelast_last.
  replace (1 <? List.length (PyStr.split " " kept ++ [rest]))%nat with true.
  - apply join_split.
  - symmetry. apply Nat.ltb_lt. rewrite length_app. cbn [List.length].
    destruct (PyStr.split " " kept); [congruence | cbn [List.length]; lia].
Qed.

Lemma temp_name_no_space (name : string) : space_free name -> temp_name name = name.
Proof.
  intros H. unfold temp_name. rewrite (split_free " " name H). reflexivity.
Qed.

(** X22: [format_temp] cuts a name at its last space: the part after that
    space goes, with the space, and the part before it is the new name,
    whatever it holds.  A name with no space is left as it is. *)
Theorem format_temp_cuts_at_last_space (d : dict) (name : string) :
  dict_get "name" d = Some (JStr name) ->
  (space_free name -> format_temp [JDict d] = Ok [JDict d]) /\
  (forall kept rest,
      name = (kept ++ " " ++ rest)%string -> space_free rest ->
      format_temp [JDict d] = Ok [JDict (dict_set "name" (JStr kept) d)]).
Proof.
  intros Hn.
  assert (R : format_temp [JDict d] =
              Ok [JDict (dict_set "name" (JStr (temp_name name)) d)]).
  { rewrite format_temp_rename.
    - cbn [map rename]. rewrite Hn. reflexivity.
    - constructor; [|constructor]. exists d, name. split; [reflexivity | exact Hn]. }
  split.
  - intros H. rewrite R, (temp_name_no_space name H), dict_set_same by exact Hn.
    reflexivity.
  - intros kept rest -> H. rewrite R, (temp_name_last_space kept rest H). reflexivity.
Qed.

Lemma format_temp_cuts_at_last_space_witness :
  format_temp [JDict [("id", JInt 7); ("name", JStr "CPU1 Core Temp")]] =
    Ok [JDict [("id", JInt 7); ("name", JStr "CPU1 Core")]] /\
  format_temp [JDict [("name", JStr "Inlet Temp ")]] =
    Ok [JDict [("name", JStr "Inlet Temp")]].
Proof.
  split.
  - exact (proj2 (format_temp_cuts_at_last_space
                    [("id", JInt 7); ("name", JStr "CPU1 Core Temp")] "CPU1 Core Temp"
                    eq_refl) "CPU1 Core" "Temp" eq_refl eq_refl).
  - exact (proj2 (format_temp_cuts_at_last_space
                    [("name", JStr "Inlet Temp ")] "Inlet Temp " eq_refl)
                 "Inlet Temp" "" eq_refl eq_refl).
Defined.

(** ** What the buckets hold *)

(** X16: a record the chain sends to a bucket has what the bucket stands
    for: context [PowerSupply] in psu, type [Temperature] in temperature, a
    name with [Fan] and type [Rotational] in fan, and in sysBoard a name with
    [System Board] and type [Percent], or context [Chassis].  A record that is
    ignored has none of type [Temperature], context [PowerSupply] and context
    [Chassis]. *)
Theorem bucket_invariants (d : dict) (r : rule) :
  classify (JDict d) = Ok r -> bucket_guarantee d (bucket_of r).
Proof.
  rewrite classify_chain. intros [= <-].
  pose proof (chain_selects d) as H. unfold bucket_guarantee.
  destruct H as [H1|? H2|? ? H3|? ? ? H4|? ? ? ? H5|? ? ? ? ? H6|]; cbn [bucket_of].
  - exact (proj2 H1).
  - exact H2.
  - exact H3.
  - left. exact H4.
  - exact H5.
  - right. exact H6.
  - tauto.
Qed.

Lemma bucket_invariants_witness :
  bucket_guarantee ps1_voltage (Some Psu).
Proof. exact (bucket_invariants ps1_voltage RulePsuName eq_refl). Defined.

(** ** The member list *)

Section MemberListFacts.

Variable loads : string -> res json.

Lemma select_sensors_of_object (sensors_raw : string) (d : dict) :
  loads sensors_raw = Ok (JDict d) ->
  select_sensors loads sensors_raw =
  match py_or (py_or (dict_get_or "Members" JNull d) (dict_get_or "members" JNull d))
              (JDict d) with
  | JList l => Ok l
  | _ => Raise (RuntimeError "Unexpected type for sensors.")
  end.
Proof.
  intros Hl. unfold select_sensors. rewrite Hl. cbn [try_except bind].
  destruct (py_or (py_or (dict_get_or "Members" JNull d) (dict_get_or "members" JNull d))
                  (JDict d)) eqn:E; cbn [is_none bind]; reflexivity.
Qed.

Lemma py_or_list (a b : json) (l : list json) :
  py_or a b = JList l ->
  (a = JList l /\ l <> []) \/ (truthy a = false /\ b = JList l).
Proof.
  unfold py_or. destruct (truthy a) eqn:T; intros E; [left | right; tauto].
  subst a. split; [reflexivity|]. destruct l; [discriminate | discriminate].
Qed.

(** X17: the sensor phase gets a member list in two cases only: the
    collection parses to a sequence, which is the list; or it parses to an
    object whose [Members] is a list with at least one item, or whose
    [Members] counts as false and whose [members] is a list with at least one
    item.  In every other case the phase stops with [RuntimeError]. *)
Theorem select_sensors_cases (sensors_raw : string) (l : list json) :
  (select_sensors loads sensors_raw = Ok l <->
   loads sensors_raw = Ok (JList l) \/
   exists d, loads sensors_raw = Ok (JDict d) /\ object_members d l) /\
  (forall e, select_sensors loads sensors_raw = Raise e ->
             e = RuntimeError "Unexpected type for sensors.").
Proof.
  split.
  - split.
    + destruct (loads sensors_raw) as [doc|e] eqn:Hl.
      * destruct doc as [|b|z|f|s|l0|d];
          try (unfold select_sensors; rewrite Hl; discriminate).
        -- unfold select_sensors. rewrite Hl. cbn [try_except bind is_none].
           intros [= ->]. left. reflexivity.
        -- rewrite (select_sensors_of_object _ d Hl).
           destruct (py_or _ (JDict d)) as [| | | | |l0|] eqn:E; try discriminate.
           intros [= ->]. right. exists d. split; [reflexivity|].
           apply py_or_list in E. destruct E as [[E Hne]|[T E]]; [|discriminate].
           apply py_or_list in E. unfold object_members.
           destruct E as [[E Hne']|[T' E]].
           ++ split; [exact Hne' | left; exact E].
           ++ split; [exact Hne | right; split; assumption].
      * unfold select_sensors. rewrite Hl. discriminate.
    + intros [Hl|(d & Hl & Hne & H)].
      * unfold select_sensors. rewrite Hl. reflexivity.
      * rewrite (select_sensors_of_object _ d Hl). unfold py_or.
        destruct H as [H|[T H]].
        -- rewrite H. destruct l; [congruence | reflexivity].
        -- rewrite T, H. destruct l; [congruence | reflexivity].
  - intros e. destruct (loads sensors_raw) as [doc|e0] eqn:Hl.
    + destruct doc as [|b|z|f|s|l0|d];
        try (unfold select_sensors; rewrite Hl; simpl;
             intros H; injection H as <-; reflexivity).
      * unfold select_sensors. rewrite Hl. discriminate.
      * rewrite (select_sensors_of_object _ d Hl).
        destruct (py_or _ (JDict d));
          first [discriminate | intros H; injection H as <-; reflexivity].
    + unfold select_sensors. rewrite Hl. simpl.
      intros H; injection H as <-. reflexivity.
Qed.

End MemberListFacts.

(** ** What [format_psu] needs *)

Lemma update_buffer_length (psu_name : string) (obj : json)
    (buffer buffer' : list dict) :
  update_buffer psu_name obj buffer = Ok buffer' ->
  List.length buffer' = List.length buffer.
Proof.
  revert buffer'; induction buffer as [|b bs IH]; intros buffer'; cbn [update_buffer].
  - intros [= <-]. reflexivity.
  - destruct (dict_getitem "name" b) as [nm|e]; cbn [bind]; [|discriminate].
    destruct (eq_str nm psu_name).
    + destruct (psu_key_of obj); cbn [bind]; [|discriminate].
      destruct (psu_entry_of obj); cbn [bind]; [|discriminate].
      intros [= <-]. reflexivity.
    + destruct (update_buffer psu_name obj bs) as [bs'|e] eqn:E; cbn [bind];
        [|discriminate].
      intros [= <-]. cbn [List.length]. rewrite (IH bs' eq_refl). reflexivity.
Qed.

Lemma psu_name_of_string (obj : json) (t : string) :
  psu_name_of obj = Ok t -> dict_with_string_name obj.
Proof.
  unfold psu_name_of, dict_with_string_name, name_is_str.
  destruct obj as [| | | | | |d]; try discriminate.
  cbn [py_get_default bind].
  destruct (dict_get_or "name" (JStr "") d) eqn:E; try discriminate.
  intros _. exists d. split; [reflexivity | rewrite E; reflexivity].
Qed.

Lemma psu_step_needs (st st' : list string * list dict) (obj : json) :
  psu_step st obj = Ok st' ->
  dict_with_string_name obj /\
  List.length (snd st) <= List.length (snd st') <= S (List.length (snd st)).
Proof.
  destruct st as [found buffer]. unfold psu_step.
  destruct (psu_name_of obj) as [t|e] eqn:N; cbn [bind]; [|discriminate].
  apply psu_name_of_string in N.
  destruct (negb (existsb (String.eqb t) found)).
  - destruct (psu_key_of obj); cbn [bind]; [|discriminate].
    destruct (psu_entry_of obj); cbn [bind]; [|discriminate].
    intros [= <-]. cbn [snd]. rewrite length_app. cbn [List.length].
    split; [exact N | lia].
  - destruct (update_buffer t obj buffer) as [buffer'|e] eqn:U; cbn [bind];
      [|discriminate].
    intros [= <-]. cbn [snd]. rewrite (update_buffer_length _ _ _ _ U).
    split; [exact N | lia].
Qed.

Lemma psu_scan_needs (objs : list json) (st st' : list string * list dict) :
  fold_res psu_step objs st = Ok st' ->
  Forall dict_with_string_name objs /\
  List.length (snd st) <= List.length (snd st') <=
  List.length (snd st) + List.length objs.
Proof.
  revert st; induction objs as [|obj objs IH]; intros st; cbn [fold_res].
  - intros [= <-]. split; [constructor | lia].
  - destruct (psu_step st obj) as [st1|e] eqn:E; cbn [bind]; [|discriminate].
    intros H. apply psu_step_needs in E. apply IH in H.
    destruct E as [Hn Hl], H as [Hf Hl'].
    split; [constructor; assumption | cbn [List.length]; lia].
Qed.

(** X18: when [format_psu] returns, every record it was given is a mapping
    whose name is a string (a name of any other kind, [None] included, makes
    it raise), and it returns at most as many records as it was given. *)
Theorem format_psu_needs_string_names (psu_obj out : list json) :
  format_psu psu_obj = Ok out ->
  Forall dict_with_string_name psu_obj /\
  List.length out <= List.length psu_obj.
Proof.
  unfold format_psu.
  destruct (fold_res psu_step psu_obj ([], [])) as [st|e] eqn:E; cbn [bind];
    [|discriminate].
  intros [= <-]. apply psu_scan_needs in E. destruct E as [Hf Hl].
  split; [exact Hf|]. rewrite length_map. simpl in Hl. exact (proj2 Hl).
Qed.

Lemma format_psu_needs_string_names_witness :
  Forall dict_with_string_name psu_example /\ 2 <= List.length psu_example.
Proof.
  exact (format_psu_needs_string_names psu_example
           (map JDict
              [[("name", JStr "PS1");
                ("voltage", JDict [("reading", JInt 13); ("health", JStr "Critical")]);
                ("current", JDict [("reading", JFloat 1.5); ("health", JStr "OK")])];
               [("name", JStr "PS2");
                ("voltage", JDict [("reading", JInt 11); ("health", JStr "Warning")])]])
           eq_refl).
Defined.

(* ================================================================== *)
(** * Properties of the prober *)

Section ProberFacts.

Variable replies : nat -> Prober.reply.
Variable clock : nat -> float.
Variables BASE_URL NAMESPACE : string.

(** One probe, spelled out: one request, the outcome of its reply, one or
    two pairs of metric updates. *)
Lemma do_probe_steps (method url scenario endpoint : string) (body : option json)
    (st : Prober.state) :
  let r := replies (Prober.requests_made st) in
  Prober.do_probe replies clock NAMESPACE method url scenario endpoint body st =
  (probe_outcome r,
   Prober.State (S (Prober.requests_made st))
                (Prober.times_counted r + S (Prober.clock_reads st))
                (Prober.events st ++
                 Prober.Requested method url body ::
                 probe_metrics clock NAMESPACE (Prober.clock_reads st)
                               scenario endpoint r)).
Proof.
  cbv zeta. unfold Prober.do_probe, probe_outcome, probe_metrics, Prober.times_counted,
    Prober.code_label, Prober.record_metrics.
  cbn [Prober.read_clock Prober.request Prober.requests_made Prober.clock_reads
       Prober.events].
  destruct (replies (Prober.requests_made st)) as [status|];
    [destruct (Prober.is_error status)|];
    cbn [Prober.read_clock Prober.requests_made Prober.clock_reads Prober.events];
    rewrite <- ?app_assoc; reflexivity.
Qed.

Lemma requested_app (st : Prober.state) (method url : string) (body : option json)
    (n c : nat) (metrics : list Prober.event) :
  Forall (fun e => match e with Prober.Requested _ _ _ => False | _ => True end) metrics ->
  Prober.requested (Prober.State n c
                      (Prober.events st ++ Prober.Requested method url body :: metrics)) =
  Prober.requested st ++ [(method, url)].
Proof.
  intros H. unfold Prober.requested. cbn [Prober.events].
  rewrite flat_map_app. f_equal. cbn [flat_map app]. f_equal.
  induction H as [|e l He _ IH]; [reflexivity|].
  cbn [flat_map]. destruct e; try contradiction; exact IH.
Qed.

Lemma probe_metrics_no_request (t0 : nat) (scenario endpoint : string)
    (r : Prober.reply) :
  Forall (fun e => match e with Prober.Requested _ _ _ => False | _ => True end)
         (probe_metrics clock NAMESPACE t0 scenario endpoint r).
Proof.
  unfold probe_metrics. destruct (Prober.times_counted r) as [|[|k]];
    repeat constructor.
Qed.

Lemma probe_metrics_counted (t0 : nat) (scenario endpoint : string)
    (r : Prober.reply) (ns sc ep c : string) :
  List.length (filter (Prober.is_counted ns sc ep c)
                      (probe_metrics clock NAMESPACE t0 scenario endpoint r)) =
  if Prober.is_counted ns sc ep c
       (Prober.Counted NAMESPACE scenario endpoint (Prober.code_label r))
  then Prober.times_counted r else 0.
Proof.
  unfold probe_metrics.
  assert (T : Prober.times_counted r = 1 \/ Prober.times_counted r = 2)
    by (unfold Prober.times_counted; destruct r as [status|];
        [destruct (Prober.is_error status)|]; auto).
  destruct T as [-> | ->]; cbn [app filter];
    change (Prober.is_counted ns sc ep c (Prober.Observed NAMESPACE scenario endpoint _))
      with false;
    cbn [Prober.is_counted];
    destruct ((NAMESPACE =? ns) && (scenario =? sc) && (endpoint =? ep) &&
              (Prober.code_label r =? c))%string; reflexivity.
Qed.

Lemma probe_metrics_observed (t0 : nat) (scenario endpoint : string)
    (r : Prober.reply) (ns sc ep : string) :
  List.length (filter (Prober.is_observed ns sc ep)
                      (probe_metrics clock NAMESPACE t0 scenario endpoint r)) =
  if ((NAMESPACE =? ns) && (scenario =? sc) && (endpoint =? ep))%string
  then Prober.times_counted r else 0.
Proof.
  unfold probe_metrics.
  assert (T : Prober.times_counted r = 1 \/ Prober.times_counted r = 2)
    by (unfold Prober.times_counted; destruct r as [status|];
        [destruct (Prober.is_error status)|]; auto).
  destruct T as [-> | ->]; cbn [app filter Prober.is_observed];
    destruct ((NAMESPACE =? ns) && (scenario =? sc) && (endpoint =? ep))%string;
    reflexivity.
Qed.

Lemma probe_metrics_counted_all (t0 : nat) (scenario endpoint : string)
    (r : Prober.reply) :
  List.length (filter (fun e => match e with
                                | Prober.Counted _ _ _ _ => true
                                | _ => false
                                end)
                      (probe_metrics clock NAMESPACE t0 scenario endpoint r)) =
  Prober.times_counted r.
Proof.
  unfold probe_metrics.
  assert (T : Prober.times_counted r = 1 \/ Prober.times_counted r = 2)
    by (unfold Prober.times_counted; destruct r as [status|];
        [destruct (Prober.is_error status)|]; auto).
  destruct T as [-> | ->]; reflexivity.
Qed.

Lemma code_label_injective (r r' : Prober.reply) :
  Prober.code_label r = Prober.code_label r' -> r = r'.
Proof.
  assert (E : forall n, str_of_int n <> "exception").
  { intros n H. pose proof (to_int_str_of_int n) as T. rewrite H in T. discriminate. }
  destruct r as [n|], r' as [m|]; cbn [Prober.code_label]; intros H.
  - f_equal. pose proof (to_int_str_of_int n) as T. rewrite H, to_int_str_of_int in T.
    congruence.
  - exfalso. exact (E n H).
  - exfalso. exact (E m (eq_sym H)).
  - reflexivity.
Qed.

(** X19: one call of [do_probe] sends one request and returns exactly when
    the reply has a status outside 400 to 599.  It adds one to the counter and
    one observation to the histogram, under the labels of the probe and the
    code of the reply (the word [exception] when the request itself failed),
    except for a reply with a status from 400 to 599, which is counted and
    observed twice.  Different replies have different codes. *)
Theorem do_probe_counts (method url scenario endpoint : string) (body : option json)
    (st : Prober.state) :
  let r := replies (Prober.requests_made st) in
  let result :=
    Prober.do_probe replies clock NAMESPACE method url scenario endpoint body st in
  (forall r', Prober.code_label r = Prober.code_label r' -> r = r') /\
  fst result = probe_outcome r /\
  Prober.requested (snd result) = Prober.requested st ++ [(method, url)] /\
  (forall ns sc ep c,
      Prober.total ns sc ep c (snd result) =
      Prober.total ns sc ep c st +
      if Prober.is_counted ns sc ep c
           (Prober.Counted NAMESPACE scenario endpoint (Prober.code_label r))
      then Prober.times_counted r else 0) /\
  (forall ns sc ep,
      Prober.samples ns sc ep (snd result) =
      Prober.samples ns sc ep st +
      if ((NAMESPACE =? ns) && (scenario =? sc) && (endpoint =? ep))%string
      then Prober.times_counted r else 0).
Proof.
  cbv zeta. rewrite do_probe_steps. cbn [fst snd].
  split; [intros r'; apply code_label_injective|].
  split; [reflexivity|]. split; [apply requested_app, probe_metrics_no_request|].
  split.
  - intros ns sc ep c. unfold Prober.total. cbn [Prober.events].
    rewrite filter_app, length_app. f_equal. cbn [filter Prober.is_counted].
    apply probe_metrics_counted.
  - intros ns sc ep. unfold Prober.samples. cbn [Prober.events].
    rewrite filter_app, length_app. f_equal. cbn [filter Prober.is_observed].
    apply probe_metrics_observed.
Qed.

Lemma counted_all_step (st : Prober.state) (method url : string) (body : option json)
    (n c t0 : nat) (scenario endpoint : string) (r : Prober.reply) :
  counted_all (Prober.State n c
                 (Prober.events st ++ Prober.Requested method url body ::
                  probe_metrics clock NAMESPACE t0 scenario endpoint r)) =
  counted_all st + Prober.times_counted r.
Proof.
  unfold counted_all. cbn [Prober.events].
  rewrite filter_app, length_app. f_equal. cbn [filter].
  apply probe_metrics_counted_all.
Qed.

(** X20: [probe_roster] sends the cleanup and then the creation; it raises
    exactly when the creation does not return, and only when the creation
    returns does it send the second cleanup.  The replies to the two
    cleanups never make it raise, but all replies are counted. *)
Theorem probe_roster_sequence (st : Prober.state) :
  let n := Prober.requests_made st in
  let r1 := replies n in
  let r2 := replies (S n) in
  let r3 := replies (S (S n)) in
  let cleanup := ("DELETE", (BASE_URL ++ Prober.roster_endpoint)%string) in
  let create := ("POST", (BASE_URL ++ Prober.rosters_endpoint)%string) in
  let result := Prober.probe_roster replies clock BASE_URL NAMESPACE st in
  fst result =
    match probe_outcome r2 with
    | Prober.Raised e => Some e
    | Prober.Returned _ => None
    end /\
  Prober.requested (snd result) =
    Prober.requested st ++ [cleanup; create] ++
    (if Prober.succeeds r2 then [cleanup] else []) /\
  counted_all (snd result) =
    counted_all st + Prober.times_counted r1 + Prober.times_counted r2 +
    (if Prober.succeeds r2 then Prober.times_counted r3 else 0).
Proof.
  cbv zeta. unfold Prober.probe_roster. rewrite do_probe_steps. cbv zeta.
  rewrite do_probe_steps. cbv zeta. cbn [Prober.requests_made].
  unfold probe_outcome, Prober.succeeds.
  destruct (replies (S (Prober.requests_made st))) as [status|];
    [destruct (Prober.is_error status)|]; cbn [negb fst snd].
  - split; [reflexivity|]. split.
    + rewrite !requested_app by apply probe_metrics_no_request.
      rewrite <- app_assoc, app_nil_r. reflexivity.
    + rewrite !counted_all_step. lia.
  - rewrite do_probe_steps. cbv zeta. cbn [fst snd Prober.requests_made].
    split; [reflexivity|]. split.
    + rewrite !requested_app by apply probe_metrics_no_request.
      rewrite <- !app_assoc. reflexivity.
    + rewrite !counted_all_step. lia.
  - split; [reflexivity|]. split.
    + rewrite !requested_app by apply probe_metrics_no_request.
      rewrite <- app_assoc, app_nil_r. reflexivity.
    + rewrite !counted_all_step. lia.
Qed.

End ProberFacts.
